(** * Event-registration bot: shallow embedding and verification

    The development follows the layout of the repository:
    - [Py]        the Python built-ins the code relies on (str, dict, int, split ...);
    - [Sha256], [Hmac], [Base64]   hashlib / hmac / base64 as used by [utils.py];
    - [Datetime]  timezone-aware instants, their ISO rendering and reading
                  (what [fromisoformat] reads beyond the strings [isoformat()]
                  writes depends on the Python version: class [Python]);
    - [Utils]     utils.py (proof tokens, check-in window);
    - [LocalStorage]  local_storage.py (the durable store);
    - [Sheets]    sheets.py (business facade and spreadsheet mirror);
    - [UserManager]  user_manager.py (the registry kept in users.json);
    - [Handlers]  the conversation handlers of main.py, admin_handlers.py,
                  checkin_handlers.py and the fan-out loop of broadcast.py;
    - [Job], [Scheduler]  the periodic jobs of scheduler.py;
    - [Commands]  the administrator's commands and the callback data of
                  keyboards.py.
    Definitions come first, the theorems about them afterwards. *)

From Stdlib Require Import ZArith NArith String Ascii List Bool Lia.
Import ListNotations.

(* ===================================================================== *)
(** * Python built-ins                                                    *)
(* ===================================================================== *)

Module Py.

(** A Python [str] is a sequence of Unicode code points. *)
Definition pystr := list N.

(** ASCII literals of the source, written as Rocq strings. *)
Definition py (s : string) : pystr :=
  map N_of_ascii (list_ascii_of_string s).

Fixpoint str_eqb (a b : pystr) : bool :=
  match a, b with
  | [], [] => true
  | x :: a', y :: b' => N.eqb x y && str_eqb a' b'
  | _, _ => false
  end.

(** The scalar values that occur as fields of the stored records. *)
Inductive pyval :=
| PNone
| PBool (b : bool)
| PInt (z : Z)
| PStr (s : pystr).

(** The exceptions the modelled code can raise. *)
Inductive exn :=
| KeyError
| ValueError
| TypeError
| IndexError
| OverflowError
| UnicodeEncodeError
| OSError.

Inductive result (A : Type) :=
| Ok (a : A)
| Raise (e : exn).
Arguments Ok {A} a.
Arguments Raise {A} e.

Definition bind {A B} (r : result A) (k : A -> result B) : result B :=
  match r with
  | Ok a => k a
  | Raise e => Raise e
  end.

(** [str(n)] for a non-negative integer: decimal digits, most significant
    first.  [fuel] bounds the number of digits. *)
Fixpoint render_digits (fuel : nat) (n : N) (acc : pystr) : pystr :=
  match fuel with
  | O => acc
  | S f =>
      let acc' := (48 + n mod 10)%N :: acc in
      if (n / 10 =? 0)%N then acc' else render_digits f (n / 10) acc'
  end.

Definition str_of_N (n : N) : pystr :=
  render_digits (S (N.to_nat (N.size n))) n [].

Definition str_of_Z (z : Z) : pystr :=
  match z with
  | Zneg p => 45%N :: str_of_N (Npos p)
  | _ => str_of_N (Z.to_N z)
  end.

(** [str(v)] *)
Definition py_str (v : pyval) : pystr :=
  match v with
  | PNone => py "None"
  | PBool true => py "True"
  | PBool false => py "False"
  | PInt z => str_of_Z z
  | PStr s => s
  end.

(** Truthiness: [if v:] / [not v]. *)
Definition truthy (v : pyval) : bool :=
  match v with
  | PNone => false
  | PBool b => b
  | PInt z => negb (Z.eqb z 0)
  | PStr s => match s with [] => false | _ => true end
  end.

(** [v == s] for a string [s]: only an equal string compares equal. *)
Definition eq_str (v : pyval) (s : pystr) : bool :=
  match v with
  | PStr t => str_eqb t s
  | _ => false
  end.

(** [a == b] on scalars ([True == 1] and [False == 0] as in Python). *)
Definition py_eq (a b : pyval) : bool :=
  match a, b with
  | PNone, PNone => true
  | PStr s, PStr t => str_eqb s t
  | PInt x, PInt y => Z.eqb x y
  | PBool x, PBool y => Bool.eqb x y
  | PBool x, PInt y | PInt y, PBool x => Z.eqb (if x then 1 else 0) y
  | _, _ => false
  end.

(** [str.isspace] on one code point: the characters [str.strip()] removes. *)
Definition isspace (c : N) : bool :=
  ((9 <=? c) && (c <=? 13) || (28 <=? c) && (c <=? 32)
   || (c =? 133) || (c =? 160) || (c =? 5760)
   || (8192 <=? c) && (c <=? 8202)
   || (c =? 8232) || (c =? 8233) || (c =? 8239) || (c =? 8287)
   || (c =? 12288))%N.

Fixpoint lstrip (s : pystr) : pystr :=
  match s with
  | c :: s' => if isspace c then lstrip s' else s
  | [] => []
  end.

Definition rstrip (s : pystr) : pystr := rev (lstrip (rev s)).

(** [s.strip()] *)
Definition strip (s : pystr) : pystr := rstrip (lstrip s).

(** [s.startswith(p)] *)
Fixpoint startswith (p s : pystr) : bool :=
  match p, s with
  | [], _ => true
  | x :: p', y :: s' => N.eqb x y && startswith p' s'
  | _ :: _, [] => false
  end.

(** [p in s] for strings. *)
Fixpoint contains (p s : pystr) : bool :=
  startswith p s ||
  match s with
  | [] => false
  | _ :: s' => contains p s'
  end.

(** [s.split(sep)] for a non-empty separator.  [cur] is the piece being
    read (reversed); [skip] counts the characters of a separator that has
    been recognised and is still to be passed over. *)
Fixpoint split_go (sep s cur : pystr) (skip : nat) : list pystr :=
  match s with
  | [] => [rev cur]
  | c :: s' =>
      match skip with
      | S k => split_go sep s' cur k
      | O =>
          if startswith sep s
          then rev cur :: split_go sep s' [] (length sep - 1)
          else split_go sep s' (c :: cur) 0
      end
  end.

Definition split (sep s : pystr) : list pystr := split_go sep s [] 0.

(** [s.replace(c, '')] for a one-character [c]. *)
Definition remove_char (c : N) (s : pystr) : pystr :=
  filter (fun x => negb (N.eqb x c)) s.

(** [int(s)] for a string: surrounding whitespace is ignored, an optional
    sign, then decimal digits in which single underscores may separate
    digits.  [None] stands for [ValueError].  Only ASCII digits are read. *)
Definition is_digit (c : N) : bool := ((48 <=? c) && (c <=? 57))%N.

Fixpoint int_digits (s : pystr) (acc : Z) (after_digit : bool) : option Z :=
  match s with
  | [] => if after_digit then Some acc else None
  | c :: s' =>
      if is_digit c then int_digits s' (10 * acc + Z.of_N (c - 48)) true
      else if (c =? 95)%N && after_digit then int_digits s' acc false
      else None
  end.

Definition py_int (s : pystr) : option Z :=
  match strip s with
  | [] => None
  | c :: d =>
      if (c =? 45)%N then option_map Z.opp (int_digits d 0 false)
      else if (c =? 43)%N then int_digits d 0 false
      else int_digits (c :: d) 0 false
  end.

(** [s.isdigit()] restricted to ASCII digits. *)
Definition isdigit (s : pystr) : bool :=
  match s with
  | [] => false
  | _ => forallb is_digit s
  end.

(** A Python [dict] with string keys, in insertion order. *)
Definition dict (V : Type) := list (pystr * V).

Section Dict.
Context {V : Type}.

(** [d.get(k)] *)
Fixpoint dict_get (d : dict V) (k : pystr) : option V :=
  match d with
  | [] => None
  | (k', v) :: d' => if str_eqb k' k then Some v else dict_get d' k
  end.

(** [k in d] *)
Definition dict_mem (d : dict V) (k : pystr) : bool :=
  match dict_get d k with Some _ => true | None => false end.

(** [d[k]] *)
Definition dict_item (d : dict V) (k : pystr) : result V :=
  match dict_get d k with
  | Some v => Ok v
  | None => Raise KeyError
  end.

(** [d[k] = v]: an existing key keeps its place, a new key goes last. *)
Fixpoint dict_set (d : dict V) (k : pystr) (v : V) : dict V :=
  match d with
  | [] => [(k, v)]
  | (k', v') :: d' =>
      if str_eqb k' k then (k', v) :: d' else (k', v') :: dict_set d' k v
  end.

(** [d.update(u)] *)
Definition dict_update (d u : dict V) : dict V :=
  fold_left (fun acc kv => dict_set acc (fst kv) (snd kv)) u d.

(** [del d[k]] for a key that is present. *)
Fixpoint dict_del (d : dict V) (k : pystr) : dict V :=
  match d with
  | [] => []
  | (k', v') :: d' =>
      if str_eqb k' k then d' else (k', v') :: dict_del d' k
  end.

Definition dict_keys (d : dict V) : list pystr := map fst d.
Definition dict_values (d : dict V) : list V := map snd d.
End Dict.

(** A stored record: a [dict] from field names to scalars. *)
Definition record := dict pyval.

(** [r.get(k)] with Python's [None] for a missing key. *)
Definition get (r : record) (k : string) : pyval :=
  match dict_get r (py k) with Some v => v | None => PNone end.

(** [r.get(k, default)] *)
Definition get_default (r : record) (k : string) (default : pyval) : pyval :=
  match dict_get r (py k) with Some v => v | None => default end.

(** [r[k]] *)
Definition item (r : record) (k : string) : result pyval :=
  dict_item r (py k).

(** [not r] for a dict: an empty dict is falsy. *)
Definition dict_truthy {V} (d : dict V) : bool :=
  match d with [] => false | _ => true end.

End Py.

Import Py.

Declare Scope py_scope.
Notation "x <- r ;; k" := (Py.bind r (fun x => k))
  (at level 61, r at next level, right associativity) : py_scope.
Local Open Scope py_scope.

(* ===================================================================== *)
(** * hashlib.sha256                                                      *)
(* ===================================================================== *)

Module Sha256.
Local Open Scope N_scope.

Definition mask32 : N := 0xFFFFFFFF.
Definition w32 (x : N) : N := N.land x mask32.
Definition add32 (x y : N) : N := w32 (x + y).
Definition rotr (n x : N) : N :=
  N.lor (N.shiftr x n) (w32 (N.shiftl x (32 - n))).
Definition not32 (x : N) : N := N.lxor x mask32.

Definition Ch (x y z : N) : N := N.lxor (N.land x y) (N.land (not32 x) z).
Definition Maj (x y z : N) : N :=
  N.lxor (N.lxor (N.land x y) (N.land x z)) (N.land y z).
Definition bsig0 (x : N) : N := N.lxor (N.lxor (rotr 2 x) (rotr 13 x)) (rotr 22 x).
Definition bsig1 (x : N) : N := N.lxor (N.lxor (rotr 6 x) (rotr 11 x)) (rotr 25 x).
Definition ssig0 (x : N) : N := N.lxor (N.lxor (rotr 7 x) (rotr 18 x)) (N.shiftr x 3).
Definition ssig1 (x : N) : N := N.lxor (N.lxor (rotr 17 x) (rotr 19 x)) (N.shiftr x 10).

(** The round constants are the first 32 bits of the fractional parts of
    the cube roots of the first 64 primes, the initial state those of the
    square roots of the first 8 primes. *)
Definition primes : list N :=
  [ 2; 3; 5; 7; 11; 13; 17; 19; 23; 29; 31; 37; 41; 43; 47; 53; 59; 61; 67;
    71; 73; 79; 83; 89; 97; 101; 103; 107; 109; 113; 127; 131; 137; 139; 149;
    151; 157; 163; 167; 173; 179; 181; 191; 193; 197; 199; 211; 223; 227;
    229; 233; 239; 241; 251; 257; 263; 269; 271; 277; 281; 283; 293; 307;
    311 ].

(** The largest [x] below [2^bits] with [x^3 <= n], found bit by bit. *)
Fixpoint cube_root (bits : nat) (n acc : N) : N :=
  match bits with
  | O => acc
  | S b =>
      let candidate := N.lor acc (N.shiftl 1 (N.of_nat b)) in
      cube_root b n (if candidate * candidate * candidate <=? n then candidate else acc)
  end.

Definition K : list N :=
  map (fun p => w32 (cube_root 40 (N.shiftl p 96) 0)) primes.

Definition H0 : list N :=
  map (fun p => w32 (N.sqrt (N.shiftl p 64))) (firstn 8 primes).

(** Message schedule: [rw] holds the words computed so far, latest first. *)
Fixpoint extend (n : nat) (rw : list N) : list N :=
  match n with
  | O => rw
  | S k =>
      let wt := add32 (add32 (ssig1 (nth 1 rw 0)) (nth 6 rw 0))
                      (add32 (ssig0 (nth 14 rw 0)) (nth 15 rw 0)) in
      extend k (wt :: rw)
  end.

Definition schedule (block : list N) : list N := rev (extend 48 (rev block)).

Definition round (st : list N) (kw : N * N) : list N :=
  match st with
  | [a; b; c; d; e; f; g; h] =>
      let t1 := add32 (add32 (add32 h (bsig1 e)) (add32 (Ch e f g) (fst kw))) (snd kw) in
      let t2 := add32 (bsig0 a) (Maj a b c) in
      [add32 t1 t2; a; b; c; add32 d t1; e; f; g]
  | _ => st
  end.

Definition compress (h : list N) (block : list N) : list N :=
  let st := fold_left round (combine K (schedule block)) h in
  map (fun p => add32 (fst p) (snd p)) (combine h st).

(** Splits a list into consecutive pieces of [k] elements. *)
Fixpoint chunks {A} (fuel k : nat) (l : list A) : list (list A) :=
  match fuel, l with
  | _, [] => []
  | O, _ => []
  | S f, _ => firstn k l :: chunks f k (skipn k l)
  end.

Definition be_word (bs : list N) : N :=
  fold_left (fun acc b => N.lor (N.shiftl acc 8) b) bs 0.

Definition be_bytes (n : nat) (x : N) : list N :=
  map (fun i => N.land (N.shiftr x (8 * N.of_nat i)) 0xFF) (rev (seq 0 n)).

Definition pad (msg : list N) : list N :=
  let len := length msg in
  let zeros := ((64 - ((len + 9) mod 64)) mod 64)%nat in
  msg ++ [0x80] ++ repeat 0 zeros ++ be_bytes 8 (8 * N.of_nat len).

(** The 32 bytes of [hashlib.sha256(msg).digest()]. *)
Definition digest (msg : list N) : list N :=
  let padded := pad msg in
  let words := map be_word (chunks (length padded) 4 padded) in
  let blocks := chunks (length words) 16 words in
  flat_map (be_bytes 4) (fold_left compress blocks H0).

End Sha256.

(* ===================================================================== *)
(** * hmac.new(key, msg, hashlib.sha256).digest()                         *)
(* ===================================================================== *)

Module Hmac.
Local Open Scope N_scope.

Definition block_size : nat := 64.

Definition digest (key msg : list N) : list N :=
  let key0 := if (block_size <? length key)%nat then Sha256.digest key else key in
  let key1 := key0 ++ repeat 0 (block_size - length key0) in
  let ikey := map (N.lxor 0x36) key1 in
  let okey := map (N.lxor 0x5c) key1 in
  Sha256.digest (okey ++ Sha256.digest (ikey ++ msg)).

End Hmac.

(* ===================================================================== *)
(** * base64.urlsafe_b64encode and str.encode()                           *)
(* ===================================================================== *)

Module Base64.
Local Open Scope N_scope.

(** The URL-safe alphabet: [A-Z a-z 0-9 - _]. *)
Definition alphabet (i : N) : N :=
  if i <? 26 then 65 + i
  else if i <? 52 then 97 + (i - 26)
  else if i <? 62 then 48 + (i - 52)
  else if i =? 62 then 45
  else 95.

Definition sextet (x shift : N) : N := alphabet (N.land (N.shiftr x shift) 63).

Fixpoint urlsafe_b64encode (bs : list N) : pystr :=
  match bs with
  | [] => []
  | [a] =>
      let x := N.shiftl a 16 in
      [sextet x 18; sextet x 12; 61; 61]
  | [a; b] =>
      let x := N.lor (N.shiftl a 16) (N.shiftl b 8) in
      [sextet x 18; sextet x 12; sextet x 6; 61]
  | a :: b :: c :: rest =>
      let x := N.lor (N.lor (N.shiftl a 16) (N.shiftl b 8)) c in
      sextet x 18 :: sextet x 12 :: sextet x 6 :: sextet x 0
        :: urlsafe_b64encode rest
  end.

End Base64.

Module Utf8.
Local Open Scope N_scope.

(** UTF-8 bytes of one code point; surrogates cannot be encoded. *)
Definition encode_char (c : N) : option (list N) :=
  if c <? 0x80 then Some [c]
  else if c <? 0x800 then
    Some [N.lor 0xC0 (N.shiftr c 6); N.lor 0x80 (N.land c 0x3F)]
  else if (0xD800 <=? c) && (c <=? 0xDFFF) then None
  else if c <? 0x10000 then
    Some [N.lor 0xE0 (N.shiftr c 12);
          N.lor 0x80 (N.land (N.shiftr c 6) 0x3F);
          N.lor 0x80 (N.land c 0x3F)]
  else if c <=? 0x10FFFF then
    Some [N.lor 0xF0 (N.shiftr c 18);
          N.lor 0x80 (N.land (N.shiftr c 12) 0x3F);
          N.lor 0x80 (N.land (N.shiftr c 6) 0x3F);
          N.lor 0x80 (N.land c 0x3F)]
  else None.

(** [s.encode()]: raises [UnicodeEncodeError] on a lone surrogate. *)
Fixpoint encode (s : pystr) : result (list N) :=
  match s with
  | [] => Ok []
  | c :: s' =>
      match encode_char c with
      | None => Raise UnicodeEncodeError
      | Some bs =>
          match encode s' with
          | Ok r => Ok (bs ++ r)
          | Raise e => Raise e
          end
      end
  end.

End Utf8.

(* ===================================================================== *)
(** * datetime                                                            *)
(* ===================================================================== *)

Module Datetime.
Local Open Scope Z_scope.

(** An instant is a number of microseconds since the Unix epoch.  A parsed
    timestamp is timezone-aware (an instant and the UTC offset it was
    written with) or naive (wall-clock microseconds without a zone). *)
Inductive datetime :=
| Aware (t : Z) (offset : Z)
| Naive (t : Z).

Definition second : Z := 1000000.
Definition minutes (m : Z) : Z := m * 60 * second.
Definition hours (h : Z) : Z := h * 3600 * second.
Definition days (d : Z) : Z := d * 86400 * second.

(** The service zone Europe/Moscow is UTC+3 (no daylight saving since 2014). *)
Definition utc_offset : Z := hours 3.

(** Days since 1970-01-01 of a proleptic Gregorian date. *)
Definition days_from_civil (y m d : Z) : Z :=
  let y' := if m <=? 2 then y - 1 else y in
  let era := y' / 400 in
  let yoe := y' - era * 400 in
  let doy := (153 * (if 2 <? m then m - 3 else m + 9) + 2) / 5 + d - 1 in
  let doe := yoe * 365 + yoe / 4 - yoe / 100 + doy in
  era * 146097 + doe - 719468.

Definition civil_from_days (z : Z) : Z * Z * Z :=
  let z' := z + 719468 in
  let era := z' / 146097 in
  let doe := z' - era * 146097 in
  let yoe := (doe - doe / 1460 + doe / 36524 - doe / 146096) / 365 in
  let doy := doe - (365 * yoe + yoe / 4 - yoe / 100) in
  let mp := (5 * doy + 2) / 153 in
  let d := doy - (153 * mp + 2) / 5 + 1 in
  let m := if mp <? 10 then mp + 3 else mp - 9 in
  (if m <=? 2 then yoe + era * 400 + 1 else yoe + era * 400, m, d).

Definition is_leap (y : Z) : bool :=
  (y mod 4 =? 0) && (negb (y mod 100 =? 0) || (y mod 400 =? 0)).

Definition days_in_month (y m : Z) : Z :=
  if m =? 2 then (if is_leap y then 29 else 28)
  else if (m =? 4) || (m =? 6) || (m =? 9) || (m =? 11) then 30 else 31.

(** The wall-clock range of [datetime]: years 1 to 9999. *)
Definition min_wall : Z := days (days_from_civil 1 1 1).
Definition max_wall : Z := days (days_from_civil 9999 12 31) + days 1 - 1.

Definition representable (wall : Z) : bool :=
  (min_wall <=? wall) && (wall <=? max_wall).

(** The range of [timedelta]: at most 999999999 days either way. *)
Definition timedelta_ok (delta : Z) : bool :=
  (-999999999 <=? delta / days 1) && (delta / days 1 <=? 999999999).

(** Reads exactly [n] decimal digits. *)
Fixpoint read_num (n : nat) (s : pystr) (acc : Z) : option (Z * pystr) :=
  match n with
  | O => Some (acc, s)
  | S k =>
      match s with
      | c :: s' =>
          if Py.is_digit c then read_num k s' (10 * acc + Z.of_N (c - 48)) else None
      | [] => None
      end
  end.

Definition expect (c : N) (s : pystr) : option pystr :=
  match s with
  | x :: s' => if N.eqb x c then Some s' else None
  | [] => None
  end.

Definition obind {A B} (o : option A) (k : A -> option B) : option B :=
  match o with Some a => k a | None => None end.

Notation "' p <~ o ; k" := (obind o (fun p => k))
  (at level 61, p pattern, o at next level, right associativity).

(** The fraction [.fff] or [.ffffff], in microseconds; nothing may follow. *)
Definition read_fraction (s : pystr) : option Z :=
  match length s with
  | 3%nat => ' (f, _) <~ read_num 3 s 0 ; Some (f * 1000)
  | 6%nat => ' (f, _) <~ read_num 6 s 0 ; Some f
  | _ => None
  end.

(** [HH[:MM[:SS[.fff[fff]]]]] up to the end of [s]: hours, minutes, seconds
    and microseconds. *)
Definition read_hh_mm_ss_ff (s : pystr) : option (Z * Z * Z * Z) :=
  ' (h, s) <~ read_num 2 s 0 ;
  match s with
  | [] => Some (h, 0, 0, 0)
  | _ =>
      ' s <~ expect 58 s ;
      ' (m, s) <~ read_num 2 s 0 ;
      match s with
      | [] => Some (h, m, 0, 0)
      | _ =>
          ' s <~ expect 58 s ;
          ' (sec, s) <~ read_num 2 s 0 ;
          match s with
          | [] => Some (h, m, sec, 0)
          | _ =>
              ' s <~ expect 46 s ;
              ' us <~ read_fraction s ;
              Some (h, m, sec, us)
          end
      end
  end.

(** Cuts the time part at the first [+] or [-]: the time, and the sign and
    text of the offset when there is one. *)
Fixpoint cut_offset (s acc : pystr) : pystr * option (bool * pystr) :=
  match s with
  | [] => (rev acc, None)
  | c :: s' =>
      if (c =? 43)%N then (rev acc, Some (false, s'))
      else if (c =? 45)%N then (rev acc, Some (true, s'))
      else cut_offset s' (c :: acc)
  end.

(** The UTC offset [HH:MM[:SS[.ffffff]]], strictly within 24 hours. *)
Definition read_offset (negative : bool) (s : pystr) : option Z :=
  match length s with
  | 5%nat | 8%nat | 15%nat =>
      ' (h, m, sec, us) <~ read_hh_mm_ss_ff s ;
      let o := hours h + minutes m + sec * second + us in
      if o <? days 1 then Some (if negative then - o else o) else None
  | _ => None
  end.

(** The strings [isoformat()] writes, which [datetime.fromisoformat] reads on
    every version of Python:
    [YYYY-MM-DD[*HH[:MM[:SS[.fff[fff]]]][+HH:MM[:SS[.ffffff]]]]].
    [None]: the string is not of this form. *)
Definition read_isoformat (s : pystr) : option datetime :=
  ' (y, s) <~ read_num 4 s 0 ;
  ' s <~ expect 45 s ;
  ' (mo, s) <~ read_num 2 s 0 ;
  ' s <~ expect 45 s ;
  ' (d, s) <~ read_num 2 s 0 ;
  ' (clock, off) <~
      match s with
      | [] => Some (0, 0, 0, 0, None)
      | _ :: tstr =>
          let (timestr, tz) := cut_offset tstr [] in
          ' clock <~ read_hh_mm_ss_ff timestr ;
          match tz with
          | None => Some (clock, None)
          | Some (negative, tzstr) =>
              ' o <~ read_offset negative tzstr ;
              Some (clock, Some o)
          end
      end ;
  let '(h, mi, sec, us) := clock in
  if (1 <=? y) && (1 <=? mo) && (mo <=? 12) && (1 <=? d)
     && (d <=? days_in_month y mo) && (h <? 24) && (mi <? 60) && (sec <? 60)
  then
    let wall := days (days_from_civil y mo d) + hours h + minutes mi
                + sec * second + us in
    Some (match off with
          | Some o => Aware (wall - o) o
          | None => Naive wall
          end)
  else None.

(** The Python that runs the bot.  What [datetime.fromisoformat] makes of a
    string that is not of the form above depends on the version: Python 3.7
    to 3.10 refuse every such string, Python 3.11 and later read further
    ISO 8601 forms (the basic format [YYYYMMDDTHHMMSS], week dates, [Z],
    [+0300], fractions of any length), as naive or aware values. *)
Class Python := {
  fromisoformat_other : pystr -> option datetime
}.

(** Python 3.7 to 3.10: no other string is read. *)
Definition python_3_10 : Python := {| fromisoformat_other := fun _ => None |}.

Section WithPython.
Context {python : Python}.

(** [datetime.fromisoformat(s)] for a string; [None] stands for
    [ValueError]. *)
Definition parse_iso (s : pystr) : option datetime :=
  match read_isoformat s with
  | Some d => Some d
  | None => fromisoformat_other s
  end.

(** [datetime.fromisoformat(v)]: a non-string argument is a [TypeError]. *)
Definition fromisoformat (v : pyval) : result datetime :=
  match v with
  | PStr s =>
      match parse_iso s with
      | Some d => Ok d
      | None => Raise ValueError
      end
  | _ => Raise TypeError
  end.

End WithPython.

(** Comparisons against the aware [now]: a naive operand is a [TypeError]. *)
Definition instant (d : datetime) : result Z :=
  match d with
  | Aware t _ => Ok t
  | Naive _ => Raise TypeError
  end.

(** [timedelta(minutes=v)]: integers only ([bool] counts as an integer),
    within the range of [timedelta]. *)
Definition timedelta_minutes (v : pyval) : result Z :=
  match v with
  | PInt m => if timedelta_ok (minutes m) then Ok (minutes m) else Raise OverflowError
  | PBool b => Ok (minutes (if b then 1 else 0))
  | _ => Raise TypeError
  end.

(** [d + delta]: the wall-clock time moves by [delta] and must stay a date
    of the years 1 to 9999; the awareness of [d] is kept. *)
Definition shift (d : datetime) (delta : Z) : result datetime :=
  match d with
  | Aware t o =>
      if representable (t + o + delta) then Ok (Aware (t + delta) o)
      else Raise OverflowError
  | Naive w =>
      if representable (w + delta) then Ok (Naive (w + delta))
      else Raise OverflowError
  end.

(** Zero-padded decimal field of [width] digits. *)
Definition field (width : nat) (n : Z) : pystr :=
  let ds := Py.str_of_Z n in
  repeat 48%N (width - length ds) ++ ds.

(** The offset suffix of [isoformat()]: [+HH:MM[:SS[.ffffff]]]. *)
Definition render_offset (o : Z) : pystr :=
  let a := Z.abs o in
  let secs := a / second in
  (if o <? 0 then py "-" else py "+")
    ++ field 2 (secs / 3600) ++ py ":" ++ field 2 (secs / 60 mod 60)
    ++ (if (secs mod 60 =? 0) && (a mod second =? 0) then []
        else py ":" ++ field 2 (secs mod 60)
               ++ (if a mod second =? 0 then [] else py "." ++ field 6 (a mod second))).

(** [d.isoformat()] from wall-clock microseconds and an optional offset. *)
Definition render (wall : Z) (offset : option Z) : pystr :=
  let day := wall / days 1 in
  let rest := wall mod days 1 in
  let '(y, m, d) := civil_from_days day in
  let us := rest mod second in
  let secs := rest / second in
  field 4 y ++ py "-" ++ field 2 m ++ py "-" ++ field 2 d ++ py "T"
    ++ field 2 (secs / 3600) ++ py ":" ++ field 2 (secs / 60 mod 60) ++ py ":"
    ++ field 2 (secs mod 60)
    ++ (if us =? 0 then [] else py "." ++ field 6 us)
    ++ match offset with
       | None => []
       | Some o => render_offset o
       end.

Definition isoformat_of (d : datetime) : pystr :=
  match d with
  | Aware t o => render (t + o) (Some o)
  | Naive w => render w None
  end.

(** [datetime.now(tz).isoformat()] for the instant [t] in the service zone. *)
Definition isoformat (t : Z) : pystr := isoformat_of (Aware t utc_offset).

End Datetime.

(* ===================================================================== *)
(** * config.py                                                           *)
(* ===================================================================== *)

Record Config := {
  SECRET_KEY : pystr;            (* os.getenv('SECRET_KEY', 'default_secret_key') *)
  CHECKIN_WINDOW_start : Z;      (* CHECKIN_WINDOW['start'] *)
  CHECKIN_WINDOW_end : Z;        (* CHECKIN_WINDOW['end'] *)
  PLACE_HOLD_TIME : Z
}.

(** The configuration of a process started without [SECRET_KEY] set. *)
Definition default_config : Config := {|
  SECRET_KEY := py "default_secret_key";
  CHECKIN_WINDOW_start := -60;
  CHECKIN_WINDOW_end := 120;
  PLACE_HOLD_TIME := 15
|}.

(* ===================================================================== *)
(** * utils.py                                                            *)
(* ===================================================================== *)

Module Utils.

Section WithPython.
Context {python : Datetime.Python}.

Definition underscore : pystr := py "_".

(** The message that is signed:
    [f"{str(registration_id).strip()}_{str(event_id).strip()}_{str(user_id).strip()}"]. *)
Definition token_data (registration_id event_id user_id : pyval) : pystr :=
  Py.strip (py_str registration_id) ++ underscore
    ++ Py.strip (py_str event_id) ++ underscore
    ++ Py.strip (py_str user_id).

(** The body of the [try] block of [generate_qr_token]. *)
Definition generate_qr_token_body (cfg : Config)
    (registration_id event_id user_id : pyval) : result pystr :=
  data <- Utf8.encode (token_data registration_id event_id user_id) ;;
  key <- Utf8.encode (SECRET_KEY cfg) ;;
  let signature := Hmac.digest key data in
  Ok (Py.remove_char 45 (Py.remove_char 95 (Py.remove_char 61
        (firstn 16 (Base64.urlsafe_b64encode signature))))).

Definition default_token : pystr := py "default_token".

Definition generate_qr_token (cfg : Config)
    (registration_id event_id user_id : pyval) : pystr :=
  match generate_qr_token_body cfg registration_id event_id user_id with
  | Ok token => token
  | Raise _ => default_token
  end.

Definition is_ascii (s : pystr) : bool := forallb (fun c => (c <? 128)%N) s.

(** [hmac.compare_digest(a, b)] on strings: both must be ASCII. *)
Definition compare_digest (a b : pystr) : result bool :=
  if is_ascii a && is_ascii b then Ok (Py.str_eqb a b) else Raise TypeError.

Definition verify_qr_token (cfg : Config) (token : pystr)
    (registration_id event_id user_id : pyval) : bool :=
  let expected_token := generate_qr_token cfg registration_id event_id user_id in
  match compare_digest token expected_token with
  | Ok r => r
  | Raise _ => false
  end.

(** The body of the [try] block of [is_within_checkin_window]. *)
Definition is_within_checkin_window_body (now : Z) (event_data : record)
    : result bool :=
  s <- Py.item event_data "start_at" ;;
  start_at <- Datetime.fromisoformat s ;;
  d1 <- Datetime.timedelta_minutes
          (Py.get_default event_data "checkin_window_start_minutes" (PInt (-60))) ;;
  d2 <- Datetime.timedelta_minutes
          (Py.get_default event_data "checkin_window_end_minutes" (PInt 120)) ;;
  window_start <- Datetime.shift start_at d1 ;;
  window_end <- Datetime.shift start_at d2 ;;
  checkin_start <- Datetime.instant window_start ;;
  checkin_end <- Datetime.instant window_end ;;
  Ok ((checkin_start <=? now)%Z && (now <=? checkin_end)%Z).

Definition is_within_checkin_window (now : Z) (event_data : record) : bool :=
  match is_within_checkin_window_body now event_data with
  | Ok r => r
  | Raise _ => false
  end.

(** [validate_fullname]: 3 to 100 characters, at least two words, only
    Latin or Cyrillic letters, whitespace, hyphen and apostrophe. *)
Definition name_char (c : N) : bool :=
  ((97 <=? c) && (c <=? 122) || (65 <=? c) && (c <=? 90)
   || (0x430 <=? c) && (c <=? 0x44F) || (0x410 <=? c) && (c <=? 0x42F)
   || (c =? 0x451) || (c =? 0x401) || Py.isspace c || (c =? 45) || (c =? 39))%N.

(** Number of whitespace-separated words: [len(fullname.split())]. *)
Fixpoint count_words (s : pystr) (in_word : bool) : nat :=
  match s with
  | [] => 0
  | c :: s' =>
      if Py.isspace c then count_words s' false
      else if in_word then count_words s' true
      else S (count_words s' true)
  end.

Definition validate_fullname (fullname : pystr) : bool :=
  if (length fullname <? 3)%nat || (100 <? length fullname)%nat then false
  else if (count_words fullname false <? 2)%nat then false
  else forallb name_char fullname.

(** The rendered QR picture: the payload it encodes. *)
Inductive image := QrImage (payload : pystr).

(** [generate_qr_code_image]: [make] is the rendering done by the [qrcode]
    library; its failure is turned into [None]. *)
Definition generate_qr_code_image (make : pystr -> result image)
    (qr_data : pystr) : option image :=
  match make qr_data with
  | Ok img => Some img
  | Raise _ => None
  end.

End WithPython.

End Utils.

(* ===================================================================== *)
(** * local_storage.py                                                    *)
(* ===================================================================== *)

Module LocalStorage.

Section WithPython.
Context {python : Datetime.Python}.

Inductive data_type := Events | Users | Registrations | Blacklist | Reminders | Posts.

Definition type_name (ty : data_type) : pystr :=
  match ty with
  | Events => py "events"
  | Users => py "users"
  | Registrations => py "registrations"
  | Blacklist => py "blacklist"
  | Reminders => py "reminders"
  | Posts => py "posts"
  end.

Definition file_name (ty : data_type) : pystr := type_name ty ++ py ".json".

(** One collection: a mapping from natural id to record.  Values that are
    not records are dropped when the files are loaded ([_validate_data]),
    so the [isinstance(..., dict)] guards of the source always pass. *)
Definition collection := dict record.

(** [self.data] *)
Record Data := {
  events : collection;
  users : collection;
  registrations : collection;
  blacklist : collection;
  reminders : collection;
  posts : collection
}.

Definition data_get (d : Data) (ty : data_type) : collection :=
  match ty with
  | Events => events d
  | Users => users d
  | Registrations => registrations d
  | Blacklist => blacklist d
  | Reminders => reminders d
  | Posts => posts d
  end.

Definition data_put (d : Data) (ty : data_type) (c : collection) : Data :=
  match ty with
  | Events => {| events := c; users := users d; registrations := registrations d;
                 blacklist := blacklist d; reminders := reminders d; posts := posts d |}
  | Users => {| events := events d; users := c; registrations := registrations d;
                blacklist := blacklist d; reminders := reminders d; posts := posts d |}
  | Registrations => {| events := events d; users := users d; registrations := c;
                        blacklist := blacklist d; reminders := reminders d; posts := posts d |}
  | Blacklist => {| events := events d; users := users d; registrations := registrations d;
                    blacklist := c; reminders := reminders d; posts := posts d |}
  | Reminders => {| events := events d; users := users d; registrations := registrations d;
                    blacklist := blacklist d; reminders := c; posts := posts d |}
  | Posts => {| events := events d; users := users d; registrations := registrations d;
                blacklist := blacklist d; reminders := reminders d; posts := c |}
  end.

(** A JSON document on disk: a mapping (the store's files) or a list (the
    auxiliary user registry). *)
Inductive json_doc :=
| DocDict (c : collection)
| DocList (l : list record).

(** The working directory: the JSON documents, and the files that cannot
    be written (so that [open(..., 'w')] raises). *)
Record Disk := {
  files : dict json_doc;
  unwritable : list pystr
}.

Definition write_file (dk : Disk) (name : pystr) (content : json_doc)
    : result Disk :=
  if existsb (Py.str_eqb name) (unwritable dk) then Raise OSError
  else Ok {| files := Py.dict_set (files dk) name content;
             unwritable := unwritable dk |}.

(** Error-level log records of the storage layer and its facade. *)
Inductive log_record :=
| SaveError (ty : data_type)          (* "Ошибка сохранения {data_type}: {e}" *)
| BlacklistStoreError                 (* "Ошибка добавления в черный список в local_storage: {e}" *)
| BlacklistFacadeError.               (* "Ошибка добавления в черный список: {e}" *)

Record State := {
  data : Data;
  disk : Disk;
  log : list log_record
}.

Definition with_data (st : State) (d : Data) : State :=
  {| data := d; disk := disk st; log := log st |}.

Definition logged (st : State) (r : log_record) : State :=
  {| data := data st; disk := disk st; log := log st ++ [r] |}.

Definition coll (st : State) (ty : data_type) : collection := data_get (data st) ty.

Definition set_coll (st : State) (ty : data_type) (c : collection) : State :=
  with_data st (data_put (data st) ty c).

(** [save_locally]: the write is attempted inside [try]; a failure is
    logged and not raised again. *)
Definition save_locally (st : State) (ty : data_type) : State :=
  match write_file (disk st) (file_name ty) (DocDict (coll st ty)) with
  | Ok dk => {| data := data st; disk := dk; log := log st |}
  | Raise _ => logged st (SaveError ty)
  end.

Definition active : pystr := py "active".
Definition stamp (now : Z) : pyval := PStr (Datetime.isoformat now).

(** [v in [..]] against a list of string literals. *)
Definition in_strs (v : pyval) (l : list string) : bool :=
  existsb (fun s => Py.eq_str v (py s)) l.

(* ---- events ---- *)

Definition get_event (st : State) (event_id : pyval) : option record :=
  Py.dict_get (coll st Events) (py_str event_id).

Definition get_all_events (st : State) : collection := coll st Events.

(** The test made on one event by the three classification queries: only
    [ValueError] and [KeyError] are caught (the event is then skipped). *)
Definition event_selected (keep : Z -> bool) (event : record) : result bool :=
  if Py.eq_str (Py.get event "status") active then
    match (s <- Py.item event "start_at" ;;
           d <- Datetime.fromisoformat s ;;
           t <- Datetime.instant d ;;
           Ok (keep t)) with
    | Ok b => Ok b
    | Raise KeyError => Ok false
    | Raise ValueError => Ok false
    | Raise e => Raise e
    end
  else Ok false.

Fixpoint select_events (keep : Z -> bool) (evs : collection) : result collection :=
  match evs with
  | [] => Ok []
  | (event_id, event) :: rest =>
      here <- event_selected keep event ;;
      tail <- select_events keep rest ;;
      Ok (if here then (event_id, event) :: tail else tail)
  end.

Definition get_active_events (st : State) (now : Z) : result collection :=
  select_events (fun start_at => (now - Datetime.hours 2 <? start_at)%Z) (coll st Events).

Definition get_upcoming_events (st : State) (now : Z) : result collection :=
  select_events (fun start_at => (now <? start_at)%Z) (coll st Events).

Definition get_past_events (st : State) (now : Z) : result collection :=
  select_events (fun start_at => (start_at <=? now - Datetime.hours 2)%Z) (coll st Events).

(** [create_event]; the only caller passes the string id of
    [get_next_event_id], which is used as the key. *)
Definition create_event (st : State) (now : Z) (event_data : record)
    : result (State * pyval) :=
  event_id <- Py.item event_data "event_id" ;;
  let event_data := Py.dict_set event_data (py "created_at") (stamp now) in
  let event_data := Py.dict_set event_data (py "updated_at") (stamp now) in
  let st := set_coll st Events (Py.dict_set (coll st Events) (py_str event_id) event_data) in
  Ok (save_locally st Events, event_id).

Definition update_event (st : State) (now : Z) (event_id : pystr)
    (updates : record) : State :=
  match Py.dict_get (coll st Events) event_id with
  | Some ev =>
      let ev := Py.dict_update ev updates in
      let ev := Py.dict_set ev (py "updated_at") (stamp now) in
      save_locally (set_coll st Events (Py.dict_set (coll st Events) event_id ev)) Events
  | None => st
  end.

Definition get_next_event_id (st : State) : pystr :=
  match coll st Events with
  | [] => py "001"
  | evs =>
      let max_id :=
        fold_left (fun m event_id =>
                     if Py.isdigit event_id then
                       match Py.py_int event_id with
                       | Some n => Z.max m n
                       | None => m
                       end
                     else m)
                  (Py.dict_keys evs) 0%Z in
      Datetime.field 3 (max_id + 1)
  end.

(* ---- users ---- *)

Definition get_user (st : State) (user_id : pyval) : option record :=
  Py.dict_get (coll st Users) (py_str user_id).

Definition get_all_users (st : State) : collection := coll st Users.

Definition add_user (st : State) (now : Z) (user_data : record) : result State :=
  uid <- Py.item user_data "user_id" ;;
  let user_id := py_str uid in
  if Py.dict_mem (coll st Users) user_id then Ok st
  else
    let user_data := Py.dict_set user_data (py "created_at") (stamp now) in
    let user_data := Py.dict_set user_data (py "is_blacklisted") (PBool false) in
    Ok (save_locally (set_coll st Users (Py.dict_set (coll st Users) user_id user_data)) Users).

Definition update_user (st : State) (user_id : pyval) (updates : record) : State :=
  let user_id := py_str user_id in
  match Py.dict_get (coll st Users) user_id with
  | Some u =>
      save_locally
        (set_coll st Users (Py.dict_set (coll st Users) user_id (Py.dict_update u updates)))
        Users
  | None => st
  end.

(* ---- registrations ---- *)

Definition get_registration (st : State) (registration_id : pyval) : option record :=
  Py.dict_get (coll st Registrations) (py_str registration_id).

Definition get_all_registrations (st : State) : collection := coll st Registrations.

Definition get_user_registration (st : State) (user_id event_id : pyval)
    : option record :=
  let user_id := py_str user_id in
  let event_id := py_str event_id in
  find (fun reg =>
          Py.str_eqb (py_str (Py.get reg "user_id")) user_id
          && Py.str_eqb (py_str (Py.get reg "event_id")) event_id
          && in_strs (Py.get reg "status") ["registered"; "waitlist"; "attended"]%string)
       (Py.dict_values (coll st Registrations)).

Definition get_registrations_count (st : State) (event_id : pyval)
    (status : pystr) : Z :=
  let event_id := py_str event_id in
  fold_left (fun count reg =>
               if Py.str_eqb (py_str (Py.get reg "event_id")) event_id
                  && Py.eq_str (Py.get reg "status") status
               then (count + 1)%Z else count)
            (Py.dict_values (coll st Registrations)) 0%Z.

Definition get_waitlist_count (st : State) (event_id : pyval) : Z :=
  get_registrations_count st event_id (py "waitlist").

Definition create_registration (st : State) (now : Z) (registration_data : record)
    : result (State * pystr) :=
  rid <- Py.item registration_data "registration_id" ;;
  let registration_id := py_str rid in
  let registration_data := Py.dict_set registration_data (py "created_at") (stamp now) in
  let registration_data := Py.dict_set registration_data (py "updated_at") (stamp now) in
  let st := set_coll st Registrations
              (Py.dict_set (coll st Registrations) registration_id registration_data) in
  Ok (save_locally st Registrations, registration_id).

Definition update_registration (st : State) (now : Z) (registration_id : pyval)
    (updates : record) : State :=
  let registration_id := py_str registration_id in
  match Py.dict_get (coll st Registrations) registration_id with
  | Some reg =>
      let reg := Py.dict_update reg updates in
      let reg := Py.dict_set reg (py "updated_at") (stamp now) in
      save_locally
        (set_coll st Registrations (Py.dict_set (coll st Registrations) registration_id reg))
        Registrations
  | None => st
  end.

Definition get_next_registration_id (st : State) : Z :=
  match coll st Registrations with
  | [] => 1%Z
  | regs =>
      let max_id :=
        fold_left (fun m reg_id =>
                     match Py.py_int reg_id with
                     | Some n => Z.max m n
                     | None => m
                     end)
                  (Py.dict_keys regs) 0%Z in
      (max_id + 1)%Z
  end.

(* ---- block-list ---- *)

Definition is_blacklisted (st : State) (user_id : pyval) : bool :=
  Py.dict_mem (coll st Blacklist) (py_str user_id).

(** The body of the [try] block of [add_to_blacklist]. *)
Definition add_to_blacklist_body (st : State) (now : Z)
    (user_id : pyval) (reason added_by : pyval) : result (State * bool) :=
  let user_id := py_str user_id in
  let entry : record :=
    [ (py "user_id", PStr user_id); (py "reason", reason);
      (py "added_by", added_by); (py "added_at", stamp now) ] in
  let st := set_coll st Blacklist (Py.dict_set (coll st Blacklist) user_id entry) in
  let st := save_locally st Blacklist in
  Ok (st, true).

(** [add_to_blacklist]: an exception of the body is logged and raised
    again.  The state at the point of the exception is returned with it. *)
Definition add_to_blacklist (st : State) (now : Z)
    (user_id : pyval) (reason added_by : pyval) : State * result bool :=
  match add_to_blacklist_body st now user_id reason added_by with
  | Ok (st', r) => (st', Ok r)
  | Raise e => (logged st BlacklistStoreError, Raise e)
  end.

Definition remove_from_blacklist (st : State) (user_id : pyval) : State :=
  let user_id := py_str user_id in
  if Py.dict_mem (coll st Blacklist) user_id then
    save_locally (set_coll st Blacklist (Py.dict_del (coll st Blacklist) user_id)) Blacklist
  else st.

Definition get_blacklist (st : State) : collection := coll st Blacklist.

(* ---- reminders ---- *)

Definition create_reminder (st : State) (reminder_data : record) : result State :=
  e <- Py.item reminder_data "event_id" ;;
  u <- Py.item reminder_data "user_id" ;;
  t <- Py.item reminder_data "type" ;;
  let reminder_id := py_str e ++ py "_" ++ py_str u ++ py "_" ++ py_str t in
  Ok (save_locally
        (set_coll st Reminders (Py.dict_set (coll st Reminders) reminder_id reminder_data))
        Reminders).

Definition mark_reminder_sent (st : State) (now : Z) (reminder_id : pystr) : State :=
  match Py.dict_get (coll st Reminders) reminder_id with
  | Some r =>
      save_locally
        (set_coll st Reminders
           (Py.dict_set (coll st Reminders) reminder_id
              (Py.dict_set r (py "sent_at") (stamp now))))
        Reminders
  | None => st
  end.

(* ---- queries of one user's registrations ---- *)

Definition get_user_active_registrations (st : State) (user_id : pyval)
    : list record :=
  let user_id := py_str user_id in
  filter (fun reg_data =>
            Py.str_eqb (py_str (Py.get reg_data "user_id")) user_id
            && in_strs (Py.get reg_data "status") ["registered"; "attended"]%string)
         (Py.dict_values (coll st Registrations)).

Definition find_user_registrations (st : State) (user_id : pyval) : list record :=
  let user_id_str := py_str user_id in
  filter (fun reg_data => Py.str_eqb (py_str (Py.get reg_data "user_id")) user_id_str)
         (Py.dict_values (coll st Registrations)).

(* ---- pending reminders ---- *)

(** The test [get_pending_reminders] makes on one reminder: not yet sent
    and due; [ValueError] and [KeyError] skip the reminder. *)
Definition reminder_pending (now : Z) (reminder : record) : result bool :=
  if negb (Py.truthy (Py.get reminder "sent_at")) then
    match (s <- Py.item reminder "scheduled_for" ;;
           d <- Datetime.fromisoformat s ;;
           t <- Datetime.instant d ;;
           Ok (t <=? now)%Z) with
    | Ok b => Ok b
    | Raise KeyError => Ok false
    | Raise ValueError => Ok false
    | Raise e => Raise e
    end
  else Ok false.

Fixpoint select_pending (now : Z) (l : list record) : result (list record) :=
  match l with
  | [] => Ok []
  | reminder :: rest =>
      here <- reminder_pending now reminder ;;
      tail <- select_pending now rest ;;
      Ok (if here then reminder :: tail else tail)
  end.

Definition get_pending_reminders (st : State) (now : Z) : result (list record) :=
  select_pending now (Py.dict_values (coll st Reminders)).

(** [get_reminder_by_data]: the id of the first reminder with these data. *)
Definition get_reminder_by_data (st : State) (event_id user_id reminder_type : pyval)
    : option pystr :=
  option_map fst
    (find (fun kv =>
             Py.py_eq (Py.get (snd kv) "event_id") event_id
             && Py.str_eqb (py_str (Py.get (snd kv) "user_id")) (py_str user_id)
             && Py.py_eq (Py.get (snd kv) "type") reminder_type)
          (coll st Reminders)).

(** [save_all] *)
Definition save_all (st : State) : State :=
  fold_left save_locally [Events; Users; Registrations; Blacklist; Reminders; Posts] st.

End WithPython.

End LocalStorage.

(* ===================================================================== *)
(** * sheets.py                                                           *)
(* ===================================================================== *)

Module Sheets.
Import LocalStorage.

Section WithPython.
Context {python : Datetime.Python}.

(* ---- business facade over the store ---- *)

Definition present (o : option record) : bool :=
  match o with
  | Some r => Py.dict_truthy r
  | None => false
  end.

Definition get_event := LocalStorage.get_event.
Definition get_registration := LocalStorage.get_registration.
Definition get_user_registration := LocalStorage.get_user_registration.
Definition get_waitlist_count := LocalStorage.get_waitlist_count.
Definition is_blacklisted := LocalStorage.is_blacklisted.

(** [get_registrations_count(event_id, status='registered')] *)
Definition get_registrations_count (st : State) (event_id : pyval)
    (status : option pystr) : Z :=
  LocalStorage.get_registrations_count st event_id
    (match status with Some s => s | None => py "registered" end).

(** [count >= capacity] for an integer count. *)
Definition ge_int (count : Z) (capacity : pyval) : result bool :=
  match capacity with
  | PInt c => Ok (c <=? count)%Z
  | PBool b => Ok ((if b then 1 else 0) <=? count)%Z
  | _ => Raise TypeError
  end.

Definition create_event (st : State) (now : Z) (cfg : Config)
    (title : pyval) (capacity : pyval) (start_at : Z)
    (description place : pyval) : result (State * pyval) :=
  let event_id := LocalStorage.get_next_event_id st in
  let event_data : record :=
    [ (py "event_id", PStr event_id); (py "title", title);
      (py "description", description);
      (py "start_at", PStr (Datetime.isoformat start_at));
      (py "place", place); (py "capacity", capacity);
      (py "media_file_id", PStr []); (py "media_type", PStr []);
      (py "status", PStr (py "active"));
      (py "checkin_window_start_minutes", PInt (CHECKIN_WINDOW_start cfg));
      (py "checkin_window_end_minutes", PInt (CHECKIN_WINDOW_end cfg));
      (py "created_at", stamp now); (py "updated_at", stamp now) ] in
  LocalStorage.create_event st now event_data.

(** [create_registration]: returns the new state and the triple
    [(registration_id, status, waitlist_position)], all [None] when the
    event does not exist. *)
Definition create_registration (st : State) (now : Z)
    (user_id event_id full_name : pyval) (qr_token : pyval)
    : result (State * (pyval * pyval * pyval)) :=
  let registration_id := LocalStorage.get_next_registration_id st in
  match LocalStorage.get_event st event_id with
  | None => Ok (st, (PNone, PNone, PNone))
  | Some event =>
      if negb (Py.dict_truthy event) then Ok (st, (PNone, PNone, PNone))
      else
        let registered_count := get_registrations_count st event_id None in
        capacity <- Py.item event "capacity" ;;
        full <- ge_int registered_count capacity ;;
        let status := if full then py "waitlist" else py "registered" in
        let waitlist_position :=
          if full then PInt (LocalStorage.get_waitlist_count st event_id + 1)
          else PNone in
        let registration_data : record :=
          [ (py "registration_id", PInt registration_id);
            (py "event_id", event_id); (py "user_id", user_id);
            (py "full_name", full_name); (py "status", PStr status);
            (py "waitlist_position", waitlist_position);
            (py "qr_token", qr_token); (py "checkin_at", PStr []);
            (py "created_at", stamp now); (py "updated_at", stamp now) ] in
        r <- LocalStorage.create_registration st now registration_data ;;
        Ok (fst r, (PInt registration_id, PStr status, waitlist_position))
  end.

Definition update_registration (st : State) (now : Z) (registration_id : pyval)
    (updates : record) : State :=
  LocalStorage.update_registration st now registration_id updates.

Definition update_registration_status (st : State) (now : Z)
    (registration_id : pyval) (status : pystr) (checkin_at : option Z) : State :=
  let updates : record := [ (py "status", PStr status) ] in
  let updates :=
    match checkin_at with
    | Some t => Py.dict_set updates (py "checkin_at") (PStr (Datetime.isoformat t))
    | None => updates
    end in
  LocalStorage.update_registration st now registration_id updates.

Definition cancel_registration (st : State) (now : Z) (registration_id : pyval) : State :=
  update_registration_status st now registration_id (py "cancelled") None.

Definition update_user_fullname (st : State) (user_id : pyval) (full_name : pyval) : State :=
  LocalStorage.update_user st user_id [ (py "full_name", full_name) ].

(** [add_to_blacklist]: the store's exception is turned into [False]. *)
Definition add_to_blacklist (st : State) (now : Z)
    (user_id reason added_by : pyval) : State * bool :=
  match LocalStorage.add_to_blacklist st now user_id reason added_by with
  | (st', Ok _) => (st', true)
  | (st', Raise _) => (logged st' BlacklistFacadeError, false)
  end.

Definition remove_from_blacklist (st : State) (user_id : pyval) : State * bool :=
  (LocalStorage.remove_from_blacklist st user_id, true).

Definition create_reminder (st : State) (event_id user_id : pyval)
    (scheduled_for : Z) (reminder_type : string) : result State :=
  LocalStorage.create_reminder st
    [ (py "event_id", event_id); (py "user_id", user_id);
      (py "scheduled_for", PStr (Datetime.isoformat scheduled_for));
      (py "type", PStr (py reminder_type)); (py "sent_at", PStr []) ].

Definition get_active_events := LocalStorage.get_active_events.
Definition get_upcoming_events := LocalStorage.get_upcoming_events.
Definition get_past_events := LocalStorage.get_past_events.
Definition get_user := LocalStorage.get_user.
Definition get_blacklist := LocalStorage.get_blacklist.
Definition get_pending_reminders := LocalStorage.get_pending_reminders.

Definition update_event_media (st : State) (now : Z) (event_id : pystr)
    (media_file_id media_type : pyval) : State :=
  LocalStorage.update_event st now event_id
    [ (py "media_file_id", media_file_id); (py "media_type", media_type) ].

Definition update_event_description (st : State) (now : Z) (event_id : pystr)
    (description : pyval) : State :=
  LocalStorage.update_event st now event_id [ (py "description", description) ].

(** [add_user]: [username or ''] is stored. *)
Definition add_user (st : State) (now : Z) (user_id username full_name : pyval)
    : result State :=
  LocalStorage.add_user st now
    [ (py "user_id", user_id);
      (py "username", if Py.truthy username then username else PStr []);
      (py "full_name", full_name);
      (py "created_at", stamp now); (py "is_blacklisted", PBool false) ].

(** [mark_reminder_sent(reminder_data)]: the reminder is looked up by its
    data and marked under the id found. *)
Definition mark_reminder_sent (st : State) (now : Z) (reminder_data : record)
    : result State :=
  e <- Py.item reminder_data "event_id" ;;
  u <- Py.item reminder_data "user_id" ;;
  t <- Py.item reminder_data "type" ;;
  match LocalStorage.get_reminder_by_data st e u t with
  | Some reminder_id =>
      if Py.truthy (PStr reminder_id)
      then Ok (LocalStorage.mark_reminder_sent st now reminder_id)
      else Ok st
  | None => Ok st
  end.

(** [get_all_records(sheet_name)]: the records of one collection. *)
Definition get_all_records (st : State) (sheet_name : pystr) : list record :=
  if Py.str_eqb sheet_name (py "events") then Py.dict_values (LocalStorage.get_all_events st)
  else if Py.str_eqb sheet_name (py "users") then Py.dict_values (LocalStorage.get_all_users st)
  else if Py.str_eqb sheet_name (py "registrations")
  then Py.dict_values (LocalStorage.get_all_registrations st)
  else if Py.str_eqb sheet_name (py "blacklist") then Py.dict_values (LocalStorage.get_blacklist st)
  else if Py.str_eqb sheet_name (py "reminders") then Py.dict_values (coll st Reminders)
  else [].

(* ---- the spreadsheet mirror ---- *)

Definition row := list pyval.

(** The content of one tab of the remote spreadsheet, row by row. *)
Definition tab := list row.

Definition clear (t : tab) : tab := [].
Definition append_row (t : tab) (r : row) : tab := t ++ [r].
Definition append_rows (t : tab) (rs : list row) : tab := t ++ rs.

Definition events_headers : list string :=
  [ "event_id"; "title"; "description"; "start_at"; "place"; "capacity";
    "media_file_id"; "media_type"; "status"; "checkin_window_start_minutes";
    "checkin_window_end_minutes"; "created_at"; "updated_at" ]%string.
Definition users_headers : list string :=
  [ "user_id"; "username"; "full_name"; "created_at"; "is_blacklisted" ]%string.
Definition registrations_headers : list string :=
  [ "registration_id"; "event_id"; "user_id"; "full_name"; "status";
    "waitlist_position"; "qr_token"; "checkin_at"; "created_at"; "updated_at" ]%string.
Definition blacklist_headers : list string :=
  [ "user_id"; "reason"; "added_by"; "added_at" ]%string.
Definition reminders_headers : list string :=
  [ "event_id"; "user_id"; "scheduled_for"; "type"; "sent_at" ]%string.

Definition header_row (headers : list string) : row :=
  map (fun h => PStr (py h)) headers.

(** One data row: [item_data.get(header, '')] for each header. *)
Definition project (headers : list string) (item_data : record) : row :=
  map (fun h => Py.get_default item_data h (PStr [])) headers.

Section Sync.
(** Whether [sheet.get_all_records()] succeeds on a tab with the given
    content (the client library rejects some header rows). *)
Variable records_readable : tab -> bool.

(** [_sync_to_sheet]: any exception inside is logged and swallowed. *)
Definition _sync_to_sheet (sheets : dict tab) (sheet_name : string)
    (data : collection) (headers : list string) : dict tab :=
  match Py.dict_get sheets (py sheet_name) with
  | None => sheets
  | Some sheet =>
      if negb (records_readable sheet) then sheets
      else
        match headers with
        | [] => sheets
        | _ =>
            let rows_to_update := map (project headers) (Py.dict_values data) in
            match rows_to_update with
            | [] => sheets
            | _ =>
                let sheet := clear sheet in
                let sheet := append_row sheet (header_row headers) in
                let sheet := append_rows sheet rows_to_update in
                Py.dict_set sheets (py sheet_name) sheet
            end
        end
  end.

(** [sync_all_data] on the tabs found at start-up ([None]: the
    spreadsheet could not be opened). *)
Definition sync_all_data (st : State) (sheets : option (dict tab))
    : option (dict tab) :=
  match sheets with
  | None => None
  | Some [] => Some []
  | Some sh =>
      let sh := _sync_to_sheet sh "events" (LocalStorage.get_all_events st) events_headers in
      let sh := _sync_to_sheet sh "users" (LocalStorage.get_all_users st) users_headers in
      let sh := _sync_to_sheet sh "registrations"
                  (LocalStorage.get_all_registrations st) registrations_headers in
      let sh := _sync_to_sheet sh "blacklist" (LocalStorage.get_blacklist st) blacklist_headers in
      let sh := _sync_to_sheet sh "reminders" (coll st Reminders) reminders_headers in
      Some sh
  end.
End Sync.

End WithPython.

End Sheets.

(* ===================================================================== *)
(** * user_manager.py                                                     *)
(* ===================================================================== *)

Module UserManager.
Import LocalStorage.

Definition users_file : pystr := py "users.json".

(** [get_all_users]: the parsed file, or the empty list on any error. *)
Definition get_all_users (dk : Disk) : json_doc :=
  match Py.dict_get (files dk) users_file with
  | Some doc => doc
  | None => DocList []
  end.

(** The loop of [update_user_info]: the first entry whose [user_id] equals
    the argument gets the new full name. *)
Fixpoint rename_first (l : list record) (user_id full_name : pyval)
    : result (option (list record)) :=
  match l with
  | [] => Ok None
  | user :: rest =>
      uid <- Py.item user "user_id" ;;
      if Py.py_eq uid user_id
      then Ok (Some (Py.dict_set user (py "full_name") full_name :: rest))
      else
        r <- rename_first rest user_id full_name ;;
        Ok (option_map (cons user) r)
  end.

(** [update_user_info(user_id, full_name=...)]; every exception is caught.
    Iterating a mapping-shaped document yields its keys, on which
    [user['user_id']] is a [TypeError]. *)
Definition update_user_info (dk : Disk) (user_id full_name : pyval) : Disk :=
  match get_all_users dk with
  | DocDict _ => dk
  | DocList l =>
      match rename_first l user_id full_name with
      | Ok (Some l') =>
          match write_file dk users_file (DocList l') with
          | Ok dk' => dk'
          | Raise _ => dk
          end
      | _ => dk
      end
  end.

(** [any(user['user_id'] == user_id for user in users)] *)
Fixpoint user_exists (users : list record) (user_id : pyval) : result bool :=
  match users with
  | [] => Ok false
  | user :: rest =>
      uid <- Py.item user "user_id" ;;
      if Py.py_eq uid user_id then Ok true else user_exists rest user_id
  end.

(** [s.lstrip('@')] *)
Fixpoint lstrip_at (s : pystr) : pystr :=
  match s with
  | c :: s' => if (c =? 64)%N then lstrip_at s' else s
  | [] => []
  end.

(** [username.lstrip('@') if username else ""]; a truthy value that is
    not a string has no [lstrip]. *)
Definition normalized_username (username : pyval) : result pystr :=
  if Py.truthy username then
    match username with
    | PStr s => Ok (lstrip_at s)
    | _ => Raise TypeError
    end
  else Ok [].

(** [add_user(user_id, username, full_name)]: [True] when the user was
    appended and the file written; every exception gives [False].
    [added_at] is the timestamp of the call.  On a mapping-shaped document
    the test fails on the first key, and [append] fails on an empty one. *)
Definition add_user (dk : Disk) (added_at : pyval) (user_id username full_name : pyval)
    : Disk * bool :=
  match get_all_users dk with
  | DocDict _ => (dk, false)
  | DocList users =>
      match normalized_username username with
      | Raise _ => (dk, false)
      | Ok normalized =>
          match user_exists users user_id with
          | Ok false =>
              let user_data : record :=
                [ (py "user_id", user_id); (py "username", PStr normalized);
                  (py "full_name", if Py.truthy full_name then full_name else PStr []);
                  (py "added_at", added_at) ] in
              match write_file dk users_file (DocList (users ++ [user_data])) with
              | Ok dk' => (dk', true)
              | Raise _ => (dk, false)
              end
          | _ => (dk, false)
          end
      end
  end.

(** [get_user_ids]: iterating a mapping-shaped document yields its keys,
    on which [user['user_id']] is a [TypeError]. *)
Fixpoint user_ids (users : list record) : result (list pyval) :=
  match users with
  | [] => Ok []
  | user :: rest =>
      uid <- Py.item user "user_id" ;;
      ids <- user_ids rest ;;
      Ok (uid :: ids)
  end.

Definition get_user_ids (dk : Disk) : result (list pyval) :=
  match get_all_users dk with
  | DocDict [] => Ok []
  | DocDict _ => Raise TypeError
  | DocList users => user_ids users
  end.

(** [[user for user in users if user['user_id'] != user_id]] *)
Fixpoint without_user (users : list record) (user_id : pyval) : result (list record) :=
  match users with
  | [] => Ok []
  | user :: rest =>
      uid <- Py.item user "user_id" ;;
      kept <- without_user rest user_id ;;
      Ok (if Py.py_eq uid user_id then kept else user :: kept)
  end.

Definition remove_user (dk : Disk) (user_id : pyval) : Disk * bool :=
  match get_all_users dk with
  | DocDict _ => (dk, false)
  | DocList users =>
      match without_user users user_id with
      | Ok kept =>
          if (length kept <? length users)%nat then
            match write_file dk users_file (DocList kept) with
            | Ok dk' => (dk', true)
            | Raise _ => (dk, false)
            end
          else (dk, false)
      | Raise _ => (dk, false)
      end
  end.

Definition get_user_count (dk : Disk) : nat :=
  match get_all_users dk with
  | DocDict users => length users
  | DocList users => length users
  end.

End UserManager.

(* ===================================================================== *)
(** * Conversation handlers                                               *)
(* ===================================================================== *)

Module Handlers.
Import LocalStorage Utils.

(** The per-user dialogue state kept by the dispatcher. *)
Inductive fsm :=
| Idle
| WaitingFullname (event_id : pystr).

Record World := {
  store : State;
  session : fsm
}.

(** What the chat platform and the QR library answer. *)
Record Bot := {
  get_me_username : result pystr;
  qrcode_make : pystr -> result image
}.

(** The fixed wordings sent to the chat. *)
Inductive message :=
(* main.py *)
| ActionUnavailable          (* "Действие недоступно. Обратитесь к менеджеру." *)
| RegistrationClosed         (* "Регистрация на это событие закрыта, так как оно уже прошло." *)
| AlreadyRegistered          (* "Вы уже зарегистрированы на это событие" *)
| InWaitlist (position : pyval)   (* "Вы в листе ожидания. Ваша позиция: {position}" *)
| AskFullName                (* "Напишите ваше Имя и Фамилию одной строкой ..." *)
| InvalidFullName            (* "Пожалуйста, введите корректные Имя и Фамилию ..." *)
| RegisteredSaveQr (title : pyval) (start_at : Datetime.datetime)
                             (* "✅ Вы успешно зарегистрировались на событие! ... Сохраните QR-код ..." *)
| QrCaption                  (* "Ваш QR-код для входа на мероприятие" *)
| RegisteredQrLater (event_id : pyval)  (* "... QR-код будет отправлен позже." *)
| AddedToWaitlist            (* "Мест нет 😕 Вы добавлены в список ожидания. ..." *)
| RegistrationFailed         (* "Произошла ошибка при регистрации. Попробуйте позже." *)
| PlaceTaken                 (* "К сожалению, место уже занято. Вы остаетесь в листе ожидания." *)
| RegisteredPlain (event_id : pyval)    (* "✅ Вы успешно зарегистрировались на событие {event_id}!" *)
| NoActiveRegistrations      (* "У вас нет активных регистраций на события. ..." *)
| EventNotInDatabase         (* "❌ Событие не найдено в базе данных." *)
| EventPassed                (* "⚠️ Это событие уже прошло. QR-код больше не действителен." *)
| YourQr (title : pyval) (start_at : Datetime.datetime) (place : pyval)
                             (* "🎫 **Ваш QR-код** ..." *)
| QrGenerationFailed         (* "❌ Не удалось сгенерировать QR-код. Попробуйте позже." *)
| InternalError              (* "❌ Произошла ошибка. Обратитесь к администратору." *)
(* admin_handlers.py *)
| BadLinkFormat              (* "❌ Неверный формат ссылки" *)
| NotCheckinLink             (* "❌ Это не ссылка для чекина" *)
| BadQrFormat                (* "❌ Неверный формат QR-кода" *)
| RegistrationNotFound       (* "❌ Регистрация не найдена" *)
| InvalidQr                  (* "❌ Недействительный QR-код" *)
| RegistrationCancelled      (* "❌ Регистрация отменена" *)
| UserAlreadyAttended        (* "⚠️ Пользователь уже отмечен на мероприятии" *)
| UserInWaitlist             (* "❌ Пользователь в списке ожидания" *)
| EventNotFound              (* "❌ Событие не найдено" *)
| OutsideWindow              (* "❌ Чекин невозможен: вне временного окна ..." *)
| CheckinDone (user_name title : pyval) (registration_id : pystr)
                             (* "✅ **Чекин выполнен успешно!** ..." *)
| QrProcessingError          (* "❌ Ошибка при обработке QR-кода" *)
(* checkin_handlers.py *)
| BadCheckinLink             (* "Неверная ссылка для чекина" *)
| OwnRegistrationNotFound    (* "Регистрация не найдена" *)
| InvalidCheckinLink         (* "Недействительная ссылка для чекина" *)
| NotYourQr                  (* "Этот QR-код не для вас" *)
| OwnRegistrationCancelled   (* "Регистрация отменена" *)
| OwnAlreadyAttended         (* "Вы уже отмечены на мероприятии" *)
| OwnInWaitlist              (* "Вы в списке ожидания и не можете отметить посещение" *)
| OwnEventNotFound           (* "Событие не найдено" *)
| CheckinUnavailable         (* "Отметка сейчас недоступна. ..." *)
| OwnCheckinDone             (* "✅ Отметка выполнена. Хорошего мероприятия!" *)
| CheckinError.              (* "Ошибка при выполнении отметки" *)

Inductive output :=
| Text (m : message)
| Photo (img : image) (caption : message).

(** Handlers thread the world, emit messages and may raise: what was done
    and said before an exception stays done and said. *)
Definition H (A : Type) := World -> World * list output * result A.

Definition ret {A} (a : A) : H A := fun w => (w, [], Ok a).

Definition hbind {A B} (m : H A) (k : A -> H B) : H B :=
  fun w =>
    match m w with
    | (w1, out1, Ok a) =>
        let '(w2, out2, r) := k a w1 in (w2, out1 ++ out2, r)
    | (w1, out1, Raise e) => (w1, out1, Raise e)
    end.

Notation "'let*' x ':=' m 'in' k" := (hbind m (fun x => k))
  (at level 10, x name, m at level 100, k at level 200).
Notation "m1 ';;;' m2" := (hbind m1 (fun _ => m2))
  (at level 62, right associativity).

Section WithPython.
Context {python : Datetime.Python}.

Definition say (m : message) : H unit := fun w => (w, [Text m], Ok tt).
Definition send_photo (img : image) (caption : message) : H unit :=
  fun w => (w, [Photo img caption], Ok tt).
Definition lift {A} (r : result A) : H A := fun w => (w, [], r).
Definition ask {A} (f : State -> A) : H A := fun w => (w, [], Ok (f (store w))).
Definition update (f : State -> State) : H unit :=
  fun w => ({| store := f (store w); session := session w |}, [], Ok tt).
Definition update_r (f : State -> result State) : H unit :=
  fun w =>
    match f (store w) with
    | Ok st => ({| store := st; session := session w |}, [], Ok tt)
    | Raise e => (w, [], Raise e)
    end.
Definition call {A} (f : State -> result (State * A)) : H A :=
  fun w =>
    match f (store w) with
    | Ok (st, a) => ({| store := st; session := session w |}, [], Ok a)
    | Raise e => (w, [], Raise e)
    end.
Definition set_session (s : fsm) : H unit :=
  fun w => ({| store := store w; session := s |}, [], Ok tt).
Definition get_session : H fsm := fun w => (w, [], Ok (session w)).

(** [try: m except Exception: handler] *)
Definition try_except {A} (m : H A) (handler : H A) : H A :=
  fun w =>
    match m w with
    | (w1, out1, Raise _) =>
        let '(w2, out2, r) := handler w1 in (w2, out1 ++ out2, r)
    | done => done
    end.

Definition nth_part (parts : list pystr) (i : nat) : result pystr :=
  match nth_error parts i with
  | Some x => Ok x
  | None => Raise IndexError
  end.

(** [x[k]] on a value that may be [None]. *)
Definition item_of (o : option record) (k : string) : result pyval :=
  match o with
  | Some r => Py.item r k
  | None => Raise TypeError
  end.

(** The check-in deep link [https://t.me/{bot}?start=chk_{id}_{token}]. *)
Definition checkin_payload (registration_id qr_token : pyval) : pystr :=
  py "chk_" ++ py_str registration_id ++ py "_" ++ py_str qr_token.

Definition checkin_deeplink (bot_username : pystr)
    (registration_id qr_token : pyval) : pystr :=
  py "https://t.me/" ++ bot_username ++ py "?start="
    ++ checkin_payload registration_id qr_token.

(** The literals "уточняется" and "Неизвестно" used as defaults. *)
Definition place_unknown : pystr :=
  [0x443; 0x442; 0x43E; 0x447; 0x43D; 0x44F; 0x435; 0x442; 0x441; 0x44F]%N.
Definition name_unknown : pystr :=
  [0x41D; 0x435; 0x438; 0x437; 0x432; 0x435; 0x441; 0x442; 0x43D; 0x43E]%N.

(** The provisional key [f"reg_{user_id}_{event_id}"] the token is made from. *)
Definition provisional_key (user_id event_id : pyval) : pyval :=
  PStr (py "reg_" ++ py_str user_id ++ py "_" ++ py_str event_id).

(** [start_at < now - timedelta(hours=2)] *)
Definition has_passed (now : Z) (event : record) : result bool :=
  s <- Py.item event "start_at" ;;
  d <- Datetime.fromisoformat s ;;
  t <- Datetime.instant d ;;
  Ok (t <? now - Datetime.hours 2)%Z.

(* ---- main.py: registration dialogue ---- *)

Definition start_registration (now : Z) (user_id : pyval) (data : pystr)
    : H unit :=
  let* event_id := lift (nth_part (Py.split (py "_") data) 1) in
  let* blocked := ask (fun st => Sheets.is_blacklisted st user_id) in
  if blocked then say ActionUnavailable
  else
    let* event := ask (fun st => Sheets.get_event st (PStr event_id)) in
    let* passed := (if Sheets.present event
                    then match event with
                         | Some ev => lift (has_passed now ev)
                         | None => ret false
                         end
                    else ret false) in
    if passed then say RegistrationClosed
    else
      let* existing_reg :=
        ask (fun st => Sheets.get_user_registration st user_id (PStr event_id)) in
      match existing_reg with
      | Some reg =>
          if Py.dict_truthy reg then
            let* status := lift (Py.item reg "status") in
            if Py.eq_str status (py "registered") then say AlreadyRegistered
            else if Py.eq_str status (py "waitlist")
            then say (InWaitlist (Py.get_default reg "waitlist_position" (PStr (py "?"))))
            else ret tt
          else
            set_session (WaitingFullname event_id) ;;; say AskFullName
      | None =>
          set_session (WaitingFullname event_id) ;;; say AskFullName
      end.

(** Creation of the reminder [name] at [start_at - before], when that time
    is still ahead. *)
Definition schedule_reminder (now : Z) (event_id user_id : pyval)
    (start_at : Datetime.datetime) (before : Z) (name : string) : H unit :=
  let* reminder_time := lift (Datetime.shift start_at (- before)) in
  let* t := lift (Datetime.instant reminder_time) in
  if (now <? t)%Z then
    update_r (fun st =>
      LocalStorage.create_reminder st
        [ (py "event_id", event_id); (py "user_id", user_id);
          (py "scheduled_for", PStr (Datetime.isoformat_of reminder_time));
          (py "type", PStr (py name)); (py "sent_at", PStr []) ])
  else ret tt.

Definition process_fullname (cfg : Config) (bot : Bot) (now : Z)
    (user_id : pyval) (text : pystr) : H unit :=
  let fullname := Py.strip text in
  if negb (validate_fullname fullname) then say InvalidFullName
  else
    let* sess := get_session in
    let* event_id := lift (match sess with
                           | WaitingFullname e => Ok (PStr e)
                           | Idle => Raise KeyError
                           end) in
    update (fun st => Sheets.update_user_fullname st user_id (PStr fullname)) ;;;
    update (fun st =>
      {| data := data st;
         disk := UserManager.update_user_info (disk st) user_id (PStr fullname);
         log := log st |}) ;;;
    let qr_token := generate_qr_token cfg (provisional_key user_id event_id) event_id user_id in
    let* created := call (fun st =>
      Sheets.create_registration st now user_id event_id
        (PStr fullname) (PStr qr_token)) in
    let '(registration_id, status, waitlist_position) := created in
    (if Py.truthy registration_id then
       if Py.eq_str status (py "registered") then
         let* event := ask (fun st => Sheets.get_event st event_id) in
         let* bot_username := lift (get_me_username bot) in
         let deeplink := checkin_deeplink bot_username registration_id (PStr qr_token) in
         (match generate_qr_code_image (qrcode_make bot) deeplink with
          | Some qr_image =>
              let* title := lift (item_of event "title") in
              let* s := lift (item_of event "start_at") in
              let* d := lift (Datetime.fromisoformat s) in
              say (RegisteredSaveQr title d) ;;;
              send_photo qr_image QrCaption
          | None => say (RegisteredQrLater event_id)
          end) ;;;
         (if Sheets.present event then
            let* s := lift (item_of event "start_at") in
            let* start_at := lift (Datetime.fromisoformat s) in
            schedule_reminder now event_id user_id start_at (Datetime.days 1) "D1" ;;;
            schedule_reminder now event_id user_id start_at (Datetime.hours 6) "H6" ;;;
            schedule_reminder now event_id user_id start_at (Datetime.hours 1) "H1"
          else ret tt)
       else say AddedToWaitlist
     else say RegistrationFailed) ;;;
    set_session Idle.

(* ---- main.py: accepting a freed place ---- *)


(* ---- main.py: self-service retrieval of the proof code ---- *)

Definition _generate_and_send_qr (cfg : Config) (bot : Bot) (now : Z)
    (user_id : pyval) : H unit :=
  try_except
    (let* registrations_data := ask LocalStorage.get_all_registrations in
     let active_registrations :=
       filter (fun reg_data =>
                 Py.str_eqb (py_str (Py.get reg_data "user_id")) (py_str user_id)
                 && in_strs (Py.get reg_data "status") ["registered"; "attended"]%string)
              (Py.dict_values registrations_data) in
     match rev active_registrations with
     | [] => say NoActiveRegistrations
     | registration :: _ =>
         let* event_id := lift (Py.item registration "event_id") in
         (* the log line before the lookup reads the id *)
         let* _ := lift (Py.item registration "registration_id") in
         let* event := ask (fun st => Sheets.get_event st event_id) in
         match event with
         | None => say EventNotInDatabase
         | Some ev =>
             if negb (Py.dict_truthy ev) then say EventNotInDatabase
             else
               let* passed := lift (has_passed now ev) in
               if passed then say EventPassed
               else
                 let stored := Py.get_default registration "qr_token" (PStr []) in
                 let* qr_token :=
                   (if negb (Py.truthy stored) || Py.eq_str stored (py "temp_token")
                    then
                      let* rid := lift (Py.item registration "registration_id") in
                      let fresh := PStr (generate_qr_token cfg rid event_id user_id) in
                      update (fun st =>
                        Sheets.update_registration st now rid [ (py "qr_token", fresh) ]) ;;;
                      ret fresh
                    else ret stored) in
                 let* bot_username := lift (get_me_username bot) in
                 let* rid := lift (Py.item registration "registration_id") in
                 let deeplink := checkin_deeplink bot_username rid qr_token in
                 match generate_qr_code_image (qrcode_make bot) deeplink with
                 | Some qr_image =>
                     let* s := lift (Py.item ev "start_at") in
                     let* d := lift (Datetime.fromisoformat s) in
                     let* title := lift (Py.item ev "title") in
                     send_photo qr_image
                       (YourQr title d (Py.get_default ev "place" (PStr place_unknown)))
                 | None => say QrGenerationFailed
                 end
         end
     end)
    (say InternalError).

(* ---- the check-in payload and its two readers ---- *)

(** [parts = payload.split("_")], accepted when there are exactly three
    parts: [(parts[1], parts[2])] is [(registration_id, signature)]. *)
Definition parse_checkin (payload : pystr) : option (pystr * pystr) :=
  match Py.split (py "_") payload with
  | [_; registration_id; signature] => Some (registration_id, signature)
  | _ => None
  end.

(** The three states that close the way to a check-in; [None] lets it pass. *)
Definition status_refusal (status : pyval) (cancelled attended waitlist : message)
    : option message :=
  if Py.eq_str status (py "cancelled") then Some cancelled
  else if Py.eq_str status (py "attended") then Some attended
  else if Py.eq_str status (py "waitlist") then Some waitlist
  else None.

(* ---- admin_handlers.py: check-in by scanned or forwarded code ---- *)

(** The token test of [process_qr_deeplink]: the stored token first, then
    [verify_qr_token]; a signature accepted by the latter replaces the
    stored token. *)
Definition check_token (cfg : Config) (now : Z)
    (registration_id signature : pystr) (registration : record) : H bool :=
  if Py.eq_str (Py.get_default registration "qr_token" (PStr [])) signature
  then ret true
  else
    let* event_id := lift (Py.item registration "event_id") in
    let* user_id := lift (Py.item registration "user_id") in
    let token_valid :=
      verify_qr_token cfg signature (PStr registration_id) event_id user_id in
    if token_valid then
      update (fun st =>
        Sheets.update_registration st now (PStr registration_id)
          [ (py "qr_token", PStr signature) ]) ;;;
      ret true
    else ret false.

(** [deeplink_params] of [process_qr_deeplink]; [None] is the
    "wrong link format" answer. *)
Definition deeplink_params (text : pystr) : result (option pystr) :=
  if Py.contains (py "start=") text then
    match Py.split (py "start=") text with
    | _ :: after :: _ =>
        first <- nth_part (Py.split (py " ") after) 0 ;;
        Ok (Some first)
    | _ => Ok None
    end
  else Ok (Some text).

Definition process_qr_deeplink (cfg : Config) (now : Z) (deeplink_text : pystr)
    : H unit :=
  try_except
    (let* params := lift (deeplink_params deeplink_text) in
     match params with
     | None => say BadLinkFormat
     | Some params =>
         if negb (Py.startswith (py "chk_") params) then say NotCheckinLink
         else
           match parse_checkin params with
           | None => say BadQrFormat
           | Some (registration_id, signature) =>
               let* found :=
                 ask (fun st => Sheets.get_registration st (PStr registration_id)) in
               match found with
               | None => say RegistrationNotFound
               | Some registration =>
                   if negb (Py.dict_truthy registration) then say RegistrationNotFound
                   else
                     let* token_valid :=
                       check_token cfg now registration_id signature registration in
                     if negb token_valid then say InvalidQr
                     else
                       let* status := lift (Py.item registration "status") in
                       match status_refusal status RegistrationCancelled
                               UserAlreadyAttended UserInWaitlist with
                       | Some refusal => say refusal
                       | None =>
                           let* event_id := lift (Py.item registration "event_id") in
                           let* event := ask (fun st => Sheets.get_event st event_id) in
                           match event with
                           | None => say EventNotFound
                           | Some ev =>
                               if negb (Py.dict_truthy ev) then say EventNotFound
                               else if negb (is_within_checkin_window now ev) then
                                 let* s := lift (Py.item ev "start_at") in
                                 let* start_at := lift (Datetime.fromisoformat s) in
                                 let* d1 := lift (Datetime.timedelta_minutes
                                   (Py.get_default ev "checkin_window_start_minutes" (PInt (-60)))) in
                                 let* _start := lift (Datetime.shift start_at d1) in
                                 let* d2 := lift (Datetime.timedelta_minutes
                                   (Py.get_default ev "checkin_window_end_minutes" (PInt 120))) in
                                 let* _end := lift (Datetime.shift start_at d2) in
                                 say OutsideWindow
                               else
                                 update (fun st =>
                                   Sheets.update_registration_status st now
                                     (PStr registration_id) (py "attended") (Some now)) ;;;
                                 let* user_id := lift (Py.item registration "user_id") in
                                 let* user := ask (fun st => LocalStorage.get_user st user_id) in
                                 let user_name :=
                                   match user with
                                   | Some u =>
                                       if Py.dict_truthy u
                                       then Py.get_default u "full_name" (PStr name_unknown)
                                       else PStr name_unknown
                                   | None => PStr name_unknown
                                   end in
                                 let* title := lift (Py.item ev "title") in
                                 say (CheckinDone user_name title registration_id) ;;;
                                 let* _e := lift (Py.item ev "event_id") in
                                 ret tt
                           end
                       end
               end
           end
     end)
    (say QrProcessingError).

(* ---- checkin_handlers.py: the user's own check-in link ---- *)

Definition cmd_start_deeplink (cfg : Config) (now : Z) (caller : pyval)
    (args : option pystr) : H unit :=
  match args with
  | None => ret tt
  | Some args =>
      if negb (Py.truthy (PStr args)) || negb (Py.startswith (py "chk_") args) then ret tt
      else
        set_session Idle ;;;
        try_except
          (match parse_checkin args with
           | None => say BadCheckinLink
           | Some (registration_id, signature) =>
               let* found :=
                 ask (fun st => Sheets.get_registration st (PStr registration_id)) in
               match found with
               | None => say OwnRegistrationNotFound
               | Some registration =>
                   if negb (Py.dict_truthy registration) then say OwnRegistrationNotFound
                   else
                     let* event_id := lift (Py.item registration "event_id") in
                     let* user_id := lift (Py.item registration "user_id") in
                     if negb (verify_qr_token cfg signature (PStr registration_id)
                                event_id user_id)
                     then say InvalidCheckinLink
                     else
                       let* blocked := ask (fun st => Sheets.is_blacklisted st user_id) in
                       if blocked then say ActionUnavailable
                       else if negb (Py.str_eqb (py_str user_id) (py_str caller))
                       then say NotYourQr
                       else
                         let* status := lift (Py.item registration "status") in
                         match status_refusal status OwnRegistrationCancelled
                                 OwnAlreadyAttended OwnInWaitlist with
                         | Some refusal => say refusal
                         | None =>
                             let* event := ask (fun st => Sheets.get_event st event_id) in
                             match event with
                             | None => say OwnEventNotFound
                             | Some ev =>
                                 if negb (Py.dict_truthy ev) then say OwnEventNotFound
                                 else if negb (is_within_checkin_window now ev)
                                 then say CheckinUnavailable
                                 else
                                   update (fun st =>
                                     Sheets.update_registration_status st now
                                       (PStr registration_id) (py "attended") (Some now)) ;;;
                                   say OwnCheckinDone ;;;
                                   let* _e := lift (Py.item ev "event_id") in
                                   ret tt
                             end
                         end
               end
           end)
          (say CheckinError)
  end.

(* ---- broadcast.py: the fan-out of an event post ---- *)

Inductive delivery := SendPhoto | SendVideo | SendDocument | SendMessage.

(** One attempted send: the chat it goes to and the call used. *)
Definition send := (pyval * delivery)%type.

Definition delivery_of (event : record) : delivery :=
  let media_file_id := Py.get event "media_file_id" in
  let media_type := Py.get event "media_type" in
  if Py.truthy media_file_id && Py.truthy media_type then
    if Py.eq_str media_type (py "photo") then SendPhoto
    else if Py.eq_str media_type (py "video") then SendVideo
    else if Py.eq_str media_type (py "document") then SendDocument
    else SendMessage
  else SendMessage.

Record tally := {
  sends : list send;
  success_count : Z;
  failed_count : Z
}.

(** The loop over the users.  [accepts chat] tells whether the platform
    accepts a send to [chat]; a refused send is counted and the loop goes on. *)
Fixpoint fan_out (st : State) (accepts : pyval -> bool) (how : delivery)
    (users_to_process : list record) (acc : tally) : tally :=
  match users_to_process with
  | [] => acc
  | user_data :: rest =>
      let user_id := Py.get user_data "user_id" in
      if negb (Py.truthy user_id) then fan_out st accepts how rest acc
      else if Sheets.is_blacklisted st user_id then fan_out st accepts how rest acc
      else
        fan_out st accepts how rest
          {| sends := sends acc ++ [(user_id, how)];
             success_count := if accepts user_id then success_count acc + 1
                              else success_count acc;
             failed_count := if accepts user_id then failed_count acc
                             else failed_count acc + 1 |}
  end.

Definition no_sends : tally := {| sends := []; success_count := 0; failed_count := 0 |}.

(** One pass of the retry loop of [broadcast_event] once the event is
    found: [Ok None] when the broadcast is called off, [Raise] when the
    pass fails and the next one is tried. *)
Definition broadcast_pass (st : State) (now : Z) (accepts : pyval -> bool)
    (event : record) : result (option tally) :=
  match has_passed now event with
  | Raise KeyError => Ok None
  | Raise ValueError => Ok None
  | Raise e => Raise e
  | Ok true => Ok None
  | Ok false =>
      _title <- Py.item event "title" ;;
      let users_to_process :=
        match UserManager.get_all_users (disk st) with
        | DocDict users_data => Py.dict_values users_data
        | DocList users_data => users_data
        end in
      Ok (Some (fan_out st accepts (delivery_of event) users_to_process no_sends))
  end.

Fixpoint broadcast_retry (attempts : nat) (st : State) (now : Z)
    (accepts : pyval -> bool) (event_id : pyval) : tally :=
  match attempts with
  | O => no_sends
  | S remaining =>
      match Sheets.get_event st event_id with
      | Some event =>
          if Py.dict_truthy event then
            match broadcast_pass st now accepts event with
            | Ok (Some t) => t
            | Ok None => no_sends
            | Raise _ => broadcast_retry remaining st now accepts event_id
            end
          else broadcast_retry remaining st now accepts event_id
      | None => broadcast_retry remaining st now accepts event_id
      end
  end.

(** [broadcast_event(event_id, bot, max_retries=3)] *)
Definition broadcast_event (st : State) (now : Z) (accepts : pyval -> bool)
    (event_id : pyval) : tally :=
  broadcast_retry 3 st now accepts event_id.

End WithPython.

End Handlers.

(* ===================================================================== *)
(** * Jobs and commands outside a dialogue                                *)
(* ===================================================================== *)

Module Job.
Import LocalStorage.

(** A job threads the store, collects what it sends (of type [O]) and may
    raise; what was done and sent before an exception stays. *)
Definition J (O A : Type) := State -> State * list O * result A.

Definition ret {O A} (a : A) : J O A := fun st => (st, [], Ok a).

Definition bind {O A B} (m : J O A) (k : A -> J O B) : J O B :=
  fun st =>
    match m st with
    | (st1, out1, Ok a) =>
        let '(st2, out2, r) := k a st1 in (st2, out1 ++ out2, r)
    | (st1, out1, Raise e) => (st1, out1, Raise e)
    end.

Definition emit {O} (o : O) : J O unit := fun st => (st, [o], Ok tt).
Definition lift {O A} (r : result A) : J O A := fun st => (st, [], r).
Definition ask {O A} (f : State -> A) : J O A := fun st => (st, [], Ok (f st)).
Definition ask_r {O A} (f : State -> result A) : J O A := fun st => (st, [], f st).
Definition update {O} (f : State -> State) : J O unit := fun st => (f st, [], Ok tt).
Definition update_r {O} (f : State -> result State) : J O unit :=
  fun st =>
    match f st with
    | Ok st' => (st', [], Ok tt)
    | Raise e => (st, [], Raise e)
    end.

(** [try: m except Exception: handler] *)
Definition try_except {O A} (m : J O A) (handler : J O A) : J O A :=
  fun st =>
    match m st with
    | (st1, out1, Raise _) =>
        let '(st2, out2, r) := handler st1 in (st2, out1 ++ out2, r)
    | done => done
    end.

(** [for x in l: body(x)] *)
Fixpoint for_each {O X} (l : list X) (body : X -> J O unit) : J O unit :=
  match l with
  | [] => ret tt
  | x :: rest => bind (body x) (fun _ => for_each rest body)
  end.

(** The record now stored under [key].  The loops below go through the
    records of a collection while updating some of them in place; a record
    met later in the loop is read as it is then. *)
Definition current {O} (ty : data_type) (key : pystr) : J O record :=
  ask_r (fun st => Py.dict_item (coll st ty) key).

End Job.

Notation "'let!' x ':=' m 'in' k" := (Job.bind m (fun x => k))
  (at level 10, x name, m at level 100, k at level 200).
Notation "m1 '>>>' m2" := (Job.bind m1 (fun _ => m2))
  (at level 62, right associativity).

(* ===================================================================== *)
(** * scheduler.py                                                        *)
(* ===================================================================== *)

Module Scheduler.
Import LocalStorage Job.

Section WithPython.
Context {python : Datetime.Python}.

(** The wordings the jobs send. *)
Inductive notice :=
| ReminderNotice (reminder_type title : pyval) (start_at : Datetime.datetime)
    (place registration_id : pyval)
                     (* "Напоминание за ... до события: ..." with the cancel button *)
| NoShowNotice       (* "Вы были зарегистрированы на мероприятие, но не пришли. ..." *)
| ThanksNotice (title : pyval) (event_id : pystr).
                     (* "Спасибо, что пришли на событие {title}! ..." with the rating buttons *)

(** A delivered message: the chat and the wording. *)
Definition sent := (pyval * notice)%type.

Definition Job := J sent.

(** [bot.send_message(chat, ...)]: [accepts chat] tells whether the
    platform takes the message; a refusal raises. *)
Definition send_message (accepts : pyval -> bool) (chat : pyval) (text : notice)
    : Job unit :=
  if accepts chat then emit (chat, text) else lift (Raise OSError).

(** [int(v)] *)
Definition int_of (v : pyval) : result Z :=
  match v with
  | PInt z => Ok z
  | PBool b => Ok (if b then 1 else 0)%Z
  | PStr s =>
      match Py.py_int s with
      | Some z => Ok z
      | None => Raise ValueError
      end
  | PNone => Raise TypeError
  end.

(** The literal "Место уточняется". *)
Definition place_to_be_announced : pystr :=
  [0x41C; 0x435; 0x441; 0x442; 0x43E; 0x20; 0x443; 0x442; 0x43E; 0x447; 0x43D; 0x44F;
   0x435; 0x442; 0x441; 0x44F]%N.

(** [send_reminder]: every exception is logged and swallowed. *)
Definition send_reminder (accepts : pyval -> bool) (now : Z) (reminder : record)
    : Job unit :=
  try_except
    (let! uid := lift (u <- Py.item reminder "user_id" ;; int_of u) in
     let user_id := PInt uid in
     let! event_id := lift (Py.item reminder "event_id") in
     let! reminder_type := lift (Py.item reminder "type") in
     let! event := ask (fun st => Sheets.get_event st event_id) in
     if negb (Sheets.present event) then ret tt
     else
       let! registration := ask (fun st => Sheets.get_user_registration st user_id event_id) in
       let! inactive :=
         (if negb (Sheets.present registration) then ret true
          else
            let! status := lift (Handlers.item_of registration "status") in
            ret (negb (Py.eq_str status (py "registered")))) in
       if inactive then ret tt
       else
         let! s := lift (Handlers.item_of event "start_at") in
         let! start_at := lift (Datetime.fromisoformat s) in
         let! t := lift (Datetime.instant start_at) in
         if (t <? now - Datetime.hours 2)%Z
         then update_r (fun st => Sheets.mark_reminder_sent st now reminder)
         else
           let place :=
             match event with
             | Some ev => Py.get_default ev "place" (PStr place_to_be_announced)
             | None => PNone
             end in
           let! title := lift (Handlers.item_of event "title") in
           let! registration_id := lift (Handlers.item_of registration "registration_id") in
           send_message accepts user_id
             (ReminderNotice reminder_type title start_at place registration_id))
    (ret tt).

(** [process_reminders]: each pending reminder is sent and marked. *)
Definition process_reminders (accepts : pyval -> bool) (now : Z) : Job unit :=
  try_except
    (let! reminders := ask_r (fun st => Sheets.get_pending_reminders st now) in
     for_each reminders (fun reminder =>
       send_reminder accepts now reminder >>>
       update_r (fun st => Sheets.mark_reminder_sent st now reminder)))
    (ret tt).

(** [now >= start_at + timedelta(hours=2)] *)
Definition followup_due (now : Z) (start_at : Datetime.datetime) : result bool :=
  due <- Datetime.shift start_at (Datetime.hours 2) ;;
  t <- Datetime.instant due ;;
  Ok (t <=? now)%Z.

(** [process_no_shows]: registered participants without a check-in are
    told so and marked [no_show]; a refused message leaves the status. *)
Definition process_no_shows (accepts : pyval -> bool) (now : Z)
    (event_id : pystr) (event : record) : Job unit :=
  try_except
    (let! keys := ask (fun st => Py.dict_keys (LocalStorage.get_all_registrations st)) in
     for_each keys (fun key =>
       let! reg := current Registrations key in
       let! e := lift (Py.item reg "event_id") in
       if negb (Py.eq_str e event_id) then ret tt
       else
         let! status := lift (Py.item reg "status") in
         if negb (Py.eq_str status (py "registered")) then ret tt
         else if Py.truthy (Py.get reg "checkin_at") then ret tt
         else
           try_except
             (let! user_id := lift (Py.item reg "user_id") in
              send_message accepts user_id NoShowNotice >>>
              let! registration_id := lift (Py.item reg "registration_id") in
              update (fun st =>
                Sheets.update_registration_status st now registration_id
                  (py "no_show") None))
             (ret tt)))
    (ret tt).

(** [process_thanks]: participants who attended are asked for a rating. *)
Definition process_thanks (accepts : pyval -> bool)
    (event_id : pystr) (event : record) : Job unit :=
  try_except
    (let! keys := ask (fun st => Py.dict_keys (LocalStorage.get_all_registrations st)) in
     for_each keys (fun key =>
       let! reg := current Registrations key in
       let! e := lift (Py.item reg "event_id") in
       if negb (Py.eq_str e event_id) then ret tt
       else
         let! status := lift (Py.item reg "status") in
         if negb (Py.eq_str status (py "attended")) then ret tt
         else
           let! title := lift (Py.item event "title") in
           try_except
             (let! user_id := lift (Py.item reg "user_id") in
              send_message accepts user_id (ThanksNotice title event_id))
             (ret tt)))
    (ret tt).

(** [process_attendance_followup].  [now] is the clock read at the start
    of the job, [now_events] the later reading made inside
    [get_active_events]. *)
Definition process_attendance_followup (accepts : pyval -> bool)
    (now now_events : Z) : Job unit :=
  try_except
    (let! events := ask_r (fun st => Sheets.get_active_events st now_events) in
     for_each events (fun kv =>
       let '(event_id, event) := kv in
       let! s := lift (Py.item event "start_at") in
       let! start_at := lift (Datetime.fromisoformat s) in
       let! no_shows_due := lift (followup_due now start_at) in
       (if no_shows_due then process_no_shows accepts now event_id event else ret tt) >>>
       let! thanks_due := lift (followup_due now start_at) in
       (if thanks_due then process_thanks accepts event_id event else ret tt)))
    (ret tt).

End WithPython.

End Scheduler.

(* ===================================================================== *)
(** * Commands of main.py and admin_handlers.py                           *)
(* ===================================================================== *)

Module Commands.
Import LocalStorage Job.

Section WithPython.
Context {python : Datetime.Python}.

(** [Config.ADMIN_IDS] *)
Definition ADMIN_IDS : list pystr := [py "1458704301"; py "1070944210"].

(** [is_admin]: [str(user_id) in Config.ADMIN_IDS] *)
Definition is_admin (user_id : pyval) : bool :=
  existsb (Py.str_eqb (py_str user_id)) ADMIN_IDS.

(** The wordings the commands answer with. *)
Inductive reply :=
| AccessDenied               (* "Доступ запрещен" *)
| CheckinUsage               (* "Формат: /checkin <ID_регистрации> ..." *)
| CheckinNoRegistration      (* "❌ Регистрация не найдена" *)
| CheckinAlreadyMarked       (* "⚠️ Пользователь уже отмечен" *)
| CheckinWrongStatus (status : pyval)
                             (* "❌ Неверный статус регистрации: {status}" *)
| CheckinNoEvent             (* "❌ Событие не найдено" *)
| CheckinOutsideWindow       (* "❌ Чекин невозможен: вне временного окна" *)
| CheckinMarked (user_name title : pyval) (registration_id : pystr)
                             (* "✅ **Чекин выполнен!** ..." *)
| CheckinFailed              (* "❌ Ошибка при выполнении чекина" *)
| TokensUpdated (fixed_count : Z)
                             (* "✅ Обновлено {fixed_count} QR-токенов" *)
| TokensFailed               (* "❌ Ошибка при обновлении токенов" *)
| RegistrationCancelledReply (* "✅ Ваша регистрация отменена." *)
| BlacklistCleared           (* "✅ Черный список очищен" *)
| BlacklistClearFailed.      (* "❌ Ошибка при очистки черного списка" *)

Definition Command := J reply.

Definition answer (r : reply) : Command unit := emit r.

(** [s.split()]: the maximal runs of characters that are not whitespace.
    [cur] is the run being read, reversed. *)
Fixpoint words_go (s cur : pystr) : list pystr :=
  match s with
  | [] => match cur with [] => [] | _ => [rev cur] end
  | c :: s' =>
      if Py.isspace c then
        match cur with
        | [] => words_go s' []
        | _ => rev cur :: words_go s' []
        end
      else words_go s' (c :: cur)
  end.

Definition words (s : pystr) : list pystr := words_go s [].

(* ---- admin_handlers.py: /checkin <registration id> ---- *)

Definition cmd_checkin (now : Z) (from_user : pyval) (text : pystr) : Command unit :=
  if negb (is_admin from_user) then answer AccessDenied
  else
    try_except
      (match words text with
       | _ :: registration_id :: _ =>
           let! registration :=
             ask (fun st => Sheets.get_registration st (PStr registration_id)) in
           if negb (Sheets.present registration) then answer CheckinNoRegistration
           else
             let! status := lift (Handlers.item_of registration "status") in
             if Py.eq_str status (py "attended") then answer CheckinAlreadyMarked
             else if negb (Py.eq_str status (py "registered"))
             then answer (CheckinWrongStatus status)
             else
               let! event_id := lift (Handlers.item_of registration "event_id") in
               let! event := ask (fun st => Sheets.get_event st event_id) in
               match event with
               | None => answer CheckinNoEvent
               | Some ev =>
                   if negb (Py.dict_truthy ev) then answer CheckinNoEvent
                   else if negb (Utils.is_within_checkin_window now ev)
                   then answer CheckinOutsideWindow
                   else
                     update (fun st =>
                       Sheets.update_registration_status st now (PStr registration_id)
                         (py "attended") (Some now)) >>>
                     let! user_id := lift (Handlers.item_of registration "user_id") in
                     let! user := ask (fun st => Sheets.get_user st user_id) in
                     let user_name :=
                       match user with
                       | Some u =>
                           if Py.dict_truthy u
                           then Py.get_default u "full_name" (PStr Handlers.name_unknown)
                           else PStr Handlers.name_unknown
                       | None => PStr Handlers.name_unknown
                       end in
                     let! title := lift (Py.item ev "title") in
                     answer (CheckinMarked user_name title registration_id)
               end
       | _ => answer CheckinUsage
       end)
      (answer CheckinFailed).

(* ---- main.py: /fix_tokens ---- *)

(** The loop of [cmd_fix_tokens] over the registrations; [fixed_count] is
    the number of tokens written so far. *)
Fixpoint fix_tokens_loop (cfg : Config) (now : Z) (keys : list pystr) (fixed_count : Z)
    : Command Z :=
  match keys with
  | [] => ret fixed_count
  | key :: rest =>
      let! reg := current Registrations key in
      let! status := lift (Py.item reg "status") in
      if in_strs status ["registered"; "attended"]%string then
        let! registration_id := lift (Py.item reg "registration_id") in
        let! event_id := lift (Py.item reg "event_id") in
        let! user_id := lift (Py.item reg "user_id") in
        let new_token := Utils.generate_qr_token cfg registration_id event_id user_id in
        update (fun st =>
          Sheets.update_registration st now registration_id
            [ (py "qr_token", PStr new_token) ]) >>>
        fix_tokens_loop cfg now rest (fixed_count + 1)
      else fix_tokens_loop cfg now rest fixed_count
  end.

Definition cmd_fix_tokens (cfg : Config) (now : Z) (from_user : pyval) : Command unit :=
  if negb (is_admin from_user) then answer AccessDenied
  else
    try_except
      (let! keys := ask (fun st => Py.dict_keys (LocalStorage.get_all_registrations st)) in
       let! fixed_count := fix_tokens_loop cfg now keys 0 in
       answer (TokensUpdated fixed_count))
      (answer TokensFailed).

(* ---- main.py: the confirmed cancellation ---- *)

Definition confirm_cancel_registration (now : Z) (data : pystr) : Command unit :=
  let! registration_id := lift (Handlers.nth_part (Py.split (py "_") data) 2) in
  update (fun st => Sheets.cancel_registration st now (PStr registration_id)) >>>
  answer RegistrationCancelledReply.

(* ---- admin_handlers.py: clearing the block-list ---- *)

Definition blacklist_clear : Command unit :=
  try_except
    (let! blacklist := ask Sheets.get_blacklist in
     for_each (Py.dict_values blacklist) (fun entry =>
       let! user_id := lift (Py.item entry "user_id") in
       update (fun st => fst (Sheets.remove_from_blacklist st user_id))) >>>
     answer BlacklistCleared)
    (answer BlacklistClearFailed).

(* ---- keyboards.py: the callback data behind the buttons ---- *)

(** [f"register_{event_id}"] *)
Definition register_data (event_id : pyval) : pystr := py "register_" ++ py_str event_id.
(** [f"reminder_cancel_{registration_id}"] *)
Definition reminder_cancel_data (registration_id : pyval) : pystr :=
  py "reminder_cancel_" ++ py_str registration_id.
(** [f"cancel_confirm_{registration_id}"] *)
Definition cancel_confirm_data (registration_id : pyval) : pystr :=
  py "cancel_confirm_" ++ py_str registration_id.
(** [f"take_place_{registration_id}"] *)
Definition take_place_data (registration_id : pyval) : pystr :=
  py "take_place_" ++ py_str registration_id.
(** [f"rate_{event_id}_{i}"] *)
Definition rate_data (event_id : pyval) (i : Z) : pystr :=
  py "rate_" ++ py_str event_id ++ py "_" ++ Py.str_of_Z i.

End WithPython.

End Commands.

(* ===================================================================== *)
(** * Vocabulary of the statements and sample data                        *)
(* ===================================================================== *)

Section Vocabulary.
Context {python : Datetime.Python}.

(** The offset the window uses for [key]: the stored integer when the
    event has the field, the default otherwise. *)
Definition window_offset (event_data : record) (key : string) (default a : Z) : Prop :=
  match Py.dict_get event_data (py key) with
  | Some v => v = PInt a
  | None => a = default
  end.

(** An event as [create_event] stores it, starting 2026-11-03 13:30 MSK. *)
Definition sample_event : record :=
  [ (py "event_id", PStr (py "001")); (py "title", PStr (py "Meetup"));
    (py "start_at", PStr (py "2026-11-03T13:30:00+03:00"));
    (py "capacity", PInt 2); (py "status", PStr (py "active")) ].

Definition sample_start : Z := 1793701800000000.

(** A window end [T + minutes m] that Python can compute: the offset is a
    [timedelta] and the shifted wall-clock time is a date of the years 1
    to 9999. *)
Definition window_end_ok (T off m : Z) : Prop :=
  Datetime.timedelta_ok (Datetime.minutes m) = true
  /\ Datetime.representable (T + off + Datetime.minutes m) = true.

(** The data model makes [start_at] a timezone-aware timestamp.  A stored
    event respects it when its [start_at] is absent, or is a string that
    the running Python does not read as a naive time (it reads it as an
    aware one, or refuses it); the classification queries then return
    normally. *)
Definition timestamp_ok (event : record) : bool :=
  match Py.dict_get event (py "start_at") with
  | None => true
  | Some (PStr s) =>
      match Datetime.parse_iso s with
      | Some (Datetime.Naive _) => false
      | _ => true
      end
  | Some _ => false
  end.

Definition timestamps_ok (evs : LocalStorage.collection) : Prop :=
  Forall (fun kv => timestamp_ok (snd kv) = true) evs.

(** An active event that starts at the instant [T]. *)
Definition active_event_at (event : record) (T : Z) : Prop :=
  Py.get event "status" = PStr (py "active")
  /\ exists s off,
       Py.dict_get event (py "start_at") = Some (PStr s)
       /\ Datetime.parse_iso s = Some (Datetime.Aware T off).

Definition empty_data : LocalStorage.Data :=
  {| LocalStorage.events := []; LocalStorage.users := [];
     LocalStorage.registrations := []; LocalStorage.blacklist := [];
     LocalStorage.reminders := []; LocalStorage.posts := [] |}.

Definition empty_disk : LocalStorage.Disk :=
  {| LocalStorage.files := []; LocalStorage.unwritable := [] |}.

(** A store holding the given events and registrations, nothing else. *)
Definition store_of (evs regs : LocalStorage.collection) : LocalStorage.State :=
  {| LocalStorage.data :=
       LocalStorage.data_put
         (LocalStorage.data_put empty_data LocalStorage.Events evs)
         LocalStorage.Registrations regs;
     LocalStorage.disk := empty_disk;
     LocalStorage.log := [] |}.

(** A process whose [SECRET_KEY] environment variable holds the single byte
    0xE9: [os.getenv] decodes it to the lone surrogate U+DCE9. *)
Definition undecodable_key_config : Config := {|
  SECRET_KEY := [0xDCE9%N];
  CHECKIN_WINDOW_start := -60;
  CHECKIN_WINDOW_end := 120;
  PLACE_HOLD_TIME := 15
|}.

(** The form in which a component enters the signed message:
    [str(v).strip()]. *)
Definition signed_form (v : pyval) : pystr := Py.strip (py_str v).

(** The token as a function of the signed message: the [try] block of
    [generate_qr_token] from the message on, with its fallback. *)
Definition token_of_message (cfg : Config) (message : pystr) : pystr :=
  match (data <- Utf8.encode message ;;
         key <- Utf8.encode (SECRET_KEY cfg) ;;
         Ok (Py.remove_char 45 (Py.remove_char 95 (Py.remove_char 61
               (firstn 16 (Base64.urlsafe_b64encode (Hmac.digest key data))))))) with
  | Ok token => token
  | Raise _ => Utils.default_token
  end.

(** [(r', e', u')] is [(r, e, u)] with one component changed, in the form
    in which the components enter the message. *)
Definition one_component_changed (r e u r' e' u' : pyval) : Prop :=
  (signed_form r' <> signed_form r /\ signed_form e' = signed_form e
   /\ signed_form u' = signed_form u)
  \/ (signed_form r' = signed_form r /\ signed_form e' <> signed_form e
      /\ signed_form u' = signed_form u)
  \/ (signed_form r' = signed_form r /\ signed_form e' = signed_form e
      /\ signed_form u' <> signed_form u).

(** Registrations 1 to 10 of events 001 to 005 by users 41 to 45. *)
Definition sample_triples : list (pyval * pyval * pyval) :=
  flat_map (fun r =>
    flat_map (fun e =>
      map (fun u => (PInt r, PStr (py e), PInt u)) [41; 42; 43; 44; 45]%Z)
      ["001"; "002"; "003"; "004"; "005"]%string)
    [1; 2; 3; 4; 5; 6; 7; 8; 9; 10]%Z.

Definition token_of_triple (cfg : Config) (t : pyval * pyval * pyval) : pystr :=
  let '(r, e, u) := t in Utils.generate_qr_token cfg r e u.

(** No string occurs twice in [l]. *)
Fixpoint all_distinct (l : list pystr) : bool :=
  match l with
  | [] => true
  | x :: rest => negb (existsb (Py.str_eqb x) rest) && all_distinct rest
  end.

(** A string without the characters the token generator strips. *)
Definition token_shaped (t : pystr) : Prop :=
  (length t <= 16)%nat /\ ~ In 61%N t /\ ~ In 95%N t /\ ~ In 45%N t.

(** [f] applied to the value bound to [k] (the first binding), if any. *)
Fixpoint dict_alter {V} (k : pystr) (f : V -> V) (d : dict V) : dict V :=
  match d with
  | [] => []
  | (k', v) :: d' =>
      if Py.str_eqb k' k then (k', f v) :: d' else (k', v) :: dict_alter k f d'
  end.

Definition alter_all {V} (l : list (pystr * (V -> V))) (d : dict V) : dict V :=
  fold_left (fun acc kf => dict_alter (fst kf) (snd kf) acc) l d.

Definition has_records (data : LocalStorage.collection) : bool :=
  match data with [] => false | _ => true end.

(** What a pass leaves in a tab that held [t]: header and rows when the
    tab could be read and there is at least one record, [t] itself
    otherwise. *)
Definition synced_tab (records_readable : Sheets.tab -> bool)
    (headers : list string) (data : LocalStorage.collection) (t : Sheets.tab)
    : Sheets.tab :=
  if records_readable t && has_records data
  then Sheets.header_row headers :: map (Sheets.project headers) (Py.dict_values data)
  else t.

(** The five tabs a pass writes, with their collection and header row. *)
Definition mirrored (st : LocalStorage.State)
    : list (string * LocalStorage.collection * list string) :=
  [ ("events"%string, LocalStorage.get_all_events st, Sheets.events_headers);
    ("users"%string, LocalStorage.get_all_users st, Sheets.users_headers);
    ("registrations"%string, LocalStorage.get_all_registrations st,
     Sheets.registrations_headers);
    ("blacklist"%string, LocalStorage.get_blacklist st, Sheets.blacklist_headers);
    ("reminders"%string, LocalStorage.coll st LocalStorage.Reminders,
     Sheets.reminders_headers) ].

Definition mirror_steps (records_readable : Sheets.tab -> bool)
    (st : LocalStorage.State) : list (pystr * (Sheets.tab -> Sheets.tab)) :=
  map (fun m => (py (fst (fst m)),
                 synced_tab records_readable (snd m) (snd (fst m))))
      (mirrored st).

(** A tab left over from an earlier run. *)
Definition stale_tab : Sheets.tab :=
  [ [PStr (py "event_id"); PStr (py "title")];
    [PStr (py "007"); PStr (py "Old event")] ].

(** A store whose block-list file cannot be written. *)
Definition readonly_blacklist_store : LocalStorage.State :=
  {| LocalStorage.data := empty_data;
     LocalStorage.disk :=
       {| LocalStorage.files := [];
          LocalStorage.unwritable := [py "blacklist.json"] |};
     LocalStorage.log := [] |}.

(** A chat platform that answers and a QR library that renders. *)
Definition sample_bot : Handlers.Bot :=
  {| Handlers.get_me_username := Ok (py "eventbot");
     Handlers.qrcode_make := fun payload => Ok (Utils.QrImage payload) |}.

(** User 42 holds registration 1 for the sample event, with the token the
    registration dialogue issued, and is on the block-list. *)
Definition sample_registration : record :=
  [ (py "registration_id", PInt 1); (py "event_id", PStr (py "001"));
    (py "user_id", PInt 42); (py "full_name", PStr (py "Ivan Petrov"));
    (py "status", PStr (py "registered")); (py "waitlist_position", PNone);
    (py "qr_token",
     PStr (Utils.generate_qr_token default_config
             (Handlers.provisional_key (PInt 42) (PStr (py "001")))
             (PStr (py "001")) (PInt 42)));
    (py "checkin_at", PStr []) ].

Definition blocked_user_store : LocalStorage.State :=
  LocalStorage.set_coll
    (store_of [(py "001", sample_event)] [(py "1", sample_registration)])
    LocalStorage.Blacklist
    [ (py "42", [ (py "user_id", PStr (py "42")); (py "reason", PStr (py "spam")) ]) ].

Definition world_of (st : LocalStorage.State) : Handlers.World :=
  {| Handlers.store := st; Handlers.session := Handlers.Idle |}.

(** What a handler said, and how it ended. *)
Definition said {A} (run : Handlers.World * list Handlers.output * Py.result A)
    : list Handlers.output := snd (fst run).
Definition ended {A} (run : Handlers.World * list Handlers.output * Py.result A)
    : Py.result A := snd run.
Definition world_after {A} (run : Handlers.World * list Handlers.output * Py.result A)
    : Handlers.World := fst (fst run).

(** The sample event with room for one participant. *)
Definition capacity_one_event : record :=
  Py.dict_set sample_event (py "capacity") (PInt 1).

(** Two days before the sample event starts. *)
Definition two_days_before : Z := sample_start - Datetime.days 2.

(** The waitlist scenario: users 41 and 42 go through the registration
    dialogue for the event of capacity one; registration 2 (user 42) is
    put on the waitlist at position 1. *)
Definition dialogue (st : LocalStorage.State) : Handlers.World :=
  {| Handlers.store := st; Handlers.session := Handlers.WaitingFullname (py "001") |}.

(** User 43 is on the block-list and at the name step of the dialogue for
    the sample event. *)
Definition blocked_newcomer : Handlers.World :=
  dialogue
    (LocalStorage.set_coll (store_of [(py "001", sample_event)] [])
       LocalStorage.Blacklist
       [ (py "43", [ (py "user_id", PStr (py "43")); (py "reason", PStr (py "spam")) ]) ]).




(** The field [field] of registration [rid] in a world. *)
Definition registration_field (w : Handlers.World) (rid field : string) : option pyval :=
  match LocalStorage.get_registration (Handlers.store w) (PStr (py rid)) with
  | Some reg => Py.dict_get reg (py field)
  | None => None
  end.

(** A participant of the capacity-one event who has checked in. *)
Definition attended_registration : record :=
  Py.dict_set sample_registration (py "status") (PStr (py "attended")).

Definition full_house_store : LocalStorage.State :=
  store_of [(py "001", capacity_one_event)] [(py "1", attended_registration)].

(** Whether a registration counts for [event_id] under [status]: the test
    of [get_registrations_count]. *)
Definition counts_for (reg : record) (event_id status : pystr) : bool :=
  Py.str_eqb (py_str (Py.get reg "event_id")) event_id
  && Py.eq_str (Py.get reg "status") status.

Definition count_in (regs : LocalStorage.collection) (event_id status : pystr) : Z :=
  fold_left (fun count reg => if counts_for reg event_id status
                              then (count + 1)%Z else count)
            (Py.dict_values regs) 0%Z.

(** The largest number among the keys that read as integers, from [m] up. *)
Definition max_key (keys : list pystr) (m : Z) : Z :=
  fold_left (fun m reg_id =>
               match Py.py_int reg_id with
               | Some n => Z.max m n
               | None => m
               end) keys m.

(** Handlers that only talk: they leave the world as it is. *)
Definition talks_only {A} (m : Handlers.H A) : Prop :=
  forall w, world_after (m w) = w.

(** Handlers that leave the registrations collection as it is. *)
Definition keeps_registrations {A} (m : Handlers.H A) : Prop :=
  forall w,
    LocalStorage.coll (Handlers.store (world_after (m w))) LocalStorage.Registrations
    = LocalStorage.coll (Handlers.store w) LocalStorage.Registrations.

End Vocabulary.


(* ===================================================================== *)
(** * Facts about the Python built-ins                                    *)
(* ===================================================================== *)

Section OnAnyPython.
Context {python : Datetime.Python}.

Section PyFacts.

Lemma str_eqb_refl (a : pystr) : Py.str_eqb a a = true.
Proof.
induction a as [|x a IH]; simpl; [reflexivity|].
now rewrite N.eqb_refl, IH.
Qed.

Lemma str_eqb_eq (a b : pystr) : Py.str_eqb a b = true <-> a = b.
Proof.
split.
- revert b; induction a as [|x a IH]; intros [|y b]; simpl; try discriminate; auto.
  intros H. apply andb_true_iff in H as [Hx Ha].
  apply N.eqb_eq in Hx. f_equal; auto.
- intros ->. apply str_eqb_refl.
Qed.

Lemma str_eqb_neq (a b : pystr) : Py.str_eqb a b = false <-> a <> b.
Proof.
rewrite <- str_eqb_eq. destruct (Py.str_eqb a b); split; congruence.
Qed.

Lemma str_eqb_sym (a b : pystr) : Py.str_eqb a b = Py.str_eqb b a.
Proof.
destruct (Py.str_eqb a b) eqn:E.
- apply str_eqb_eq in E. subst. now rewrite str_eqb_refl.
- symmetry. apply str_eqb_neq. apply str_eqb_neq in E. congruence.
Qed.

Lemma eq_str_true (v : pyval) (s : pystr) : Py.eq_str v s = true <-> v = PStr s.
Proof.
destruct v; simpl; try (split; [discriminate | congruence]).
rewrite str_eqb_eq. split; congruence.
Qed.

Context {V : Type}.

Lemma dict_get_set_same (d : dict V) (k : pystr) (v : V) :
Py.dict_get (Py.dict_set d k v) k = Some v.
Proof.
induction d as [|[k' v'] d IH]; simpl.
- now rewrite str_eqb_refl.
- destruct (Py.str_eqb k' k) eqn:E; simpl; rewrite E; auto.
Qed.

Lemma dict_get_set_other (d : dict V) (k k' : pystr) (v : V) :
Py.str_eqb k k' = false ->
Py.dict_get (Py.dict_set d k v) k' = Py.dict_get d k'.
Proof.
intros Hk. induction d as [|[k0 v0] d IH]; simpl.
- now rewrite Hk.
- destruct (Py.str_eqb k0 k) eqn:E; simpl.
  + apply str_eqb_eq in E. subst k0. now rewrite Hk.
  + now rewrite IH.
Qed.

Lemma dict_get_In (d : dict V) (k : pystr) (v : V) :
Py.dict_get d k = Some v -> In (k, v) d.
Proof.
induction d as [|[k' v'] d IH]; simpl; [discriminate|].
destruct (Py.str_eqb k' k) eqn:E.
- apply str_eqb_eq in E. intros [= ->]. left. now subst.
- auto.
Qed.

End PyFacts.

(* ===================================================================== *)
(** * The check-in window (utils.py)                                      *)
(* ===================================================================== *)

Lemma window_offset_get (ev : record) (key : string) (default a : Z) :
  window_offset ev key default a ->
  Py.get_default ev key (PInt default) = PInt a.
Proof.
  unfold window_offset, Py.get_default.
  destruct (Py.dict_get ev (py key)); congruence.
Qed.

Lemma is_within_checkin_window_spec (now : Z) (ev : record) (s : pystr)
    (T off a b : Z) :
  Py.dict_get ev (py "start_at") = Some (PStr s) ->
  Datetime.parse_iso s = Some (Datetime.Aware T off) ->
  window_offset ev "checkin_window_start_minutes" (-60) a ->
  window_offset ev "checkin_window_end_minutes" 120 b ->
  window_end_ok T off a ->
  window_end_ok T off b ->
  Utils.is_within_checkin_window now ev
  = ((T + Datetime.minutes a <=? now) && (now <=? T + Datetime.minutes b))%Z.
Proof.
  intros Hs Hp Ha Hb [Hta Hra] [Htb Hrb].
  unfold Utils.is_within_checkin_window, Utils.is_within_checkin_window_body.
  unfold Py.item, Py.dict_item. rewrite Hs. cbn [Py.bind].
  unfold Datetime.fromisoformat. rewrite Hp. cbn [Py.bind].
  rewrite (window_offset_get _ _ _ _ Ha), (window_offset_get _ _ _ _ Hb).
  unfold Datetime.timedelta_minutes, Datetime.shift.
  rewrite Hta, Htb. cbn [Py.bind]. rewrite Hra, Hrb. reflexivity.
Qed.

(** C7.  For an event that starts at the instant [T], the check-in window
    evaluation is true exactly when [now] lies in the closed interval
    [T + a minutes, T + b minutes], where [a] and [b] are the offsets stored
    in the event when present and -60 and +120 otherwise; with the default
    offsets, T-61 minutes is rejected, T-60 and T+120 minutes are accepted
    and T+121 minutes is rejected.  (The two ends of the window are dates
    of the years 1 to 9999.) *)
Theorem checkin_window_closed_interval (now : Z) (ev : record) (s : pystr)
    (T off a b : Z) :
  Py.dict_get ev (py "start_at") = Some (PStr s) ->
  Datetime.parse_iso s = Some (Datetime.Aware T off) ->
  window_offset ev "checkin_window_start_minutes" (-60) a ->
  window_offset ev "checkin_window_end_minutes" 120 b ->
  window_end_ok T off a ->
  window_end_ok T off b ->
  (Utils.is_within_checkin_window now ev = true
   <-> (T + Datetime.minutes a <= now <= T + Datetime.minutes b)%Z)
  /\ (a = (-60)%Z -> b = 120%Z ->
      Utils.is_within_checkin_window (T - Datetime.minutes 61) ev = false
      /\ Utils.is_within_checkin_window (T - Datetime.minutes 60) ev = true
      /\ Utils.is_within_checkin_window (T + Datetime.minutes 120) ev = true
      /\ Utils.is_within_checkin_window (T + Datetime.minutes 121) ev = false).
Proof.
  intros Hs Hp Ha Hb Hwa Hwb. split.
  - rewrite (is_within_checkin_window_spec now ev s T off a b Hs Hp Ha Hb Hwa Hwb).
    rewrite andb_true_iff, !Z.leb_le. reflexivity.
  - intros -> ->.
    rewrite !(is_within_checkin_window_spec _ ev s T off _ _ Hs Hp Ha Hb Hwa Hwb).
    unfold Datetime.minutes, Datetime.second.
    repeat split.
    + apply andb_false_iff. left. apply Z.leb_gt. lia.
    + apply andb_true_iff. split; apply Z.leb_le; lia.
    + apply andb_true_iff. split; apply Z.leb_le; lia.
    + apply andb_false_iff. right. apply Z.leb_gt. lia.
Qed.

(* ===================================================================== *)
(** * Upcoming and past events (local_storage.py)                         *)
(* ===================================================================== *)

Lemma event_selected_active (keep : Z -> bool) (ev : record) (T : Z) :
  active_event_at ev T ->
  LocalStorage.event_selected keep ev = Ok (keep T).
Proof.
  intros [Hst (s & off & Hs & Hp)].
  unfold LocalStorage.event_selected.
  rewrite Hst. unfold LocalStorage.active. cbn [Py.eq_str].
  rewrite str_eqb_refl.
  unfold Py.item, Py.dict_item. rewrite Hs. cbn [Py.bind].
  unfold Datetime.fromisoformat. rewrite Hp. reflexivity.
Qed.

Lemma event_selected_total (keep : Z -> bool) (ev : record) :
  timestamp_ok ev = true ->
  exists b, LocalStorage.event_selected keep ev = Ok b.
Proof.
  unfold timestamp_ok, LocalStorage.event_selected, Py.item, Py.dict_item.
  intros Hok.
  destruct (Py.eq_str (Py.get ev "status") LocalStorage.active); [|eauto].
  destruct (Py.dict_get ev (py "start_at")) as [[| | |s]|]; try discriminate;
    cbn [Py.bind]; [|eauto].
  unfold Datetime.fromisoformat.
  destruct (Datetime.parse_iso s) as [[t o|t]|]; try discriminate;
    cbn [Py.bind Datetime.instant]; eauto.
Qed.

Lemma select_events_spec (keep : Z -> bool) (evs : LocalStorage.collection) :
  timestamps_ok evs ->
  exists res,
    LocalStorage.select_events keep evs = Ok res
    /\ forall k ev,
         In (k, ev) res
         <-> In (k, ev) evs /\ LocalStorage.event_selected keep ev = Ok true.
Proof.
  induction 1 as [|[k0 ev0] evs Hok _ IH]; simpl.
  - exists []. split; [reflexivity|]. simpl. tauto.
  - destruct IH as (res & Hres & Hin).
    destruct (event_selected_total keep ev0 Hok) as [b Hb].
    rewrite Hb, Hres. cbn [Py.bind].
    eexists. split; [reflexivity|].
    intros k ev. destruct b; simpl; rewrite Hin; split.
    + intros [[= <- <-]|[? ?]]; auto.
    + intros [[[= <- <-]|?] ?]; auto.
    + intros [? ?]; auto.
    + intros [[[= <- <-]|?] ?]; [congruence | auto].
Qed.

(** C9.  On every Python, in a store none of whose events has a start time
    that is not a string or is read as a naive time, both classification
    queries return, and an active event that starts one
    hour after [now] is in the upcoming set and not in the past set, one
    that started three hours before [now] is in the past set and not in
    the upcoming set, and one that started one hour before [now] is in
    neither. *)
Theorem event_classification (st : LocalStorage.State) (now T : Z)
    (event_id : pystr) (ev : record) :
  timestamps_ok (LocalStorage.coll st LocalStorage.Events) ->
  In (event_id, ev) (LocalStorage.coll st LocalStorage.Events) ->
  active_event_at ev T ->
  exists upcoming past,
    LocalStorage.get_upcoming_events st now = Ok upcoming
    /\ LocalStorage.get_past_events st now = Ok past
    /\ (T = (now + Datetime.hours 1)%Z ->
        In (event_id, ev) upcoming /\ ~ In (event_id, ev) past)
    /\ (T = (now - Datetime.hours 3)%Z ->
        In (event_id, ev) past /\ ~ In (event_id, ev) upcoming)
    /\ (T = (now - Datetime.hours 1)%Z ->
        ~ In (event_id, ev) upcoming /\ ~ In (event_id, ev) past).
Proof.
  intros Hok Hin Hact.
  unfold LocalStorage.get_upcoming_events, LocalStorage.get_past_events.
  destruct (select_events_spec (fun start_at => (now <? start_at)%Z) _ Hok)
    as (up & Hup & Hup_in).
  destruct (select_events_spec
              (fun start_at => (start_at <=? now - Datetime.hours 2)%Z) _ Hok)
    as (past & Hpast & Hpast_in).
  exists up, past. rewrite Hup, Hpast.
  split; [reflexivity|]. split; [reflexivity|].
  assert (Hu : In (event_id, ev) up <-> (now < T)%Z).
  { rewrite Hup_in, (event_selected_active _ ev T Hact).
    rewrite <- Z.ltb_lt. split; [intros [_ [= ->]]; reflexivity | intros ->; auto]. }
  assert (Hp : In (event_id, ev) past <-> (T <= now - Datetime.hours 2)%Z).
  { rewrite Hpast_in, (event_selected_active _ ev T Hact).
    rewrite <- Z.leb_le. split; [intros [_ [= ->]]; reflexivity | intros ->; auto]. }
  rewrite Hu, Hp. unfold Datetime.hours, Datetime.second.
  repeat split; intros; lia.
Qed.

(* ===================================================================== *)
(** * Proof tokens (utils.py)                                             *)
(* ===================================================================== *)

Lemma alphabet_ascii (i : N) : (Base64.alphabet i < 128)%N.
Proof.
  unfold Base64.alphabet.
  destruct (N.ltb_spec i 26); [lia|].
  destruct (N.ltb_spec i 52); [lia|].
  destruct (N.ltb_spec i 62); [lia|].
  destruct (i =? 62)%N; lia.
Qed.

Lemma sextet_ascii (x shift : N) : (Base64.sextet x shift <? 128)%N = true.
Proof. apply N.ltb_lt, alphabet_ascii. Qed.

Lemma b64_ascii_bounded (n : nat) :
  forall bs, (length bs <= n)%nat ->
             Utils.is_ascii (Base64.urlsafe_b64encode bs) = true.
Proof.
  unfold Utils.is_ascii.
  induction n as [|n IH]; intros bs Hlen.
  - destruct bs; [reflexivity | cbn [length] in Hlen; lia].
  - destruct bs as [|a [|b [|c rest]]];
      cbn [Base64.urlsafe_b64encode forallb]; rewrite ?sextet_ascii;
      cbn [andb]; try reflexivity.
    apply IH. cbn [length] in Hlen. lia.
Qed.

Lemma b64_ascii (bs : list N) :
  Utils.is_ascii (Base64.urlsafe_b64encode bs) = true.
Proof. apply (b64_ascii_bounded (length bs)). lia. Qed.

Lemma is_ascii_firstn (n : nat) (s : pystr) :
  Utils.is_ascii s = true -> Utils.is_ascii (firstn n s) = true.
Proof.
  unfold Utils.is_ascii. revert s.
  induction n as [|n IH]; intros [|c s]; simpl; auto.
  intros H. apply andb_true_iff in H as [Hc Hs].
  now rewrite Hc, IH.
Qed.

Lemma is_ascii_remove_char (c : N) (s : pystr) :
  Utils.is_ascii s = true -> Utils.is_ascii (Py.remove_char c s) = true.
Proof.
  unfold Utils.is_ascii, Py.remove_char. rewrite !forallb_forall.
  intros H x Hx. apply filter_In in Hx. apply H, Hx.
Qed.

Lemma remove_char_absent (c : N) (s : pystr) : ~ In c (Py.remove_char c s).
Proof.
  unfold Py.remove_char. intros H. apply filter_In in H as [_ H].
  now rewrite N.eqb_refl in H.
Qed.

Lemma remove_char_subset (c x : N) (s : pystr) :
  In x (Py.remove_char c s) -> In x s.
Proof. unfold Py.remove_char. intros H. now apply filter_In in H. Qed.

Lemma remove_char_length (c : N) (s : pystr) :
  (length (Py.remove_char c s) <= length s)%nat.
Proof. apply filter_length_le. Qed.

Lemma generate_qr_token_ascii (cfg : Config) (r e u : pyval) :
  Utils.is_ascii (Utils.generate_qr_token cfg r e u) = true.
Proof.
  unfold Utils.generate_qr_token, Utils.generate_qr_token_body.
  destruct (Utf8.encode (Utils.token_data r e u)); cbn [Py.bind]; [|reflexivity].
  destruct (Utf8.encode (SECRET_KEY cfg)); cbn [Py.bind]; [|reflexivity].
  now repeat apply is_ascii_remove_char; apply is_ascii_firstn, b64_ascii.
Qed.

(** Verification is equality with the regenerated token. *)
Lemma verify_qr_token_spec (cfg : Config) (token : pystr) (r e u : pyval) :
  Utils.verify_qr_token cfg token r e u = true
  <-> token = Utils.generate_qr_token cfg r e u.
Proof.
  unfold Utils.verify_qr_token, Utils.compare_digest.
  rewrite (generate_qr_token_ascii cfg r e u), andb_true_r.
  destruct (Utils.is_ascii token) eqn:Ha.
  - apply str_eqb_eq.
  - split; [discriminate|]. intros ->.
    now rewrite generate_qr_token_ascii in Ha.
Qed.

(** The token depends on the triple only through the signed message. *)
Lemma generate_qr_token_data (cfg : Config) (r e u r' e' u' : pyval) :
  Utils.token_data r' e' u' = Utils.token_data r e u ->
  Utils.generate_qr_token cfg r' e' u' = Utils.generate_qr_token cfg r e u.
Proof.
  unfold Utils.generate_qr_token, Utils.generate_qr_token_body. now intros ->.
Qed.

Lemma generate_qr_token_message (cfg : Config) (r e u : pyval) :
  Utils.generate_qr_token cfg r e u = token_of_message cfg (Utils.token_data r e u).
Proof. reflexivity. Qed.

Lemma token_data_forms (r e u : pyval) :
  Utils.token_data r e u
  = signed_form r ++ Utils.underscore ++ signed_form e ++ Utils.underscore ++ signed_form u.
Proof. reflexivity. Qed.

(** One changed component changes the signed message. *)
Lemma one_component_changed_message (r e u r' e' u' : pyval) :
  one_component_changed r e u r' e' u' ->
  Utils.token_data r' e' u' <> Utils.token_data r e u.
Proof.
  rewrite !token_data_forms.
  intros [(Hr & -> & ->) | [(-> & He & ->) | (-> & -> & Hu)]] Heq.
  - apply app_inv_tail in Heq. contradiction.
  - apply app_inv_head in Heq. apply app_inv_head in Heq.
    apply app_inv_tail in Heq. contradiction.
  - do 4 apply app_inv_head in Heq. contradiction.
Qed.

Lemma all_distinct_NoDup (l : list pystr) : all_distinct l = true -> NoDup l.
Proof.
  induction l as [|x l IH]; cbn [all_distinct]; [constructor|].
  intros H. apply andb_prop in H as [Hx Hl]. constructor; [|now apply IH].
  intros Hin. apply negb_true_iff in Hx.
  assert (existsb (Py.str_eqb x) l = true); [|congruence].
  apply existsb_exists. exists x. split; [exact Hin | apply str_eqb_refl].
Qed.

Lemma NoDup_map_inj {A B} (f : A -> B) (l : list A) :
  NoDup (map f l) -> forall a b, In a l -> In b l -> f a = f b -> a = b.
Proof.
  induction l as [|x l IH]; intros Hnd a b Ha Hb Hf; [destruct Ha|].
  cbn [map] in Hnd. inversion Hnd as [|? ? Hx Hl]; subst.
  destruct Ha as [<-|Ha], Hb as [<-|Hb]; auto.
  - exfalso. apply Hx. rewrite Hf. now apply in_map.
  - exfalso. apply Hx. rewrite <- Hf. now apply in_map.
Qed.

Lemma sample_tokens_distinct :
  all_distinct (map (token_of_triple default_config) sample_triples) = true.
Proof. vm_compute. reflexivity. Qed.

(** Among the sample triples a token verifies against no triple but its
    own: every change of the registration, the event or the user within
    the sample is rejected. *)
Lemma sample_tokens_rejected (r e u r' e' u' : pyval) :
  In (r, e, u) sample_triples -> In (r', e', u') sample_triples ->
  (r', e', u') <> (r, e, u) ->
  Utils.verify_qr_token default_config (Utils.generate_qr_token default_config r e u)
    r' e' u' = false.
Proof.
  intros Ha Hb Hne. apply not_true_is_false. intros Hv.
  apply verify_qr_token_spec in Hv. apply Hne.
  apply (NoDup_map_inj (token_of_triple default_config) sample_triples
           (all_distinct_NoDup _ sample_tokens_distinct) _ _ Hb Ha).
  cbn [token_of_triple]. congruence.
Qed.

(** C8 (as amended).  A token verifies against the triple it was generated
    for, and against every triple whose components have the same
    [str().strip()] forms.  When one component is changed in that form, the
    signed message changes, and the token is rejected unless the two
    different messages are given the same token (equal keyed digests in the
    characters the token keeps, or the fallback on both sides).  Among the
    sample triples every change is rejected. *)
Theorem token_round_trip :
  (forall cfg r e u,
      Utils.verify_qr_token cfg (Utils.generate_qr_token cfg r e u) r e u = true)
  /\ (forall cfg r e u r' e' u',
        signed_form r' = signed_form r -> signed_form e' = signed_form e ->
        signed_form u' = signed_form u ->
        Utils.verify_qr_token cfg (Utils.generate_qr_token cfg r e u) r' e' u' = true)
  /\ (forall cfg r e u r' e' u',
        one_component_changed r e u r' e' u' ->
        Utils.token_data r' e' u' <> Utils.token_data r e u
        /\ (Utils.verify_qr_token cfg (Utils.generate_qr_token cfg r e u) r' e' u' = false
            <-> token_of_message cfg (Utils.token_data r' e' u')
                <> token_of_message cfg (Utils.token_data r e u)))
  /\ (forall r e u r' e' u',
        In (r, e, u) sample_triples -> In (r', e', u') sample_triples ->
        (r', e', u') <> (r, e, u) ->
        Utils.verify_qr_token default_config
          (Utils.generate_qr_token default_config r e u) r' e' u' = false).
Proof.
  split; [|split; [|split]].
  - intros cfg r e u. now apply verify_qr_token_spec.
  - intros cfg r e u r' e' u' Hr He Hu. apply verify_qr_token_spec. symmetry.
    apply generate_qr_token_data. rewrite !token_data_forms. congruence.
  - intros cfg r e u r' e' u' Hch. split; [now apply one_component_changed_message|].
    rewrite <- !generate_qr_token_message, <- not_true_iff_false, verify_qr_token_spec.
    split; intros H Heq; apply H; congruence.
  - intros r e u r' e' u'. apply sample_tokens_rejected.
Qed.

(** A change that alters the signed message of this triple is rejected. *)
Example changed_registration_id_rejected :
  Utils.verify_qr_token default_config
    (Utils.generate_qr_token default_config (PStr (py "7")) (PStr (py "001")) (PInt 42))
    (PStr (py "8")) (PStr (py "001")) (PInt 42) = false.
Proof. vm_compute. reflexivity. Qed.

(** Test vectors: SHA-256("abc") and the token of (1, "2", 3) under the
    default key. *)
Example sha256_abc :
  Sha256.digest (py "abc")
  = [ 0xba; 0x78; 0x16; 0xbf; 0x8f; 0x01; 0xcf; 0xea; 0x41; 0x41; 0x40; 0xde;
      0x5d; 0xae; 0x22; 0x23; 0xb0; 0x03; 0x61; 0xa3; 0x96; 0x17; 0x7a; 0x9c;
      0xb4; 0x10; 0xff; 0x61; 0xf2; 0x00; 0x15; 0xad ]%N.
Proof. vm_compute. reflexivity. Qed.

Example token_of_1_2_3 :
  Utils.generate_qr_token default_config (PInt 1) (PStr (py "2")) (PInt 3)
  = py "UXiD1Bqxc2QQNL9".
Proof. vm_compute. reflexivity. Qed.

(** On the path that does not raise, the token has at most 16 characters
    and none of [=], [_], [-]. *)
Lemma stripped_slice_shape (b64 : pystr) :
  token_shaped
    (Py.remove_char 45 (Py.remove_char 95 (Py.remove_char 61 (firstn 16 b64)))).
Proof.
  unfold token_shaped. repeat split.
  - eapply Nat.le_trans; [apply remove_char_length|].
    eapply Nat.le_trans; [apply remove_char_length|].
    eapply Nat.le_trans; [apply remove_char_length|].
    apply firstn_le_length.
  - intros H. do 2 apply remove_char_subset in H.
    exact (remove_char_absent _ _ H).
  - intros H. apply remove_char_subset in H.
    exact (remove_char_absent _ _ H).
  - apply remove_char_absent.
Qed.

Lemma generate_qr_token_body_shape (cfg : Config) (r e u : pyval) (t : pystr) :
  Utils.generate_qr_token_body cfg r e u = Ok t -> token_shaped t.
Proof.
  unfold Utils.generate_qr_token_body.
  destruct (Utf8.encode (Utils.token_data r e u)) as [data|];
    cbn [Py.bind]; [|discriminate].
  destruct (Utf8.encode (SECRET_KEY cfg)) as [key|]; cbn [Py.bind]; [|discriminate].
  intros H.
  assert (Ht : t = Py.remove_char 45 (Py.remove_char 95 (Py.remove_char 61
                 (firstn 16 (Base64.urlsafe_b64encode (Hmac.digest key data))))))
    by congruence.
  rewrite Ht. apply stripped_slice_shape.
Qed.

Lemma split_go_piece (s rest cur : pystr) :
  ~ In 95%N s ->
  Py.split_go (py "_") (s ++ 95%N :: rest) cur 0
  = (rev cur ++ s) :: Py.split_go (py "_") rest [] 0.
Proof.
  revert cur. induction s as [|c s IH]; intros cur Hs.
  - simpl. now rewrite app_nil_r.
  - assert (Hc : (95 =? c)%N = false)
      by (apply N.eqb_neq; intros <-; apply Hs; now left).
    change (Py.split_go (py "_") ((c :: s) ++ 95%N :: rest) cur 0)
      with (if (95 =? c)%N && true
            then rev cur :: Py.split_go (py "_") (s ++ 95%N :: rest) [] 0
            else Py.split_go (py "_") (s ++ 95%N :: rest) (c :: cur) 0).
    rewrite Hc. cbn [andb]. rewrite IH by (intros H; apply Hs; now right).
    simpl. now rewrite <- app_assoc.
Qed.

Lemma split_go_last (s cur : pystr) :
  ~ In 95%N s ->
  Py.split_go (py "_") s cur 0 = [rev cur ++ s].
Proof.
  revert cur. induction s as [|c s IH]; intros cur Hs.
  - simpl. now rewrite app_nil_r.
  - assert (Hc : (95 =? c)%N = false)
      by (apply N.eqb_neq; intros <-; apply Hs; now left).
    change (Py.split_go (py "_") (c :: s) cur 0)
      with (if (95 =? c)%N && true
            then rev cur :: Py.split_go (py "_") s [] 0
            else Py.split_go (py "_") s (c :: cur) 0).
    rewrite Hc. cbn [andb]. rewrite IH by (intros H; apply Hs; now right).
    simpl. now rewrite <- app_assoc.
Qed.

(** A payload [chk_<id>_<token>] whose id and token have no underscore
    splits into exactly three parts, which give back the id and the token. *)
Lemma parse_checkin_payload (registration_id qr_token : pyval) :
  ~ In 95%N (py_str registration_id) ->
  ~ In 95%N (py_str qr_token) ->
  Handlers.parse_checkin (Handlers.checkin_payload registration_id qr_token)
  = Some (py_str registration_id, py_str qr_token).
Proof.
  intros Hr Ht. unfold Handlers.parse_checkin, Handlers.checkin_payload, Py.split.
  change (py "chk_" ++ py_str registration_id ++ py "_" ++ py_str qr_token)
    with (py "chk" ++ 95%N :: (py_str registration_id ++ 95%N :: py_str qr_token)).
  rewrite split_go_piece by (vm_compute; intuition discriminate).
  rewrite split_go_piece by assumption.
  rewrite split_go_last by assumption.
  reflexivity.
Qed.

(** C10, the defect.  When the secret key cannot be encoded, or the
    registration id holds a lone surrogate, the generator returns the
    fallback "default_token": it contains an underscore, and the payload
    built from it has four parts, which both check-in readers refuse. *)
Theorem fallback_token_breaks_payload :
  let by_key :=
    Utils.generate_qr_token undecodable_key_config (PInt 1) (PStr (py "001")) (PInt 42) in
  let by_id :=
    Utils.generate_qr_token default_config (PStr [0xD800%N]) (PStr (py "001")) (PInt 42) in
  by_key = py "default_token"
  /\ by_id = py "default_token"
  /\ In 95%N by_key
  /\ ~ token_shaped by_key
  /\ Py.split (py "_") (Handlers.checkin_payload (PInt 1) (PStr by_key))
     = [py "chk"; py "1"; py "default"; py "token"]
  /\ Handlers.parse_checkin (Handlers.checkin_payload (PInt 1) (PStr by_key)) = None.
Proof.
  cbv zeta. repeat split; try (vm_compute; reflexivity).
  - vm_compute. tauto.
  - intros (_ & _ & H & _). apply H. vm_compute. tauto.
Qed.

(* ===================================================================== *)
(** * Facts about the store (local_storage.py)                            *)
(* ===================================================================== *)

Lemma save_locally_data (st : LocalStorage.State) (ty : LocalStorage.data_type) :
  LocalStorage.data (LocalStorage.save_locally st ty) = LocalStorage.data st.
Proof.
  unfold LocalStorage.save_locally.
  destruct (LocalStorage.write_file _ _ _); reflexivity.
Qed.

Lemma coll_save_locally (st : LocalStorage.State) (ty ty' : LocalStorage.data_type) :
  LocalStorage.coll (LocalStorage.save_locally st ty) ty' = LocalStorage.coll st ty'.
Proof. unfold LocalStorage.coll. now rewrite save_locally_data. Qed.

Lemma coll_set_coll_same (st : LocalStorage.State) (ty : LocalStorage.data_type)
    (c : LocalStorage.collection) :
  LocalStorage.coll (LocalStorage.set_coll st ty c) ty = c.
Proof. destruct ty; reflexivity. Qed.

Lemma coll_set_coll_other (st : LocalStorage.State) (ty ty' : LocalStorage.data_type)
    (c : LocalStorage.collection) :
  ty <> ty' ->
  LocalStorage.coll (LocalStorage.set_coll st ty c) ty' = LocalStorage.coll st ty'.
Proof. destruct ty, ty'; congruence || reflexivity. Qed.

(** What [update_registration] leaves in the store for an existing id. *)
Lemma update_registration_found (st : LocalStorage.State) (now : Z)
    (rid : pystr) (reg updates : record) :
  Py.dict_get (LocalStorage.coll st LocalStorage.Registrations) rid = Some reg ->
  LocalStorage.get_registration
    (LocalStorage.update_registration st now (PStr rid) updates) (PStr rid)
  = Some (Py.dict_set (Py.dict_update reg updates) (py "updated_at")
            (LocalStorage.stamp now)).
Proof.
  intros Hreg. unfold LocalStorage.update_registration, LocalStorage.get_registration.
  cbn [py_str]. rewrite Hreg.
  rewrite coll_save_locally, coll_set_coll_same.
  apply dict_get_set_same.
Qed.

Lemma update_registration_events (st : LocalStorage.State) (now : Z)
    (rid : pyval) (updates : record) :
  LocalStorage.coll (LocalStorage.update_registration st now rid updates)
    LocalStorage.Events
  = LocalStorage.coll st LocalStorage.Events.
Proof.
  unfold LocalStorage.update_registration.
  destruct (Py.dict_get _ _); [|reflexivity].
  rewrite coll_save_locally. now apply coll_set_coll_other.
Qed.

(* ===================================================================== *)
(** * The administrator's token check (admin_handlers.py)                 *)
(* ===================================================================== *)

(** C2.  In the administrator check-in path the signature is accepted
    exactly when it equals the registration's stored [qr_token] or
    [verify_qr_token] accepts it for the registration's id, event and user;
    when it is accepted by verification only, the stored [qr_token] becomes
    the supplied signature; otherwise the check changes nothing. *)
Theorem admin_token_check (cfg : Config) (now : Z) (rid signature : pystr)
    (reg : record) (event_id user_id : pyval) (w : Handlers.World) :
  Py.dict_get (LocalStorage.coll (Handlers.store w) LocalStorage.Registrations) rid
  = Some reg ->
  Py.dict_get reg (py "event_id") = Some event_id ->
  Py.dict_get reg (py "user_id") = Some user_id ->
  exists w' token_valid,
    Handlers.check_token cfg now rid signature reg w = (w', [], Ok token_valid)
    /\ (token_valid = true
        <-> Py.get_default reg "qr_token" (PStr []) = PStr signature
            \/ Utils.verify_qr_token cfg signature (PStr rid) event_id user_id = true)
    /\ (Py.get_default reg "qr_token" (PStr []) <> PStr signature ->
        Utils.verify_qr_token cfg signature (PStr rid) event_id user_id = true ->
        exists reg',
          LocalStorage.get_registration (Handlers.store w') (PStr rid) = Some reg'
          /\ Py.dict_get reg' (py "qr_token") = Some (PStr signature))
    /\ (Py.get_default reg "qr_token" (PStr []) = PStr signature
        \/ Utils.verify_qr_token cfg signature (PStr rid) event_id user_id = false ->
        w' = w).
Proof.
  intros Hreg He Hu. unfold Handlers.check_token.
  destruct (Py.eq_str (Py.get_default reg "qr_token" (PStr [])) signature) eqn:Hst.
  - apply eq_str_true in Hst.
    exists w, true. repeat split; auto. congruence.
  - assert (Hne : Py.get_default reg "qr_token" (PStr []) <> PStr signature).
    { intros H. apply eq_str_true in H. congruence. }
    unfold Handlers.hbind, Handlers.lift, Py.item, Py.dict_item.
    rewrite He, Hu.
    destruct (Utils.verify_qr_token cfg signature (PStr rid) event_id user_id) eqn:Hv.
    + eexists _, true. cbn. repeat split; auto.
      * intros _ _. eexists. split.
        -- apply update_registration_found. exact Hreg.
        -- cbn [Py.dict_update fold_left fst snd].
           rewrite dict_get_set_other by reflexivity.
           apply dict_get_set_same.
      * intros [H|H]; congruence.
    + exists w, false. cbn. repeat split; auto; try congruence.
      intros [H|H]; congruence.
Qed.

(* ===================================================================== *)
(** * Persistence failures (local_storage.py)                             *)
(* ===================================================================== *)

(** A failed write is logged by [save_locally] and goes no further: the
    in-memory data and the files stay as they were. *)
Lemma save_locally_failure (st : LocalStorage.State) (ty : LocalStorage.data_type) :
  existsb (Py.str_eqb (LocalStorage.file_name ty))
          (LocalStorage.unwritable (LocalStorage.disk st)) = true ->
  LocalStorage.save_locally st ty = LocalStorage.logged st (LocalStorage.SaveError ty).
Proof.
  intros H. unfold LocalStorage.save_locally, LocalStorage.write_file.
  now rewrite H.
Qed.

(** The [except ... raise] of [add_to_blacklist] is never reached. *)
Lemma add_to_blacklist_returns (st : LocalStorage.State) (now : Z)
    (user_id reason added_by : pyval) :
  snd (LocalStorage.add_to_blacklist st now user_id reason added_by) = Ok true
  /\ LocalStorage.is_blacklisted
       (fst (LocalStorage.add_to_blacklist st now user_id reason added_by)) user_id
     = true.
Proof.
  unfold LocalStorage.add_to_blacklist, LocalStorage.add_to_blacklist_body.
  cbn [fst snd]. split; [reflexivity|].
  unfold LocalStorage.is_blacklisted, Py.dict_mem.
  now rewrite coll_save_locally, coll_set_coll_same, dict_get_set_same.
Qed.

(** The mutating operations of the other collections go on after a failed
    write: the record is in memory, the failure is in the log. *)
Lemma update_registration_failure (st : LocalStorage.State) (now : Z)
    (rid : pystr) (reg updates : record) :
  existsb (Py.str_eqb (LocalStorage.file_name LocalStorage.Registrations))
          (LocalStorage.unwritable (LocalStorage.disk st)) = true ->
  Py.dict_get (LocalStorage.coll st LocalStorage.Registrations) rid = Some reg ->
  let st' := LocalStorage.update_registration st now (PStr rid) updates in
  LocalStorage.log st' = LocalStorage.log st ++ [LocalStorage.SaveError LocalStorage.Registrations]
  /\ LocalStorage.disk st' = LocalStorage.disk st
  /\ LocalStorage.get_registration st' (PStr rid)
     = Some (Py.dict_set (Py.dict_update reg updates) (py "updated_at")
               (LocalStorage.stamp now)).
Proof.
  intros Hro Hreg st'. split; [|split].
  - subst st'. unfold LocalStorage.update_registration. cbn [py_str]. rewrite Hreg.
    now rewrite save_locally_failure.
  - subst st'. unfold LocalStorage.update_registration. cbn [py_str]. rewrite Hreg.
    now rewrite save_locally_failure.
  - now apply update_registration_found.
Qed.

(** C3, the defect.  With [blacklist.json] unwritable, the insertion into
    the block-list neither raises nor reports a failure: the store call
    returns [True], the facade reports success, the failure is only logged
    by [save_locally], and no file is written. *)
Theorem blacklist_write_failure_not_raised :
  let r := LocalStorage.add_to_blacklist readonly_blacklist_store sample_start
             (PInt 42) (PStr (py "spam")) (PStr (py "1458704301")) in
  snd r = Ok true
  /\ LocalStorage.is_blacklisted (fst r) (PInt 42) = true
  /\ LocalStorage.log (fst r) = [LocalStorage.SaveError LocalStorage.Blacklist]
  /\ LocalStorage.files (LocalStorage.disk (fst r)) = []
  /\ snd (Sheets.add_to_blacklist readonly_blacklist_store sample_start
            (PInt 42) (PStr (py "spam")) (PStr (py "1458704301"))) = true.
Proof. cbv zeta. repeat split; vm_compute; reflexivity. Qed.

(* ===================================================================== *)
(** * The spreadsheet mirror (sheets.py)                                  *)
(* ===================================================================== *)

Section AlterFacts.
Context {V : Type}.

Lemma dict_alter_absent (k : pystr) (f : V -> V) (d : dict V) :
  Py.dict_get d k = None -> dict_alter k f d = d.
Proof.
  induction d as [|[k' v] d IH]; simpl; [reflexivity|].
  destruct (Py.str_eqb k' k); [discriminate|].
  intros H. now rewrite IH.
Qed.

Lemma dict_set_alter (k : pystr) (f : V -> V) (d : dict V) (v : V) :
  Py.dict_get d k = Some v -> Py.dict_set d k (f v) = dict_alter k f d.
Proof.
  induction d as [|[k' v'] d IH]; simpl; [discriminate|].
  destruct (Py.str_eqb k' k).
  - now intros [= ->].
  - intros H. now rewrite IH.
Qed.

Lemma dict_alter_fixed (k : pystr) (f : V -> V) (d : dict V) (v : V) :
  Py.dict_get d k = Some v -> f v = v -> dict_alter k f d = d.
Proof.
  induction d as [|[k' v'] d IH]; simpl; [discriminate|].
  destruct (Py.str_eqb k' k).
  - intros [= ->] ->. reflexivity.
  - intros H Hf. now rewrite IH.
Qed.

Lemma dict_get_alter (k k' : pystr) (f : V -> V) (d : dict V) :
  Py.dict_get (dict_alter k f d) k'
  = if Py.str_eqb k k' then option_map f (Py.dict_get d k') else Py.dict_get d k'.
Proof.
  induction d as [|[k0 v] d IH]; simpl.
  - now destruct (Py.str_eqb k k').
  - destruct (Py.str_eqb k0 k) eqn:E0; simpl.
    + apply str_eqb_eq in E0. subst k0.
      destruct (Py.str_eqb k k'); reflexivity.
    + rewrite IH. destruct (Py.str_eqb k k') eqn:E.
      * apply str_eqb_eq in E. subst k'. now rewrite E0.
      * reflexivity.
Qed.

Lemma dict_alter_comm (k k' : pystr) (f g : V -> V) (d : dict V) :
  Py.str_eqb k k' = false ->
  dict_alter k f (dict_alter k' g d) = dict_alter k' g (dict_alter k f d).
Proof.
  intros Hk. induction d as [|[k0 v] d IH]; simpl; [reflexivity|].
  destruct (Py.str_eqb k0 k') eqn:E'; destruct (Py.str_eqb k0 k) eqn:E;
    simpl; rewrite ?E, ?E'; try reflexivity.
  - apply str_eqb_eq in E, E'. subst. now rewrite str_eqb_refl in Hk.
  - now rewrite IH.
Qed.

Lemma dict_alter_twice (k : pystr) (f : V -> V) (d : dict V) :
  (forall v, f (f v) = f v) ->
  dict_alter k f (dict_alter k f d) = dict_alter k f d.
Proof.
  intros Hf. induction d as [|[k0 v] d IH]; simpl; [reflexivity|].
  destruct (Py.str_eqb k0 k) eqn:E; simpl; rewrite E.
  - now rewrite Hf.
  - now rewrite IH.
Qed.

Lemma alter_all_comm (k : pystr) (f : V -> V)
    (l : list (pystr * (V -> V))) (d : dict V) :
  Forall (fun kf => Py.str_eqb k (fst kf) = false) l ->
  alter_all l (dict_alter k f d) = dict_alter k f (alter_all l d).
Proof.
  intros Hl. revert d. induction Hl as [|[k' g] l Hk _ IH]; intros d.
  - reflexivity.
  - unfold alter_all in *. cbn [fold_left fst snd] in *.
    rewrite <- IH. f_equal. symmetry. now apply dict_alter_comm.
Qed.

Lemma alter_all_twice (l : list (pystr * (V -> V))) (d : dict V) :
  ForallOrdPairs (fun a b => Py.str_eqb (fst a) (fst b) = false) l ->
  Forall (fun kf => forall v, snd kf (snd kf v) = snd kf v) l ->
  alter_all l (alter_all l d) = alter_all l d.
Proof.
  intros Hd. revert d. induction Hd as [|[k f] l Hk _ IH]; intros d Hf.
  - reflexivity.
  - inversion Hf as [|? ? Hf1 Hf2]; subst.
    unfold alter_all in *. cbn [fold_left fst snd] in *.
    fold (alter_all l (dict_alter k f d)).
    rewrite (alter_all_comm k f l d Hk).
    change (fold_left (fun acc kf => dict_alter (fst kf) (snd kf) acc) l
              (dict_alter k f (dict_alter k f (alter_all l d))))
      with (alter_all l (dict_alter k f (dict_alter k f (alter_all l d)))).
    rewrite (dict_alter_twice k f _ Hf1).
    rewrite (alter_all_comm k f l _ Hk). unfold alter_all.
    now rewrite IH.
Qed.
End AlterFacts.

Section AlterAll.
Context {V : Type}.

Lemma dict_get_alter_all_other (l : list (pystr * (V -> V))) (d : dict V)
    (k : pystr) :
  Forall (fun kf => Py.str_eqb (fst kf) k = false) l ->
  Py.dict_get (alter_all l d) k = Py.dict_get d k.
Proof.
  intros Hl. revert d. induction Hl as [|[k' g] l Hk _ IH]; intros d.
  - reflexivity.
  - unfold alter_all in *. cbn [fold_left fst snd] in *.
    rewrite IH, dict_get_alter. now rewrite Hk.
Qed.

Lemma dict_get_alter_all (l : list (pystr * (V -> V))) (d : dict V)
    (k : pystr) (f : V -> V) :
  ForallOrdPairs (fun a b => Py.str_eqb (fst a) (fst b) = false) l ->
  In (k, f) l ->
  Py.dict_get (alter_all l d) k = option_map f (Py.dict_get d k).
Proof.
  intros Hd. revert d. induction Hd as [|[k0 f0] l Hk Hd IH]; intros d Hin.
  - destruct Hin.
  - unfold alter_all in *. cbn [fold_left fst snd] in *. destruct Hin as [[= -> ->]|Hin].
    + fold (alter_all l (dict_alter k f d)).
      rewrite (alter_all_comm k f l d Hk), dict_get_alter, str_eqb_refl.
      f_equal. apply dict_get_alter_all_other.
      eapply Forall_impl; [|exact Hk]. intros kf H. cbn [fst] in H.
      now rewrite str_eqb_sym.
    + rewrite IH by assumption. rewrite dict_get_alter.
      rewrite Forall_forall in Hk. specialize (Hk _ Hin). cbn [fst] in Hk.
      now rewrite Hk.
Qed.
End AlterAll.

Lemma synced_tab_twice (r : Sheets.tab -> bool) (headers : list string)
    (data : LocalStorage.collection) (t : Sheets.tab) :
  synced_tab r headers data (synced_tab r headers data t) = synced_tab r headers data t.
Proof.
  unfold synced_tab.
  destruct (r t && has_records data) eqn:E.
  - match goal with |- (if ?c then _ else _) = _ => destruct c end; reflexivity.
  - rewrite ?E. reflexivity.
Qed.

(** One tab after [_sync_to_sheet]. *)
Lemma sync_to_sheet_alter (r : Sheets.tab -> bool) (sheets : dict Sheets.tab)
    (name : string) (data : LocalStorage.collection) (headers : list string) :
  headers <> [] ->
  Sheets._sync_to_sheet r sheets name data headers
  = dict_alter (py name) (synced_tab r headers data) sheets.
Proof.
  intros Hh. unfold Sheets._sync_to_sheet.
  destruct (Py.dict_get sheets (py name)) as [t|] eqn:Ht.
  - destruct (r t) eqn:Hr; cbn [negb andb].
    + destruct headers as [|h hs]; [congruence|].
      destruct data as [|[k v] data].
      * cbn [Py.dict_values map]. symmetry.
        apply (dict_alter_fixed _ _ _ t Ht). unfold synced_tab. now rewrite Hr.
      * cbn [Py.dict_values map].
        rewrite <- (dict_set_alter _ (synced_tab r (h :: hs) ((k, v) :: data)) _ t Ht).
        unfold synced_tab. rewrite Hr. reflexivity.
    + symmetry. apply (dict_alter_fixed _ _ _ t Ht). unfold synced_tab. now rewrite Hr.
  - symmetry. now apply dict_alter_absent.
Qed.

Lemma sync_all_data_steps (r : Sheets.tab -> bool) (st : LocalStorage.State)
    (sh : dict Sheets.tab) :
  Sheets.sync_all_data r st (Some sh) = Some (alter_all (mirror_steps r st) sh).
Proof.
  destruct sh as [|x sh]; [reflexivity|].
  unfold Sheets.sync_all_data.
  rewrite !sync_to_sheet_alter by discriminate. reflexivity.
Qed.

Lemma mirror_steps_distinct (r : Sheets.tab -> bool) (st : LocalStorage.State) :
  ForallOrdPairs (fun a b => Py.str_eqb (fst a) (fst b) = false) (mirror_steps r st).
Proof.
  unfold mirror_steps, mirrored. cbn [map fst snd].
  repeat constructor.
Qed.

(** C6 (as amended).  A synchronization pass rewrites each of the five
    mirrored tabs that is available, could be read and whose collection
    has at least one record: the tab then holds the fixed header row
    followed by one row per record, a missing field rendered as the empty
    string; any other tab is left as it was.  Two passes in a row with no
    change to the store leave the same tab contents as one pass. *)
Theorem sync_is_idempotent (r : Sheets.tab -> bool) (st : LocalStorage.State)
    (sheets : option (dict Sheets.tab)) :
  Sheets.sync_all_data r st (Sheets.sync_all_data r st sheets)
  = Sheets.sync_all_data r st sheets
  /\ forall name data headers sh t,
       In (name, data, headers) (mirrored st) ->
       sheets = Some sh ->
       Py.dict_get sh (py name) = Some t ->
       exists sh',
         Sheets.sync_all_data r st sheets = Some sh'
         /\ Py.dict_get sh' (py name)
            = Some (if r t && has_records data
                    then Sheets.header_row headers
                           :: map (Sheets.project headers) (Py.dict_values data)
                    else t).
Proof.
  split.
  - destruct sheets as [sh|]; [|reflexivity].
    rewrite !sync_all_data_steps. f_equal.
    apply alter_all_twice.
    + apply mirror_steps_distinct.
    + unfold mirror_steps. rewrite Forall_map. apply Forall_forall.
      intros m _ v. cbn [snd]. apply synced_tab_twice.
  - intros name data headers sh t Hin -> Ht.
    rewrite sync_all_data_steps. eexists. split; [reflexivity|].
    rewrite (dict_get_alter_all _ _ (py name) (synced_tab r headers data)).
    + now rewrite Ht.
    + apply mirror_steps_distinct.
    + unfold mirror_steps.
      apply (in_map (fun m => (py (fst (fst m)),
                               synced_tab r (snd m) (snd (fst m)))) _ _ Hin).
Qed.

(* ===================================================================== *)
(** * The block-list gate (main.py, broadcast.py)                         *)
(* ===================================================================== *)

Lemma startswith_app (p s : pystr) :
  Py.startswith p s = true -> exists rest, s = p ++ rest.
Proof.
  revert s. induction p as [|x p IH]; intros s H.
  - now exists s.
  - destruct s as [|y s]; [discriminate|]. simpl in H.
    apply andb_true_iff in H as [Hx Hp]. apply N.eqb_eq in Hx. subst y.
    destruct (IH s Hp) as [rest ->]. now exists rest.
Qed.

Lemma split_go_nonempty (sep s cur : pystr) (skip : nat) :
  exists x l, Py.split_go sep s cur skip = x :: l.
Proof.
  revert cur skip. induction s as [|c s IH]; intros cur skip; simpl.
  - eauto.
  - destruct skip; [|apply IH].
    destruct (Py.startswith sep (c :: s)); [eauto | apply IH].
Qed.

(** The callback data [register_<event_id>] always has a second part. *)
Lemma register_data_event_id (data : pystr) :
  Py.startswith (py "register_") data = true ->
  exists event_id, Handlers.nth_part (Py.split (py "_") data) 1 = Ok event_id.
Proof.
  intros H. apply startswith_app in H as [rest ->].
  unfold Py.split.
  change (py "register_" ++ rest) with (py "register" ++ 95%N :: rest).
  rewrite split_go_piece by (vm_compute; intuition discriminate).
  destruct (split_go_nonempty (py "_") rest [] 0) as (x & l & ->).
  exists x. reflexivity.
Qed.

Lemma fan_out_sends (st : LocalStorage.State) (accepts : pyval -> bool)
    (how : Handlers.delivery) (users : list record) (acc : Handlers.tally) :
  Forall (fun s => Sheets.is_blacklisted st (fst s) = false) (Handlers.sends acc) ->
  Forall (fun s => Sheets.is_blacklisted st (fst s) = false)
         (Handlers.sends (Handlers.fan_out st accepts how users acc)).
Proof.
  revert acc. induction users as [|user users IH]; intros acc Hacc; simpl; [exact Hacc|].
  destruct (Py.truthy (Py.get user "user_id")); cbn [negb]; [|now apply IH].
  destruct (Sheets.is_blacklisted st (Py.get user "user_id")) eqn:Hb; [now apply IH|].
  apply IH. cbn [Handlers.sends]. apply Forall_app. split; [exact Hacc|].
  constructor; [exact Hb | constructor].
Qed.

Lemma broadcast_event_sends (st : LocalStorage.State) (now : Z)
    (accepts : pyval -> bool) (event_id : pyval) :
  Forall (fun s => Sheets.is_blacklisted st (fst s) = false)
         (Handlers.sends (Handlers.broadcast_event st now accepts event_id)).
Proof.
  unfold Handlers.broadcast_event. generalize 3%nat as attempts.
  induction attempts as [|n IH]; simpl; [constructor|].
  destruct (Sheets.get_event st event_id) as [event|]; [|exact IH].
  destruct (Py.dict_truthy event); [|exact IH].
  unfold Handlers.broadcast_pass.
  destruct (Handlers.has_passed now event) as [[|]|[]]; try exact IH; try constructor.
  destruct (Py.item event "title"); cbn [Py.bind]; [|exact IH].
  apply fan_out_sends. constructor.
Qed.

(** The replies of the self-service retrieval are made from the
    registrations and the events alone. *)
Lemma generate_and_send_qr_reads (cfg : Config) (bot : Handlers.Bot) (now : Z)
    (user_id : pyval) (w1 w2 : Handlers.World) :
  LocalStorage.coll (Handlers.store w1) LocalStorage.Registrations
  = LocalStorage.coll (Handlers.store w2) LocalStorage.Registrations ->
  LocalStorage.coll (Handlers.store w1) LocalStorage.Events
  = LocalStorage.coll (Handlers.store w2) LocalStorage.Events ->
  said (Handlers._generate_and_send_qr cfg bot now user_id w1)
  = said (Handlers._generate_and_send_qr cfg bot now user_id w2)
  /\ ended (Handlers._generate_and_send_qr cfg bot now user_id w1)
     = ended (Handlers._generate_and_send_qr cfg bot now user_id w2).
Proof.
  intros Hr He.
  unfold said, ended, Handlers._generate_and_send_qr, Handlers.try_except,
    Handlers.hbind, Handlers.ask, Handlers.lift, Handlers.say, Handlers.ret,
    Handlers.update, Handlers.send_photo,
    LocalStorage.get_all_registrations, Sheets.get_event, LocalStorage.get_event.
  cbv beta. rewrite Hr.
  repeat (match goal with
          | |- context [match ?x with _ => _ end] =>
              lazymatch x with
              | context [match _ with _ => _ end] => fail
              | _ => destruct x eqn:?
              end
          end; cbn [fst snd app Handlers.store]; rewrite ?He);
    auto.
Qed.

(* ===================================================================== *)
(** * Stepping through a handler                                          *)
(* ===================================================================== *)

Section HandlerSteps.
Import Handlers.
Context {A B : Type}.

Lemma hbind_lift_ok (a : A) (k : A -> H B) (w : World) :
  hbind (lift (Ok a)) k w = k a w.
Proof. unfold hbind, lift. now destruct (k a w) as [[w2 out2] r]. Qed.

Lemma hbind_lift_raise (e : exn) (k : A -> H B) (w : World) :
  hbind (lift (Raise e)) k w = (w, [], Raise e).
Proof. reflexivity. Qed.


Lemma hbind_ask (f : LocalStorage.State -> A) (k : A -> H B) (w : World) :
  hbind (ask f) k w = k (f (store w)) w.
Proof. unfold hbind, ask. now destruct (k _ w) as [[w2 out2] r]. Qed.

Lemma hbind_update (f : LocalStorage.State -> LocalStorage.State)
    (k : unit -> H B) (w : World) :
  hbind (update f) k w = k tt {| store := f (store w); session := session w |}.
Proof. unfold hbind, update. now destruct (k tt _) as [[w2 out2] r]. Qed.

End HandlerSteps.

Section TalksOnly.
Import Handlers.
Context {A B : Type}.

Lemma talks_lift (r : result A) : talks_only (lift r).
Proof. now intros w. Qed.

Lemma talks_ret (a : A) : talks_only (ret a).
Proof. now intros w. Qed.

Lemma talks_hbind (m : H A) (k : A -> H B) :
  talks_only m -> (forall a, talks_only (k a)) -> talks_only (hbind m k).
Proof.
  intros Hm Hk w. unfold world_after, hbind. specialize (Hm w).
  unfold world_after in Hm.
  destruct (m w) as [[w1 out1] [a|e]]; cbn [fst snd] in *; subst; [|reflexivity].
  specialize (Hk a w). unfold world_after in Hk.
  now destruct (k a w) as [[w2 out2] r].
Qed.

End TalksOnly.

Lemma talks_say (m : Handlers.message) : talks_only (Handlers.say m).
Proof. now intros w. Qed.

Lemma talks_send_photo (img : Utils.image) (m : Handlers.message) :
  talks_only (Handlers.send_photo img m).
Proof. now intros w. Qed.


End OnAnyPython.

Ltac talk :=
  repeat first
    [ apply talks_say | apply talks_send_photo | apply talks_lift | apply talks_ret
    | apply talks_hbind; [|intros ?]
    | match goal with
      | |- talks_only (match ?x with _ => _ end) => destruct x
      end ].

Section OnAnyPython.
Context {python : Datetime.Python}.

(* ===================================================================== *)
(** * The token check inside the administrator's handler                  *)
(* ===================================================================== *)

Lemma try_except_ok {A} (m handler : Handlers.H A) (w w' : Handlers.World)
    (out : list Handlers.output) (a : A) :
  m w = (w', out, Ok a) -> Handlers.try_except m handler w = (w', out, Ok a).
Proof. unfold Handlers.try_except. now intros ->. Qed.

Lemma check_token_rejects (cfg : Config) (now : Z) (rid signature : pystr)
    (reg : record) (event_id user_id : pyval) (w : Handlers.World) :
  Py.dict_get reg (py "event_id") = Some event_id ->
  Py.dict_get reg (py "user_id") = Some user_id ->
  Py.get_default reg "qr_token" (PStr []) <> PStr signature ->
  Utils.verify_qr_token cfg signature (PStr rid) event_id user_id = false ->
  Handlers.check_token cfg now rid signature reg w = (w, [], Ok false).
Proof.
  intros He Hu Hne Hv. unfold Handlers.check_token.
  destruct (Py.eq_str (Py.get_default reg "qr_token" (PStr [])) signature) eqn:E.
  - apply eq_str_true in E. congruence.
  - unfold Py.item, Py.dict_item. rewrite He, Hu, !hbind_lift_ok, Hv. reflexivity.
Qed.

(** A signature that fails both tests ends the administrator's check-in
    with "invalid QR code"; nothing is changed. *)
Lemma process_qr_deeplink_invalid (cfg : Config) (now : Z)
    (text params rid signature : pystr) (reg : record)
    (event_id user_id : pyval) (w : Handlers.World) :
  Handlers.deeplink_params text = Ok (Some params) ->
  Py.startswith (py "chk_") params = true ->
  Handlers.parse_checkin params = Some (rid, signature) ->
  Py.dict_get (LocalStorage.coll (Handlers.store w) LocalStorage.Registrations) rid
  = Some reg ->
  Py.dict_get reg (py "event_id") = Some event_id ->
  Py.dict_get reg (py "user_id") = Some user_id ->
  Py.get_default reg "qr_token" (PStr []) <> PStr signature ->
  Utils.verify_qr_token cfg signature (PStr rid) event_id user_id = false ->
  Handlers.process_qr_deeplink cfg now text w
  = (w, [Handlers.Text Handlers.InvalidQr], Ok tt).
Proof.
  intros Hp Hs Hparse Hreg He Hu Hne Hv.
  assert (Htr : Py.dict_truthy reg = true) by (destruct reg; [discriminate|reflexivity]).
  unfold Handlers.process_qr_deeplink. apply try_except_ok.
  rewrite Hp, hbind_lift_ok, Hs. cbn [negb]. rewrite Hparse, hbind_ask.
  unfold Sheets.get_registration, LocalStorage.get_registration. cbn [py_str].
  rewrite Hreg, Htr. cbn [negb].
  unfold Handlers.hbind at 1.
  rewrite (check_token_rejects cfg now rid signature reg event_id user_id w He Hu Hne Hv).
  reflexivity.
Qed.

(* ===================================================================== *)
(** * The block-list gate: statements                                     *)
(* ===================================================================== *)

Lemma start_registration_blocked (now : Z) (user_id : pyval) (data : pystr)
    (w : Handlers.World) :
  Py.startswith (py "register_") data = true ->
  Sheets.is_blacklisted (Handlers.store w) user_id = true ->
  Handlers.start_registration now user_id data w
  = (w, [Handlers.Text Handlers.ActionUnavailable], Ok tt).
Proof.
  intros Hd Hb. destruct (register_data_event_id data Hd) as [event_id He].
  unfold Handlers.start_registration.
  rewrite He, hbind_lift_ok, hbind_ask, Hb. reflexivity.
Qed.

Lemma is_blacklisted_str (st : LocalStorage.State) (a b : pyval) :
  py_str a = py_str b ->
  Sheets.is_blacklisted st a = Sheets.is_blacklisted st b.
Proof.
  unfold Sheets.is_blacklisted, LocalStorage.is_blacklisted. now intros ->.
Qed.

(** Where the block-list is consulted.  For a user whose id is a key of the
    block-list, [start_registration] answers with the refusal and changes
    nothing, and the broadcast fan-out sends nothing to that user. *)
Lemma blocklist_gate (now : Z) (user_id : pyval) (w : Handlers.World) :
  Sheets.is_blacklisted (Handlers.store w) user_id = true ->
  (forall data,
      Py.startswith (py "register_") data = true ->
      Handlers.start_registration now user_id data w
      = (w, [Handlers.Text Handlers.ActionUnavailable], Ok tt))
  /\ (forall accepts event_id s,
        In s (Handlers.sends
                (Handlers.broadcast_event (Handlers.store w) now accepts event_id)) ->
        py_str (fst s) <> py_str user_id).
Proof.
  intros Hb. split.
  - intros data Hd. now apply start_registration_blocked.
  - intros accepts event_id s Hs Heq.
    pose proof (broadcast_event_sends (Handlers.store w) now accepts event_id) as Hall.
    rewrite Forall_forall in Hall. specialize (Hall s Hs).
    rewrite (is_blacklisted_str _ _ _ Heq) in Hall. congruence.
Qed.

(** C4, the defect.  The self-service retrieval of the proof code never
    consults the block-list: what it replies is the same whatever the
    block-list holds, and user 42, who is on the block-list and holds a
    registration for an event that starts in an hour, is sent the code.
    The name step of the registration dialogue does not consult it either:
    user 43, on the block-list when the name arrives, is registered. *)
Theorem blocked_user_is_sent_the_code :
  (forall cfg bot now user_id w blacklist',
      let w' := {| Handlers.store :=
                     LocalStorage.set_coll (Handlers.store w)
                       LocalStorage.Blacklist blacklist';
                   Handlers.session := Handlers.session w |} in
      said (Handlers._generate_and_send_qr cfg bot now user_id w')
      = said (Handlers._generate_and_send_qr cfg bot now user_id w)
      /\ ended (Handlers._generate_and_send_qr cfg bot now user_id w')
         = ended (Handlers._generate_and_send_qr cfg bot now user_id w))
  /\ Sheets.is_blacklisted blocked_user_store (PInt 42) = true
  /\ said (Handlers._generate_and_send_qr default_config sample_bot
             (sample_start - Datetime.hours 1) (PInt 42) (world_of blocked_user_store))
     = [ Handlers.Photo
           (Utils.QrImage
              (Handlers.checkin_deeplink (py "eventbot") (PInt 1)
                 (PStr (Utils.generate_qr_token default_config
                          (Handlers.provisional_key (PInt 42) (PStr (py "001")))
                          (PStr (py "001")) (PInt 42)))))
           (Handlers.YourQr (PStr (py "Meetup"))
              (Datetime.Aware sample_start (Datetime.hours 3))
              (PStr Handlers.place_unknown)) ]
  /\ Sheets.is_blacklisted (Handlers.store blocked_newcomer) (PInt 43) = true
  /\ registration_field
       (world_after
          (Handlers.process_fullname default_config sample_bot two_days_before
             (PInt 43) (py "Petr Sidorov") blocked_newcomer))
       "1" "status"
     = Some (PStr (py "registered")).
Proof.
  split; [|repeat split; vm_compute; reflexivity].
  intros cfg bot now user_id w blacklist' w'.
  apply generate_and_send_qr_reads; subst w'; cbn [Handlers.store].
  - now apply coll_set_coll_other.
  - now apply coll_set_coll_other.
Qed.

(* ===================================================================== *)
(** * Accepting a freed place (main.py)                                   *)
(* ===================================================================== *)




(* ===================================================================== *)
(** * Sequential registration ids (local_storage.py)                      *)
(* ===================================================================== *)

Lemma is_digit_render (n : N) : Py.is_digit (48 + n mod 10) = true.
Proof.
  unfold Py.is_digit.
  assert (H : (n mod 10 < 10)%N) by (apply N.mod_upper_bound; lia).
  revert H. generalize (n mod 10)%N. intros d H.
  apply andb_true_iff. split; apply N.leb_le; lia.
Qed.

Lemma render_digits_digits (fuel : nat) :
  forall n acc, forallb Py.is_digit acc = true ->
                forallb Py.is_digit (Py.render_digits fuel n acc) = true.
Proof.
  induction fuel as [|f IH]; intros n acc Hacc; cbn [Py.render_digits]; [exact Hacc|].
  destruct (n / 10 =? 0)%N.
  - cbn [forallb]. now rewrite is_digit_render.
  - apply IH. cbn [forallb]. now rewrite is_digit_render.
Qed.

Lemma render_digits_nonempty (fuel : nat) (n : N) (acc : pystr) :
  Py.render_digits (S fuel) n acc <> [].
Proof.
  revert n acc. induction fuel as [|f IH]; intros n acc.
  - cbn [Py.render_digits]. destruct (n / 10 =? 0)%N; discriminate.
  - change (Py.render_digits (S (S f)) n acc)
      with (if (n / 10 =? 0)%N then (48 + n mod 10)%N :: acc
            else Py.render_digits (S f) (n / 10) ((48 + n mod 10)%N :: acc)).
    destruct (n / 10 =? 0)%N; [discriminate | apply IH].
Qed.

(** Reading back the digits written for [n]. *)
Lemma int_digits_render (fuel : nat) :
  forall n acc a after,
    (n < 2 ^ N.of_nat fuel)%N ->
    exists k : Z,
      (0 <= k)%Z
      /\ Py.int_digits (Py.render_digits (S fuel) n acc) a after
         = Py.int_digits acc (a * 10 ^ k + Z.of_N n) true.
Proof.
  induction fuel as [|f IH]; intros n acc a after Hn.
  - assert (n = 0%N) by (cbn in Hn; lia). subst n.
    exists 1%Z. split; [lia|].
    change (Py.render_digits 1 0 acc) with (48%N :: acc).
    cbn [Py.int_digits]. change (Py.is_digit 48) with true. cbv iota.
    f_equal. change (Z.of_N (48 - 48)) with 0%Z. change (Z.of_N 0) with 0%Z.
    change (10 ^ 1)%Z with 10%Z. ring.
  - change (Py.render_digits (S (S f)) n acc)
      with (if (n / 10 =? 0)%N then (48 + n mod 10)%N :: acc
            else Py.render_digits (S f) (n / 10) ((48 + n mod 10)%N :: acc)).
    destruct (N.eqb_spec (n / 10) 0) as [Hz|Hnz].
    + exists 1%Z. split; [lia|]. cbn [Py.int_digits]. rewrite is_digit_render.
      f_equal. rewrite N.add_comm, N.add_sub.
      assert (Hdm : n = (10 * (n / 10) + n mod 10)%N) by (apply N.div_mod; lia).
      rewrite Hz, N.mul_0_r, N.add_0_l in Hdm. rewrite <- Hdm.
      change (10 ^ 1)%Z with 10%Z. ring.
    + assert (Hlt : (n / 10 < 2 ^ N.of_nat f)%N).
      { apply N.Div0.div_lt_upper_bound.
        rewrite Nat2N.inj_succ, N.pow_succ_r' in Hn.
        revert Hn. generalize (2 ^ N.of_nat f)%N. intros p Hp. lia. }
      destruct (IH (n / 10)%N ((48 + n mod 10)%N :: acc) a after Hlt) as (k & Hk & Heq).
      exists (k + 1)%Z. split; [lia|]. rewrite Heq.
      cbn [Py.int_digits]. rewrite is_digit_render. f_equal.
      rewrite N.add_comm, N.add_sub, Z.pow_add_r by lia.
      assert (Hdm : n = (10 * (n / 10) + n mod 10)%N) by (apply N.div_mod; lia).
      assert (Hz : Z.of_N n = (10 * Z.of_N (n / 10) + Z.of_N (n mod 10))%Z).
      { revert Hdm. generalize (n / 10)%N, (n mod 10)%N. intros q r Hqr. lia. }
      rewrite Hz. change (10 ^ 1)%Z with 10%Z. ring.
Qed.

Lemma lstrip_digit (c : N) (s : pystr) :
  Py.is_digit c = true -> Py.lstrip (c :: s) = c :: s.
Proof.
  intros Hc. cbn [Py.lstrip].
  assert (Hs : Py.isspace c = false).
  { unfold Py.is_digit in Hc. apply andb_true_iff in Hc as [H1 H2].
    apply N.leb_le in H1, H2. unfold Py.isspace.
    repeat match goal with
           | |- context [(?a <=? ?b)%N] => destruct (N.leb_spec a b); try lia
           | |- context [(?a =? ?b)%N] => destruct (N.eqb_spec a b); try lia
           end; reflexivity. }
  now rewrite Hs.
Qed.

Lemma strip_digits (s : pystr) :
  forallb Py.is_digit s = true -> Py.strip s = s.
Proof.
  intros Hs. unfold Py.strip, Py.rstrip.
  assert (Hl : Py.lstrip s = s).
  { destruct s as [|c s]; [reflexivity|]. cbn [forallb] in Hs.
    apply andb_true_iff in Hs as [Hc _]. now apply lstrip_digit. }
  rewrite Hl.
  assert (Hr : forallb Py.is_digit (rev s) = true).
  { rewrite forallb_forall in *. intros x Hx. apply Hs. now apply in_rev. }
  destruct (rev s) as [|c r] eqn:E.
  - cbn. rewrite <- (rev_involutive s), E. reflexivity.
  - cbn [forallb] in Hr. apply andb_true_iff in Hr as [Hc _].
    rewrite (lstrip_digit c r Hc), <- E. apply rev_involutive.
Qed.

(** [int(str(n)) == n] for a non-negative [n]. *)
Lemma py_int_str_of_Z (n : Z) : (0 <= n)%Z -> Py.py_int (Py.str_of_Z n) = Some n.
Proof.
  intros Hn.
  assert (Hs : Py.str_of_Z n = Py.str_of_N (Z.to_N n)) by (destruct n; [reflexivity..|lia]).
  rewrite Hs. unfold Py.py_int, Py.str_of_N.
  set (ds := Py.render_digits (S (N.to_nat (N.size (Z.to_N n)))) (Z.to_N n) []).
  assert (Hd : forallb Py.is_digit ds = true) by (now apply render_digits_digits).
  rewrite (strip_digits ds Hd).
  destruct ds as [|c d] eqn:E.
  - exfalso. exact (render_digits_nonempty _ _ _ E).
  - cbn [forallb] in Hd. apply andb_true_iff in Hd as [Hc _].
    unfold Py.is_digit in Hc. apply andb_true_iff in Hc as [H1 H2].
    apply N.leb_le in H1, H2.
    destruct (N.eqb_spec c 45); [lia|]. destruct (N.eqb_spec c 43); [lia|].
    rewrite <- E. subst ds.
    destruct (int_digits_render (N.to_nat (N.size (Z.to_N n))) (Z.to_N n) [] 0 false)
      as (k & _ & Heq).
    { rewrite N2Nat.id. apply N.size_gt. }
    rewrite Heq. cbn [Py.int_digits]. f_equal. rewrite Z2N.id by lia. lia.
Qed.

End OnAnyPython.

Ltac literal_keys :=
  repeat (cbn [Py.dict_get Py.dict_set];
          match goal with
          | |- context [Py.str_eqb (py ?a) (py ?b)] =>
              let v := eval vm_compute in (Py.str_eqb (py a) (py b)) in
              change (Py.str_eqb (py a) (py b)) with v
          end; cbv iota).

Section OnAnyPython.
Context {python : Datetime.Python}.

(** The next id is above every key that reads as an integer. *)
Lemma max_key_ge (keys : list pystr) : forall m, (m <= max_key keys m)%Z.
Proof.
  induction keys as [|k keys IH]; intros m; cbn [max_key fold_left]; [lia|].
  destruct (Py.py_int k) as [n|].
  - etransitivity; [|apply IH]. lia.
  - apply IH.
Qed.

Lemma max_key_bound (keys : list pystr) (k : pystr) (n : Z) :
  In k keys -> Py.py_int k = Some n -> forall m, (n <= max_key keys m)%Z.
Proof.
  induction keys as [|k0 keys IH]; intros Hin Hn m; [destruct Hin|].
  cbn [max_key fold_left]. destruct Hin as [->|Hin].
  - rewrite Hn. etransitivity; [|apply max_key_ge]. lia.
  - destruct (Py.py_int k0); now apply IH.
Qed.

Lemma next_registration_id_max (st : LocalStorage.State) :
  (max_key (Py.dict_keys (LocalStorage.coll st LocalStorage.Registrations)) 0
   < LocalStorage.get_next_registration_id st)%Z
  /\ (0 < LocalStorage.get_next_registration_id st)%Z.
Proof.
  unfold LocalStorage.get_next_registration_id.
  destruct (LocalStorage.coll st LocalStorage.Registrations) as [|kv regs] eqn:E.
  - cbn. lia.
  - fold (max_key (Py.dict_keys (kv :: regs)) 0).
    pose proof (max_key_ge (Py.dict_keys (kv :: regs)) 0). lia.
Qed.

Lemma next_registration_id_fresh (st : LocalStorage.State) :
  Py.dict_get (LocalStorage.coll st LocalStorage.Registrations)
    (Py.str_of_Z (LocalStorage.get_next_registration_id st)) = None.
Proof.
  destruct (next_registration_id_max st) as [Hmax Hpos].
  destruct (Py.dict_get _ _) as [v|] eqn:E; [|reflexivity].
  apply dict_get_In in E. apply (in_map fst) in E. cbn [fst] in E.
  pose proof (max_key_bound _ _ _ E (py_int_str_of_Z _ (Z.lt_le_incl _ _ Hpos)) 0).
  unfold Py.dict_keys in Hmax. lia.
Qed.

Lemma dict_set_fresh {V} (d : dict V) (k : pystr) (v : V) :
  Py.dict_get d k = None -> Py.dict_set d k v = d ++ [(k, v)].
Proof.
  induction d as [|[k' v'] d IH]; cbn [Py.dict_get Py.dict_set app]; [reflexivity|].
  destruct (Py.str_eqb k' k); [discriminate|]. intros H. now rewrite IH.
Qed.

Lemma count_in_app (regs : LocalStorage.collection) (k : pystr) (reg : record)
    (e s : pystr) :
  count_in (regs ++ [(k, reg)]) e s
  = (count_in regs e s + (if counts_for reg e s then 1 else 0))%Z.
Proof.
  unfold count_in, Py.dict_values. rewrite map_app, fold_left_app. cbn [map fold_left snd].
  destruct (counts_for reg e s); lia.
Qed.

Lemma get_registrations_count_count_in (st : LocalStorage.State)
    (event_id : pyval) (status : pystr) :
  LocalStorage.get_registrations_count st event_id status
  = count_in (LocalStorage.coll st LocalStorage.Registrations) (py_str event_id) status.
Proof. reflexivity. Qed.

(** What [create_registration] returns and leaves behind for an existing
    event with an integer capacity: the status is [registered] exactly when
    the number of [registered] registrations of the event is below the
    capacity, otherwise [waitlist] at the next position. *)
Lemma create_registration_step (st : LocalStorage.State) (now : Z)
    (user_id event_id full_name qr_token : pyval) (ev : record) (c : Z) :
  LocalStorage.get_event st event_id = Some ev ->
  Py.dict_truthy ev = true ->
  Py.dict_get ev (py "capacity") = Some (PInt c) ->
  let r := LocalStorage.get_registrations_count st event_id (py "registered") in
  let wl := LocalStorage.get_waitlist_count st event_id in
  let full := (c <=? r)%Z in
  exists st',
    Sheets.create_registration st now user_id event_id full_name qr_token
    = Ok (st', (PInt (LocalStorage.get_next_registration_id st),
                PStr (if full then py "waitlist" else py "registered"),
                if full then PInt (wl + 1) else PNone))
    /\ LocalStorage.get_event st' event_id = Some ev
    /\ LocalStorage.get_registrations_count st' event_id (py "registered")
       = (r + (if full then 0 else 1))%Z
    /\ LocalStorage.get_waitlist_count st' event_id
       = (wl + (if full then 1 else 0))%Z.
Proof.
  intros Hev Htr Hcap r wl full.
  unfold Sheets.create_registration. rewrite Hev, Htr. cbn [negb].
  unfold Py.item, Py.dict_item. rewrite Hcap. cbn [Py.bind Sheets.ge_int].
  unfold Sheets.get_registrations_count. fold r. fold wl. fold full.
  unfold LocalStorage.create_registration, Py.item, Py.dict_item.
  generalize (LocalStorage.stamp now). intros ts.
  literal_keys. cbn [Py.bind fst py_str].
  eexists. split; [reflexivity|].
  split; [|split].
  - unfold LocalStorage.get_event in *.
    rewrite coll_save_locally, coll_set_coll_other by discriminate. exact Hev.
  - rewrite get_registrations_count_count_in, coll_save_locally, coll_set_coll_same.
    rewrite dict_set_fresh by apply next_registration_id_fresh.
    rewrite count_in_app. fold (count_in (LocalStorage.coll st LocalStorage.Registrations) (py_str event_id) (py "registered")).
    rewrite <- get_registrations_count_count_in. fold r. f_equal.
    unfold counts_for, Py.get. literal_keys. rewrite str_eqb_refl.
    destruct full; reflexivity.
  - unfold LocalStorage.get_waitlist_count.
    rewrite get_registrations_count_count_in, coll_save_locally, coll_set_coll_same.
    rewrite dict_set_fresh by apply next_registration_id_fresh.
    rewrite count_in_app.
    rewrite <- get_registrations_count_count_in.
    fold (LocalStorage.get_waitlist_count st event_id). fold wl. f_equal.
    unfold counts_for, Py.get. literal_keys. rewrite str_eqb_refl.
    destruct full; reflexivity.
Qed.

(** With capacity 2 and no registered or waiting registration for the
    event, four creations in a row give registered, registered, waitlist
    at position 1 and waitlist at position 2. *)
Lemma capacity_two_scenario (st : LocalStorage.State) (ev : record)
    (event_id : pyval)
    (now1 now2 now3 now4 : Z) (u1 u2 u3 u4 n1 n2 n3 n4 t1 t2 t3 t4 : pyval) :
  LocalStorage.get_event st event_id = Some ev ->
  Py.dict_truthy ev = true ->
  Py.dict_get ev (py "capacity") = Some (PInt 2) ->
  LocalStorage.get_registrations_count st event_id (py "registered") = 0%Z ->
  LocalStorage.get_waitlist_count st event_id = 0%Z ->
  exists st1 st2 st3 st4 r1 r2 r3 r4,
    Sheets.create_registration st now1 u1 event_id n1 t1
    = Ok (st1, (r1, PStr (py "registered"), PNone))
    /\ Sheets.create_registration st1 now2 u2 event_id n2 t2
       = Ok (st2, (r2, PStr (py "registered"), PNone))
    /\ Sheets.create_registration st2 now3 u3 event_id n3 t3
       = Ok (st3, (r3, PStr (py "waitlist"), PInt 1))
    /\ Sheets.create_registration st3 now4 u4 event_id n4 t4
       = Ok (st4, (r4, PStr (py "waitlist"), PInt 2)).
Proof.
  intros Hev Htr Hcap Hr Hw.
  pose proof (create_registration_step st now1 u1 event_id n1 t1 ev 2 Hev Htr Hcap) as S1.
  cbv zeta in S1. rewrite Hr, Hw in S1.
  destruct S1 as (st1 & H1 & Hev1 & Hr1 & Hw1).
  pose proof (create_registration_step st1 now2 u2 event_id n2 t2 ev 2 Hev1 Htr Hcap) as S2.
  cbv zeta in S2. rewrite Hr1, Hw1 in S2.
  destruct S2 as (st2 & H2 & Hev2 & Hr2 & Hw2).
  pose proof (create_registration_step st2 now3 u3 event_id n3 t3 ev 2 Hev2 Htr Hcap) as S3.
  cbv zeta in S3. rewrite Hr2, Hw2 in S3.
  destruct S3 as (st3 & H3 & Hev3 & Hr3 & Hw3).
  pose proof (create_registration_step st3 now4 u4 event_id n4 t4 ev 2 Hev3 Htr Hcap) as S4.
  cbv zeta in S4. rewrite Hr3, Hw3 in S4.
  destruct S4 as (st4 & H4 & _).
  exists st1, st2, st3, st4. eauto 10.
Qed.

(* ===================================================================== *)
(** * The token stored at registration (main.py)                          *)
(* ===================================================================== *)

Section Keeps.
Import Handlers.
Context {A B : Type}.

Lemma keeps_talks (m : H A) : talks_only m -> keeps_registrations m.
Proof. intros Hm w. now rewrite Hm. Qed.

Lemma keeps_hbind (m : H A) (k : A -> H B) :
  keeps_registrations m -> (forall a, keeps_registrations (k a)) ->
  keeps_registrations (hbind m k).
Proof.
  intros Hm Hk w. unfold world_after, hbind. specialize (Hm w).
  unfold world_after in Hm.
  destruct (m w) as [[w1 out1] [a|e]]; cbn [fst snd] in *; [|exact Hm].
  specialize (Hk a w1). unfold world_after in Hk.
  destruct (k a w1) as [[w2 out2] r]. cbn [fst snd] in *. congruence.
Qed.
End Keeps.

(** Changing the dialogue state does not touch the store. *)
Lemma keeps_set_session (s : Handlers.fsm) : keeps_registrations (Handlers.set_session s).
Proof. now intros w. Qed.

Lemma keeps_ask {A} (f : LocalStorage.State -> A) : keeps_registrations (Handlers.ask f).
Proof. now intros w. Qed.

(** [create_reminder] writes the reminders collection only. *)
Lemma create_reminder_registrations (st st' : LocalStorage.State) (r : record) :
  LocalStorage.create_reminder st r = Ok st' ->
  LocalStorage.coll st' LocalStorage.Registrations
  = LocalStorage.coll st LocalStorage.Registrations.
Proof.
  unfold LocalStorage.create_reminder.
  destruct (Py.item r "event_id"); cbn [Py.bind]; [|discriminate].
  destruct (Py.item r "user_id"); cbn [Py.bind]; [|discriminate].
  destruct (Py.item r "type"); cbn [Py.bind]; [|discriminate].
  intros [= <-]. rewrite coll_save_locally. now apply coll_set_coll_other.
Qed.

(** [update_user] writes the users collection only. *)
Lemma update_user_coll_other (st : LocalStorage.State) (user_id : pyval) (updates : record)
    (ty : LocalStorage.data_type) :
  ty <> LocalStorage.Users ->
  LocalStorage.coll (LocalStorage.update_user st user_id updates) ty = LocalStorage.coll st ty.
Proof.
  intros Hty. unfold LocalStorage.update_user.
  destruct (Py.dict_get _ _); [|reflexivity].
  rewrite coll_save_locally. apply coll_set_coll_other. congruence.
Qed.

Lemma keeps_schedule_reminder (now : Z) (event_id user_id : pyval)
    (start_at : Datetime.datetime) (before : Z) (name : string) :
  keeps_registrations (Handlers.schedule_reminder now event_id user_id start_at before name).
Proof.
  unfold Handlers.schedule_reminder.
  apply keeps_hbind; [apply keeps_talks, talks_lift|]. intros reminder_time.
  apply keeps_hbind; [apply keeps_talks, talks_lift|]. intros t.
  destruct (now <? t)%Z; [|apply keeps_talks, talks_ret].
  intros w. unfold world_after, Handlers.update_r.
  destruct (LocalStorage.create_reminder _ _) as [st'|e] eqn:E; cbn [fst Handlers.store].
  - eapply create_reminder_registrations. exact E.
  - reflexivity.
Qed.

End OnAnyPython.

Ltac keep :=
  repeat first
    [ apply keeps_schedule_reminder | apply keeps_set_session | apply keeps_ask
    | apply keeps_talks; solve [talk]
    | apply keeps_hbind; [|intros ?]
    | match goal with
      | |- keeps_registrations (match ?x with _ => _ end) => destruct x
      | |- keeps_registrations (let (_, _) := ?x in _) => destruct x
      end ].

Section OnAnyPython.
Context {python : Datetime.Python}.

Lemma hbind_call_ok {A B} (f : LocalStorage.State -> result (LocalStorage.State * A))
    (k : A -> Handlers.H B) (w : Handlers.World) (st : LocalStorage.State) (a : A) :
  f (Handlers.store w) = Ok (st, a) ->
  Handlers.hbind (Handlers.call f) k w
  = k a {| Handlers.store := st; Handlers.session := Handlers.session w |}.
Proof.
  intros H. unfold Handlers.hbind, Handlers.call. rewrite H.
  now destruct (k a _) as [[w2 out2] r].
Qed.

Lemma hbind_get_session {B} (k : Handlers.fsm -> Handlers.H B) (w : Handlers.World) :
  Handlers.hbind Handlers.get_session k w = k (Handlers.session w) w.
Proof.
  unfold Handlers.hbind, Handlers.get_session. now destruct (k _ w) as [[w2 out2] r].
Qed.

(** The record that [create_registration] stores under the next id carries
    the event, the user and the token it was given. *)
Lemma create_registration_stores (st : LocalStorage.State) (now : Z)
    (user_id event_id full_name qr_token : pyval) (ev : record) (c : Z) :
  LocalStorage.get_event st event_id = Some ev ->
  Py.dict_truthy ev = true ->
  Py.dict_get ev (py "capacity") = Some (PInt c) ->
  exists st' triple reg,
    Sheets.create_registration st now user_id event_id full_name qr_token
    = Ok (st', triple)
    /\ LocalStorage.get_registration st' (PInt (LocalStorage.get_next_registration_id st))
       = Some reg
    /\ Py.dict_get reg (py "event_id") = Some event_id
    /\ Py.dict_get reg (py "user_id") = Some user_id
    /\ Py.dict_get reg (py "qr_token") = Some qr_token.
Proof.
  intros Hev Htr Hcap.
  unfold Sheets.create_registration. rewrite Hev, Htr. cbn [negb].
  unfold Py.item, Py.dict_item. rewrite Hcap. cbn [Py.bind Sheets.ge_int].
  unfold LocalStorage.create_registration, Py.item, Py.dict_item.
  generalize (LocalStorage.stamp now). intros ts.
  literal_keys. cbn [Py.bind fst py_str].
  do 3 eexists. split; [reflexivity|].
  unfold LocalStorage.get_registration. cbn [py_str].
  rewrite coll_save_locally, coll_set_coll_same, dict_get_set_same.
  split; [reflexivity|]. repeat split; literal_keys; reflexivity.
Qed.

(** [process_fullname]: for a valid name and an event with a capacity, the
    registration found under the next id once the handler has ended holds
    the token generated from the provisional key [reg_<user>_<event>], the
    event id and the user id: the same three arguments that
    [take_place_from_waitlist] passes later. *)
Lemma process_fullname_stores_token (cfg : Config) (bot : Handlers.Bot) (now : Z)
    (user_id : pyval) (text e : pystr) (ev : record) (c : Z) (w : Handlers.World) :
  Utils.validate_fullname (Py.strip text) = true ->
  Handlers.session w = Handlers.WaitingFullname e ->
  LocalStorage.get_event (Handlers.store w) (PStr e) = Some ev ->
  Py.dict_truthy ev = true ->
  Py.dict_get ev (py "capacity") = Some (PInt c) ->
  exists reg,
    LocalStorage.get_registration
      (Handlers.store (world_after (Handlers.process_fullname cfg bot now user_id text w)))
      (PInt (LocalStorage.get_next_registration_id (Handlers.store w)))
    = Some reg
    /\ Py.dict_get reg (py "event_id") = Some (PStr e)
    /\ Py.dict_get reg (py "user_id") = Some user_id
    /\ Py.dict_get reg (py "qr_token")
       = Some (PStr (Utils.generate_qr_token cfg
                       (Handlers.provisional_key user_id (PStr e)) (PStr e) user_id)).
Proof.
  intros Hname Hsess Hev Htr Hcap.
  unfold Handlers.process_fullname. rewrite Hname. cbn [negb].
  rewrite hbind_get_session, Hsess, hbind_lift_ok, !hbind_update.
  cbn [Handlers.store Handlers.session].
  set (st1 := {| LocalStorage.data := _; LocalStorage.disk := _; LocalStorage.log := _ |}).
  assert (Hc : forall ty, ty <> LocalStorage.Users ->
                 LocalStorage.coll st1 ty = LocalStorage.coll (Handlers.store w) ty).
  { intros ty Hty. subst st1. unfold LocalStorage.coll at 1. cbn [LocalStorage.data].
    fold (LocalStorage.coll
            (Sheets.update_user_fullname (Handlers.store w) user_id (PStr (strip text))) ty).
    now apply update_user_coll_other. }
  assert (Hev1 : LocalStorage.get_event st1 (PStr e) = Some ev).
  { unfold LocalStorage.get_event. rewrite Hc by discriminate. exact Hev. }
  assert (Hn : LocalStorage.get_next_registration_id st1
               = LocalStorage.get_next_registration_id (Handlers.store w)).
  { unfold LocalStorage.get_next_registration_id. now rewrite Hc by discriminate. }
  destruct (create_registration_stores st1 now user_id (PStr e) (PStr (strip text))
              (PStr (Utils.generate_qr_token cfg
                       (Handlers.provisional_key user_id (PStr e)) (PStr e) user_id))
              ev c Hev1 Htr Hcap)
    as (st' & [[rid status] position] & reg & Hcr & Hreg & Hfields).
  erewrite hbind_call_ok by (cbn [Handlers.store]; exact Hcr). cbn [Handlers.session].
  exists reg. split; [|exact Hfields].
  rewrite <- Hn, <- Hreg. unfold LocalStorage.get_registration. f_equal.
  match goal with
  | |- LocalStorage.coll (Handlers.store (world_after (?m ?w0))) _ = _ =>
      change st' with (Handlers.store w0) at 2;
      generalize w0; change (keeps_registrations m)
  end.
  keep.
Qed.

(* ===================================================================== *)
(** * Capacity and waitlist (sheets.py)                                   *)
(* ===================================================================== *)

(** C1, the defect.  The event has capacity 1 and one participant who has
    checked in ([attended]): one registration is registered-or-attended,
    which is not below the capacity, yet the new registration is created
    as [registered] because only [registered] ones are counted. *)
Theorem attended_seat_is_given_away :
  (LocalStorage.get_registrations_count full_house_store (PStr (py "001"))
     (py "registered")
   + LocalStorage.get_registrations_count full_house_store (PStr (py "001"))
       (py "attended"))%Z = 1%Z
  /\ Py.dict_get capacity_one_event (py "capacity") = Some (PInt 1)
  /\ exists st',
       Sheets.create_registration full_house_store two_days_before
         (PInt 43) (PStr (py "001")) (PStr (py "Petr Sidorov")) (PStr (py "token"))
       = Ok (st', (PInt 2, PStr (py "registered"), PNone)).
Proof.
  split; [vm_compute; reflexivity|]. split; [vm_compute; reflexivity|].
  eexists. vm_compute. reflexivity.
Qed.

End OnAnyPython.

(* ===================================================================== *)
(** * Instances on sample data                                            *)
(* ===================================================================== *)

(** The theorems above hold on every Python.  Their instances below are
    computed on sample data whose timestamps are all of the form
    [isoformat()] writes, which every version reads alike; the interpreter
    is fixed to the one that reads nothing else. *)

Section OnPython310.
Existing Instance Datetime.python_3_10.

Lemma checkin_window_closed_interval_witness :
  (Utils.is_within_checkin_window sample_start sample_event = true
   <-> (sample_start + Datetime.minutes (-60) <= sample_start
        <= sample_start + Datetime.minutes 120)%Z)
  /\ ((-60)%Z = (-60)%Z -> 120%Z = 120%Z ->
      Utils.is_within_checkin_window (sample_start - Datetime.minutes 61) sample_event = false
      /\ Utils.is_within_checkin_window (sample_start - Datetime.minutes 60) sample_event = true
      /\ Utils.is_within_checkin_window (sample_start + Datetime.minutes 120) sample_event = true
      /\ Utils.is_within_checkin_window (sample_start + Datetime.minutes 121) sample_event = false).
Proof.
  apply (checkin_window_closed_interval sample_start sample_event
           (py "2026-11-03T13:30:00+03:00") sample_start (Datetime.hours 3) (-60) 120).
  - reflexivity.
  - vm_compute. reflexivity.
  - vm_compute. reflexivity.
  - vm_compute. reflexivity.
  - split; vm_compute; reflexivity.
  - split; vm_compute; reflexivity.
Defined.

Lemma event_classification_witness :
  exists upcoming past,
    LocalStorage.get_upcoming_events
      (store_of [(py "001", sample_event)] []) (sample_start - Datetime.hours 1)
    = Ok upcoming
    /\ LocalStorage.get_past_events
         (store_of [(py "001", sample_event)] []) (sample_start - Datetime.hours 1)
       = Ok past
    /\ (sample_start = (sample_start - Datetime.hours 1 + Datetime.hours 1)%Z ->
        In (py "001", sample_event) upcoming /\ ~ In (py "001", sample_event) past)
    /\ (sample_start = (sample_start - Datetime.hours 1 - Datetime.hours 3)%Z ->
        In (py "001", sample_event) past /\ ~ In (py "001", sample_event) upcoming)
    /\ (sample_start = (sample_start - Datetime.hours 1 - Datetime.hours 1)%Z ->
        ~ In (py "001", sample_event) upcoming /\ ~ In (py "001", sample_event) past).
Proof.
  apply (event_classification (store_of [(py "001", sample_event)] [])
           (sample_start - Datetime.hours 1) sample_start (py "001") sample_event).
  - repeat constructor.
  - left. reflexivity.
  - split; [reflexivity|].
    exists (py "2026-11-03T13:30:00+03:00"), (Datetime.hours 3).
    split; vm_compute; reflexivity.
Defined.

Lemma token_round_trip_witness :
  Utils.verify_qr_token default_config
    (Utils.generate_qr_token default_config (PInt 7) (PStr (py "001")) (PInt 42))
    (PStr (py "7")) (PStr (py "001")) (PInt 42) = true.
Proof.
  apply (proj1 (proj2 token_round_trip) default_config
           (PInt 7) (PStr (py "001")) (PInt 42)); reflexivity.
Defined.

(** C8, counterexample.  The registration id "7 " differs from "7", yet the
    token generated for ("7", "001", 42) verifies against ("7 ", "001", 42). *)
Lemma changed_component_still_verifies :
  PStr (py "7 ") <> PStr (py "7")
  /\ Utils.verify_qr_token default_config
       (Utils.generate_qr_token default_config (PStr (py "7")) (PStr (py "001")) (PInt 42))
       (PStr (py "7 ")) (PStr (py "001")) (PInt 42) = true.
Proof. split; [discriminate | vm_compute; reflexivity]. Qed.

Lemma admin_token_check_witness :
  exists w' token_valid,
    Handlers.check_token default_config sample_start (py "1")
      (Utils.generate_qr_token default_config (PStr (py "1")) (PStr (py "001")) (PInt 42))
      sample_registration (world_of blocked_user_store)
    = (w', [], Ok token_valid)
    /\ token_valid = true
    /\ exists reg',
         LocalStorage.get_registration (Handlers.store w') (PStr (py "1")) = Some reg'
         /\ Py.dict_get reg' (py "qr_token")
            = Some (PStr (Utils.generate_qr_token default_config
                            (PStr (py "1")) (PStr (py "001")) (PInt 42))).
Proof.
  destruct (admin_token_check default_config sample_start (py "1")
              (Utils.generate_qr_token default_config
                 (PStr (py "1")) (PStr (py "001")) (PInt 42))
              sample_registration (PStr (py "001")) (PInt 42)
              (world_of blocked_user_store))
    as (w' & valid & Hrun & Hiff & Hover & _).
  - vm_compute. reflexivity.
  - vm_compute. reflexivity.
  - vm_compute. reflexivity.
  - exists w', valid. split; [exact Hrun|]. split.
    + apply Hiff. right. vm_compute. reflexivity.
    + apply Hover.
      * vm_compute. discriminate.
      * vm_compute. reflexivity.
Defined.

Lemma sync_is_idempotent_witness :
  Sheets.sync_all_data (fun _ => true) (store_of [(py "001", sample_event)] [])
    (Sheets.sync_all_data (fun _ => true) (store_of [(py "001", sample_event)] [])
       (Some [(py "events", stale_tab)]))
  = Sheets.sync_all_data (fun _ => true) (store_of [(py "001", sample_event)] [])
      (Some [(py "events", stale_tab)])
  /\ exists sh',
       Sheets.sync_all_data (fun _ => true) (store_of [(py "001", sample_event)] [])
         (Some [(py "events", stale_tab)]) = Some sh'
       /\ Py.dict_get sh' (py "events")
          = Some (Sheets.header_row Sheets.events_headers
                    :: map (Sheets.project Sheets.events_headers) [sample_event]).
Proof.
  destruct (sync_is_idempotent (fun _ => true)
              (store_of [(py "001", sample_event)] [])
              (Some [(py "events", stale_tab)])) as [Hidem Htab].
  split; [exact Hidem|].
  apply (Htab "events"%string [(py "001", sample_event)] Sheets.events_headers
           [(py "events", stale_tab)] stale_tab).
  - left. reflexivity.
  - reflexivity.
  - reflexivity.
Defined.

(** C6, counterexample.  With no event in the store, a pass over a
    readable "events" tab that still holds old rows neither clears it nor
    writes the header row: the old rows stay. *)
Lemma sync_keeps_stale_tab :
  Sheets.sync_all_data (fun _ => true) (store_of [] [])
    (Some [(py "events", stale_tab)])
  = Some [(py "events", stale_tab)]
  /\ stale_tab
     <> Sheets.header_row Sheets.events_headers
          :: map (Sheets.project Sheets.events_headers)
               (Py.dict_values (LocalStorage.get_all_events (store_of [] []))).
Proof. split; [vm_compute; reflexivity | discriminate]. Qed.

Lemma blocklist_gate_witness :
  Handlers.start_registration sample_start (PInt 42) (py "register_001")
    (world_of blocked_user_store)
  = (world_of blocked_user_store, [Handlers.Text Handlers.ActionUnavailable], Ok tt).
Proof.
  apply (blocklist_gate sample_start (PInt 42) (world_of blocked_user_store)).
  - vm_compute. reflexivity.
  - vm_compute. reflexivity.
Defined.



End OnPython310.
